(** * LWM: the event-driven window and dialog state machine of [lwm.cpp]

    A shallow embedding of the class [WM] of [src/lwm.cpp]: its instance
    fields are the record [WM], its member functions are computations in a
    small monad that threads the fields, collects the requests sent over the
    X connection and can terminate the process ([std::exit]).

    The X server is outside the repository.  Its replies that change a
    result of the program but that the program cannot influence inside one
    handler (the focused window, map states, fresh identifiers, [fork]) are
    the fields of [Env]; the two pieces of server state that the program
    writes and later reads back (window geometry and the [_NET_WM_STATE]
    property) are the record [XServer], reached through the field [m_conn]. *)

From Stdlib Require Import ZArith Ascii String.
From stdpp Require Import gmap list strings.

Open Scope Z_scope.

(** ** Scalar types and constants *)

Abbreviation xcb_window_t := Z (only parsing).
Abbreviation xcb_atom_t := Z (only parsing).
Abbreviation xcb_keysym_t := Z (only parsing).

Definition XCB_NONE : xcb_window_t := 0.

(** [static constexpr int SNAP_THRESHOLD = 10;] *)
Definition SNAP_THRESHOLD : Z := 10.
Definition RUNNER_WIDTH : Z := 300.
Definition RUNNER_HEIGHT : Z := 50.

Definition BACKGROUND_COLOR : Z := 0x2E3440.
Definition FOREGROUND_COLOR : Z := 0xFFFFFF.
Definition HELP_BG_COLOR : Z := 0x000000.
Definition DEFAULT_FONT : string := "9x15".
Definition RUNNER_FONT : string := "10x20".

(** Values of [<X11/keysym.h>] and of the XCB protocol headers. *)
Definition XK_BackSpace : xcb_keysym_t := 0xff08.
Definition XK_Tab : xcb_keysym_t := 0xff09.
Definition XK_Return : xcb_keysym_t := 0xff0d.
Definition XK_Escape : xcb_keysym_t := 0xff1b.
Definition XK_N : xcb_keysym_t := 0x4e.
Definition XK_Y : xcb_keysym_t := 0x59.
Definition XK_e : xcb_keysym_t := 0x65.
Definition XK_f : xcb_keysym_t := 0x66.
Definition XK_i : xcb_keysym_t := 0x69.
Definition XK_m : xcb_keysym_t := 0x6d.
Definition XK_n : xcb_keysym_t := 0x6e.
Definition XK_q : xcb_keysym_t := 0x71.
Definition XK_r : xcb_keysym_t := 0x72.
Definition XK_y : xcb_keysym_t := 0x79.

Definition XCB_MOD_MASK_SHIFT : Z := 1.
Definition XCB_MOD_MASK_LOCK : Z := 2.
Definition XCB_MOD_MASK_1 : Z := 8.
Definition XCB_MOD_MASK_2 : Z := 16.

Definition XCB_CONFIG_WINDOW_X : Z := 1.
Definition XCB_CONFIG_WINDOW_Y : Z := 2.
Definition XCB_CONFIG_WINDOW_WIDTH : Z := 4.
Definition XCB_CONFIG_WINDOW_HEIGHT : Z := 8.
Definition XCB_CONFIG_WINDOW_BORDER_WIDTH : Z := 16.
Definition XCB_CONFIG_WINDOW_SIBLING : Z := 32.
Definition XCB_CONFIG_WINDOW_STACK_MODE : Z := 64.
Definition XCB_STACK_MODE_ABOVE : Z := 0.
Definition XCB_MAP_STATE_VIEWABLE : Z := 2.
Definition XCB_EVENT_MASK_ENTER_WINDOW : Z := 16.
Definition XCB_EVENT_MASK_EXPOSURE : Z := 32768.
Definition XCB_EVENT_MASK_STRUCTURE_NOTIFY : Z := 131072.
Definition XCB_CW_EVENT_MASK : Z := 2048.
Definition XCB_CURRENT_TIME : Z := 0.

(** Integer conversions of the source: [static_cast<uint32_t>], the
    implicit narrowing to [uint16_t], and the reading of a 32-bit request
    value as the INT16 or CARD16 the X protocol takes from it. *)
Definition uint32 (z : Z) : Z := z mod 2 ^ 32.
Definition uint16 (z : Z) : Z := z mod 2 ^ 16.
Definition int16 (z : Z) : Z :=
  let u := z mod 2 ^ 16 in if u <? 2 ^ 15 then u else u - 2 ^ 16.

(** ** Data of the class *)

(** [struct WindowGeometry { int x; int y; uint16_t width; uint16_t height; }] *)
Record WindowGeometry : Type := mkGeometry {
  g_x : Z;
  g_y : Z;
  g_width : Z;
  g_height : Z
}.

#[global] Instance WindowGeometry_eq_dec : EqDecision WindowGeometry.
Proof. solve_decision. Defined.

(** [struct MoveStart]; the default member initialisers give [no_move]. *)
Record MoveStart : Type := mkMoveStart {
  mv_window : xcb_window_t;
  mv_start_x : Z;
  mv_start_y : Z;
  mv_orig_x : Z;
  mv_orig_y : Z
}.

Definition no_move : MoveStart := mkMoveStart XCB_NONE 0 0 0 0.

(** [struct ResizeStart]; the default member initialisers give [no_resize]. *)
Record ResizeStart : Type := mkResizeStart {
  rs_window : xcb_window_t;
  rs_start_x : Z;
  rs_start_y : Z;
  rs_start_width : Z;
  rs_start_height : Z
}.

Definition no_resize : ResizeStart := mkResizeStart XCB_NONE 0 0 0 0.

(** The part of the X server that the window manager writes and reads back:
    the geometry of every existing window and its [_NET_WM_STATE] atoms. *)
Record XServer : Type := mkXServer {
  x_geometry : gmap xcb_window_t WindowGeometry;
  x_net_wm_state : gmap xcb_window_t (list xcb_atom_t)
}.

(** The instance fields of [class WM].  [m_conn] stands for the connection
    and holds the server state behind it; [m_screen_root] is
    [m_screen->root]; [m_currentWindowIndex] is a [size_t] that only ever
    holds 0, a size minus one or a remainder, so [nat] loses nothing. *)
Record WM : Type := mkWM {
  moveStart : MoveStart;
  resizeStart : ResizeStart;
  m_conn : XServer;
  m_screen_root : xcb_window_t;
  m_screenWidth : Z;
  m_screenHeight : Z;
  m_windowList : list xcb_window_t;
  m_currentWindowIndex : nat;
  m_isRunnerActive : bool;
  m_runnerWindow : xcb_window_t;
  m_runnerInput : string;
  m_isExitConfirmationActive : bool;
  m_exitConfirmationWindow : xcb_window_t;
  m_isHelpActive : bool;
  m_helpWindow : xcb_window_t;
  m_geometryCache : gmap xcb_window_t WindowGeometry;
  m_originalGeometry : gmap xcb_window_t WindowGeometry;
  m_minimizedWindows : list xcb_window_t;
  WM_PROTOCOLS : xcb_atom_t;
  WM_DELETE_WINDOW : xcb_atom_t;
  NET_WM_STATE_FULLSCREEN : xcb_atom_t;
  NET_ACTIVE_WINDOW : xcb_atom_t
}.

(** Assignments to single fields. *)

Definition set_moveStart (v : MoveStart) (s : WM) : WM :=
  mkWM v (resizeStart s) (m_conn s) (m_screen_root s) (m_screenWidth s)
    (m_screenHeight s) (m_windowList s) (m_currentWindowIndex s)
    (m_isRunnerActive s) (m_runnerWindow s) (m_runnerInput s)
    (m_isExitConfirmationActive s) (m_exitConfirmationWindow s)
    (m_isHelpActive s) (m_helpWindow s) (m_geometryCache s)
    (m_originalGeometry s) (m_minimizedWindows s) (WM_PROTOCOLS s)
    (WM_DELETE_WINDOW s) (NET_WM_STATE_FULLSCREEN s) (NET_ACTIVE_WINDOW s).

Definition set_resizeStart (v : ResizeStart) (s : WM) : WM :=
  mkWM (moveStart s) v (m_conn s) (m_screen_root s) (m_screenWidth s)
    (m_screenHeight s) (m_windowList s) (m_currentWindowIndex s)
    (m_isRunnerActive s) (m_runnerWindow s) (m_runnerInput s)
    (m_isExitConfirmationActive s) (m_exitConfirmationWindow s)
    (m_isHelpActive s) (m_helpWindow s) (m_geometryCache s)
    (m_originalGeometry s) (m_minimizedWindows s) (WM_PROTOCOLS s)
    (WM_DELETE_WINDOW s) (NET_WM_STATE_FULLSCREEN s) (NET_ACTIVE_WINDOW s).

Definition set_m_conn (v : XServer) (s : WM) : WM :=
  mkWM (moveStart s) (resizeStart s) v (m_screen_root s) (m_screenWidth s)
    (m_screenHeight s) (m_windowList s) (m_currentWindowIndex s)
    (m_isRunnerActive s) (m_runnerWindow s) (m_runnerInput s)
    (m_isExitConfirmationActive s) (m_exitConfirmationWindow s)
    (m_isHelpActive s) (m_helpWindow s) (m_geometryCache s)
    (m_originalGeometry s) (m_minimizedWindows s) (WM_PROTOCOLS s)
    (WM_DELETE_WINDOW s) (NET_WM_STATE_FULLSCREEN s) (NET_ACTIVE_WINDOW s).

Definition set_m_windowList (v : list xcb_window_t) (s : WM) : WM :=
  mkWM (moveStart s) (resizeStart s) (m_conn s) (m_screen_root s)
    (m_screenWidth s) (m_screenHeight s) v (m_currentWindowIndex s)
    (m_isRunnerActive s) (m_runnerWindow s) (m_runnerInput s)
    (m_isExitConfirmationActive s) (m_exitConfirmationWindow s)
    (m_isHelpActive s) (m_helpWindow s) (m_geometryCache s)
    (m_originalGeometry s) (m_minimizedWindows s) (WM_PROTOCOLS s)
    (WM_DELETE_WINDOW s) (NET_WM_STATE_FULLSCREEN s) (NET_ACTIVE_WINDOW s).

Definition set_m_currentWindowIndex (v : nat) (s : WM) : WM :=
  mkWM (moveStart s) (resizeStart s) (m_conn s) (m_screen_root s)
    (m_screenWidth s) (m_screenHeight s) (m_windowList s) v
    (m_isRunnerActive s) (m_runnerWindow s) (m_runnerInput s)
    (m_isExitConfirmationActive s) (m_exitConfirmationWindow s)
    (m_isHelpActive s) (m_helpWindow s) (m_geometryCache s)
    (m_originalGeometry s) (m_minimizedWindows s) (WM_PROTOCOLS s)
    (WM_DELETE_WINDOW s) (NET_WM_STATE_FULLSCREEN s) (NET_ACTIVE_WINDOW s).

Definition set_m_isRunnerActive (v : bool) (s : WM) : WM :=
  mkWM (moveStart s) (resizeStart s) (m_conn s) (m_screen_root s)
    (m_screenWidth s) (m_screenHeight s) (m_windowList s)
    (m_currentWindowIndex s) v (m_runnerWindow s) (m_runnerInput s)
    (m_isExitConfirmationActive s) (m_exitConfirmationWindow s)
    (m_isHelpActive s) (m_helpWindow s) (m_geometryCache s)
    (m_originalGeometry s) (m_minimizedWindows s) (WM_PROTOCOLS s)
    (WM_DELETE_WINDOW s) (NET_WM_STATE_FULLSCREEN s) (NET_ACTIVE_WINDOW s).

Definition set_m_runnerWindow (v : xcb_window_t) (s : WM) : WM :=
  mkWM (moveStart s) (resizeStart s) (m_conn s) (m_screen_root s)
    (m_screenWidth s) (m_screenHeight s) (m_windowList s)
    (m_currentWindowIndex s) (m_isRunnerActive s) v (m_runnerInput s)
    (m_isExitConfirmationActive s) (m_exitConfirmationWindow s)
    (m_isHelpActive s) (m_helpWindow s) (m_geometryCache s)
    (m_originalGeometry s) (m_minimizedWindows s) (WM_PROTOCOLS s)
    (WM_DELETE_WINDOW s) (NET_WM_STATE_FULLSCREEN s) (NET_ACTIVE_WINDOW s).

Definition set_m_runnerInput (v : string) (s : WM) : WM :=
  mkWM (moveStart s) (resizeStart s) (m_conn s) (m_screen_root s)
    (m_screenWidth s) (m_screenHeight s) (m_windowList s)
    (m_currentWindowIndex s) (m_isRunnerActive s) (m_runnerWindow s) v
    (m_isExitConfirmationActive s) (m_exitConfirmationWindow s)
    (m_isHelpActive s) (m_helpWindow s) (m_geometryCache s)
    (m_originalGeometry s) (m_minimizedWindows s) (WM_PROTOCOLS s)
    (WM_DELETE_WINDOW s) (NET_WM_STATE_FULLSCREEN s) (NET_ACTIVE_WINDOW s).

Definition set_m_isExitConfirmationActive (v : bool) (s : WM) : WM :=
  mkWM (moveStart s) (resizeStart s) (m_conn s) (m_screen_root s)
    (m_screenWidth s) (m_screenHeight s) (m_windowList s)
    (m_currentWindowIndex s) (m_isRunnerActive s) (m_runnerWindow s)
    (m_runnerInput s) v (m_exitConfirmationWindow s) (m_isHelpActive s)
    (m_helpWindow s) (m_geometryCache s) (m_originalGeometry s)
    (m_minimizedWindows s) (WM_PROTOCOLS s) (WM_DELETE_WINDOW s)
    (NET_WM_STATE_FULLSCREEN s) (NET_ACTIVE_WINDOW s).

Definition set_m_exitConfirmationWindow (v : xcb_window_t) (s : WM) : WM :=
  mkWM (moveStart s) (resizeStart s) (m_conn s) (m_screen_root s)
    (m_screenWidth s) (m_screenHeight s) (m_windowList s)
    (m_currentWindowIndex s) (m_isRunnerActive s) (m_runnerWindow s)
    (m_runnerInput s) (m_isExitConfirmationActive s) v (m_isHelpActive s)
    (m_helpWindow s) (m_geometryCache s) (m_originalGeometry s)
    (m_minimizedWindows s) (WM_PROTOCOLS s) (WM_DELETE_WINDOW s)
    (NET_WM_STATE_FULLSCREEN s) (NET_ACTIVE_WINDOW s).

Definition set_m_isHelpActive (v : bool) (s : WM) : WM :=
  mkWM (moveStart s) (resizeStart s) (m_conn s) (m_screen_root s)
    (m_screenWidth s) (m_screenHeight s) (m_windowList s)
    (m_currentWindowIndex s) (m_isRunnerActive s) (m_runnerWindow s)
    (m_runnerInput s) (m_isExitConfirmationActive s)
    (m_exitConfirmationWindow s) v (m_helpWindow s) (m_geometryCache s)
    (m_originalGeometry s) (m_minimizedWindows s) (WM_PROTOCOLS s)
    (WM_DELETE_WINDOW s) (NET_WM_STATE_FULLSCREEN s) (NET_ACTIVE_WINDOW s).

Definition set_m_helpWindow (v : xcb_window_t) (s : WM) : WM :=
  mkWM (moveStart s) (resizeStart s) (m_conn s) (m_screen_root s)
    (m_screenWidth s) (m_screenHeight s) (m_windowList s)
    (m_currentWindowIndex s) (m_isRunnerActive s) (m_runnerWindow s)
    (m_runnerInput s) (m_isExitConfirmationActive s)
    (m_exitConfirmationWindow s) (m_isHelpActive s) v (m_geometryCache s)
    (m_originalGeometry s) (m_minimizedWindows s) (WM_PROTOCOLS s)
    (WM_DELETE_WINDOW s) (NET_WM_STATE_FULLSCREEN s) (NET_ACTIVE_WINDOW s).

Definition set_m_geometryCache (v : gmap xcb_window_t WindowGeometry) (s : WM) : WM :=
  mkWM (moveStart s) (resizeStart s) (m_conn s) (m_screen_root s)
    (m_screenWidth s) (m_screenHeight s) (m_windowList s)
    (m_currentWindowIndex s) (m_isRunnerActive s) (m_runnerWindow s)
    (m_runnerInput s) (m_isExitConfirmationActive s)
    (m_exitConfirmationWindow s) (m_isHelpActive s) (m_helpWindow s) v
    (m_originalGeometry s) (m_minimizedWindows s) (WM_PROTOCOLS s)
    (WM_DELETE_WINDOW s) (NET_WM_STATE_FULLSCREEN s) (NET_ACTIVE_WINDOW s).

Definition set_m_originalGeometry (v : gmap xcb_window_t WindowGeometry) (s : WM) : WM :=
  mkWM (moveStart s) (resizeStart s) (m_conn s) (m_screen_root s)
    (m_screenWidth s) (m_screenHeight s) (m_windowList s)
    (m_currentWindowIndex s) (m_isRunnerActive s) (m_runnerWindow s)
    (m_runnerInput s) (m_isExitConfirmationActive s)
    (m_exitConfirmationWindow s) (m_isHelpActive s) (m_helpWindow s)
    (m_geometryCache s) v (m_minimizedWindows s) (WM_PROTOCOLS s)
    (WM_DELETE_WINDOW s) (NET_WM_STATE_FULLSCREEN s) (NET_ACTIVE_WINDOW s).

Definition set_m_minimizedWindows (v : list xcb_window_t) (s : WM) : WM :=
  mkWM (moveStart s) (resizeStart s) (m_conn s) (m_screen_root s)
    (m_screenWidth s) (m_screenHeight s) (m_windowList s)
    (m_currentWindowIndex s) (m_isRunnerActive s) (m_runnerWindow s)
    (m_runnerInput s) (m_isExitConfirmationActive s)
    (m_exitConfirmationWindow s) (m_isHelpActive s) (m_helpWindow s)
    (m_geometryCache s) (m_originalGeometry s) v (WM_PROTOCOLS s)
    (WM_DELETE_WINDOW s) (NET_WM_STATE_FULLSCREEN s) (NET_ACTIVE_WINDOW s).

(** The three dialogs; [createPopUpWindow] and [destroyPopUpWindow] take
    the window variable and the active flag of one of them by reference. *)
Inductive Dialog : Type := Runner | ExitConfirmation | Help.

#[global] Instance Dialog_eq_dec : EqDecision Dialog.
Proof. solve_decision. Defined.

Definition activeFlag (d : Dialog) (s : WM) : bool :=
  match d with
  | Runner => m_isRunnerActive s
  | ExitConfirmation => m_isExitConfirmationActive s
  | Help => m_isHelpActive s
  end.

Definition winVar (d : Dialog) (s : WM) : xcb_window_t :=
  match d with
  | Runner => m_runnerWindow s
  | ExitConfirmation => m_exitConfirmationWindow s
  | Help => m_helpWindow s
  end.

Definition set_activeFlag (d : Dialog) (b : bool) : WM -> WM :=
  match d with
  | Runner => set_m_isRunnerActive b
  | ExitConfirmation => set_m_isExitConfirmationActive b
  | Help => set_m_isHelpActive b
  end.

Definition set_winVar (d : Dialog) (w : xcb_window_t) : WM -> WM :=
  match d with
  | Runner => set_m_runnerWindow w
  | ExitConfirmation => set_m_exitConfirmationWindow w
  | Help => set_m_helpWindow w
  end.

(** ** Requests and replies *)

(** Events the window manager synthesises with [xcb_send_event]. *)
Inductive SentEvent : Type :=
| ClientMessageEvent (window : xcb_window_t) (type data0 data1 : Z)
| ConfigureNotifyEvent (window : xcb_window_t) (g : WindowGeometry)
| ExposeEvent (window : xcb_window_t) (width height : Z).

(** What a handler asks of its collaborators, in program order: the XCB
    requests on [m_conn], the two drawing primitives, and the shell that
    [executeCommand] starts in a forked child. *)
Inductive Request : Type :=
| ConfigureWindow (w : xcb_window_t) (mask : Z) (vals : list Z)
| MapWindow (w : xcb_window_t)
| UnmapWindow (w : xcb_window_t)
| CreateWindow (w : xcb_window_t) (x y width height : Z)
| DestroyWindow (w : xcb_window_t)
| ChangeWMName (w : xcb_window_t) (title : string)
| ChangeWindowAttributes (w : xcb_window_t) (mask value : Z)
| SetWMState (w : xcb_window_t) (atoms : list xcb_atom_t)
| SetInputFocus (w : xcb_window_t)
| SendEvent (w : xcb_window_t) (mask : Z) (ev : SentEvent)
| GetGeometry (w : xcb_window_t)
| GetWindowAttributes (w : xcb_window_t)
| GetNetWMState (w : xcb_window_t)
| GetInputFocus
| GetWMProtocols (w : xcb_window_t)
| PolyFillRectangle (w : xcb_window_t) (colour width height : Z)
| DrawText (w : xcb_window_t) (font text : string) (x y fg bg : Z)
| Shell (cmd : string)
| Flush.

(** [xcb_get_window_attributes_reply_t], the two fields that are read. *)
Record WindowAttributes : Type := mkAttributes {
  map_state : Z;
  override_redirect : bool
}.

(** The replies a handler receives during one event. *)
Record Env : Type := mkEnv {
  (** the identifier [xcb_generate_id] hands out *)
  generate_id : xcb_window_t;
  (** [xcb_get_input_focus_reply]: the focus window, or no reply *)
  input_focus_reply : option xcb_window_t;
  (** [xcb_get_window_attributes_reply], or no reply *)
  window_attributes_reply : xcb_window_t -> option WindowAttributes;
  (** [xcb_icccm_get_wm_protocols_reply]: the atoms, or failure *)
  wm_protocols_reply : xcb_window_t -> option (list xcb_atom_t);
  (** the value [fork] returns in the window manager's process *)
  fork : Z;
  (** [xcb_key_symbols_get_keysym] on [m_keysyms]: keycode and column *)
  key_symbols : Z -> Z -> xcb_keysym_t
}.

(** ** The monad of member functions *)

Inductive Res (A : Type) : Type :=
| Ret (a : A) (s : WM) (out : list Request)
| Exit (code : Z) (out : list Request).

Arguments Ret {A} a s out.
Arguments Exit {A} code out.

Definition M (A : Type) : Type := WM -> Res A.

Definition ret {A} (a : A) : M A := fun s => Ret a s [].

Definition bind {A B} (m : M A) (f : A -> M B) : M B := fun s =>
  match m s with
  | Ret a s1 o1 =>
      match f a s1 with
      | Ret b s2 o2 => Ret b s2 (o1 ++ o2)
      | Exit c o2 => Exit c (o1 ++ o2)
      end
  | Exit c o1 => Exit c o1
  end.

Notation "x <- m ;; k" := (bind m (fun x => k))
  (at level 100, m at next level, right associativity).
Notation "m ;; k" := (bind m (fun _ => k))
  (at level 100, right associativity).

Definition get : M WM := fun s => Ret s s [].
Definition modify (f : WM -> WM) : M unit := fun s => Ret tt (f s) [].
Definition send (r : Request) : M unit := fun s => Ret tt s [r].
Definition exit (code : Z) : M unit := fun _ => Exit code [].

(** The requests [o1] made before those of the result [r]. *)
Definition prepend {A} (o1 : list Request) (r : Res A) : Res A :=
  match r with
  | Ret b s2 o2 => Ret b s2 (o1 ++ o2)
  | Exit c o2 => Exit c (o1 ++ o2)
  end.

(** The state a computation ends in and the requests it made, when it
    returns. *)
Definition state_of {A} (r : Res A) (dflt : WM) : WM :=
  match r with Ret _ s _ => s | Exit _ _ => dflt end.

Definition requests_of {A} (r : Res A) : list Request :=
  match r with Ret _ _ out => out | Exit _ out => out end.

(** ** The X connection [m_conn] *)

(** One value of a ConfigureWindow request: present when [bit] is set in
    the mask, and then the next of [vals]. *)
Definition config_value (bit : Z) (mask : Z) (vals : list Z)
  : option Z * list Z :=
  if Z.testbit mask bit then
    match vals with
    | v :: rest => (Some v, rest)
    | [] => (None, [])
    end
  else (None, vals).

(** The geometry a ConfigureWindow request leaves: the values follow the
    order of the mask bits; x and y are INT16, width and height CARD16. *)
Definition configure_geometry (mask : Z) (vals : list Z) (g : WindowGeometry)
  : WindowGeometry :=
  let '(vx, vals) := config_value 0 mask vals in
  let '(vy, vals) := config_value 1 mask vals in
  let '(vw, vals) := config_value 2 mask vals in
  let '(vh, vals) := config_value 3 mask vals in
  mkGeometry (from_option int16 (g_x g) vx) (from_option int16 (g_y g) vy)
    (from_option uint16 (g_width g) vw) (from_option uint16 (g_height g) vh).

Definition server_configure (w : xcb_window_t) (mask : Z) (vals : list Z)
    (x : XServer) : XServer :=
  match x_geometry x !! w with
  | Some g =>
      mkXServer (<[w := configure_geometry mask vals g]> (x_geometry x))
        (x_net_wm_state x)
  | None => x
  end.

Definition server_create (w : xcb_window_t) (g : WindowGeometry)
    (x : XServer) : XServer :=
  mkXServer (<[w := g]> (x_geometry x)) (delete w (x_net_wm_state x)).

Definition server_destroy (w : xcb_window_t) (x : XServer) : XServer :=
  mkXServer (delete w (x_geometry x)) (delete w (x_net_wm_state x)).

Definition server_set_wm_state (w : xcb_window_t) (atoms : list xcb_atom_t)
    (x : XServer) : XServer :=
  match x_geometry x !! w with
  | Some _ => mkXServer (x_geometry x) (<[w := atoms]> (x_net_wm_state x))
  | None => x
  end.

Definition on_server (f : XServer -> XServer) : M unit :=
  modify (fun s => set_m_conn (f (m_conn s)) s).

Definition xcb_flush : M unit := send Flush.

Definition xcb_configure_window (w : xcb_window_t) (mask : Z)
    (vals : list Z) : M unit :=
  send (ConfigureWindow w mask vals) ;;
  on_server (server_configure w mask vals).

Definition xcb_map_window (w : xcb_window_t) : M unit := send (MapWindow w).

Definition xcb_unmap_window (w : xcb_window_t) : M unit :=
  send (UnmapWindow w).

Definition xcb_set_input_focus (w : xcb_window_t) : M unit :=
  send (SetInputFocus w).

Definition xcb_create_window (w : xcb_window_t) (x y width height : Z)
  : M unit :=
  send (CreateWindow w x y width height) ;;
  on_server (server_create w
    (mkGeometry (int16 x) (int16 y) (uint16 width) (uint16 height))).

Definition xcb_destroy_window (w : xcb_window_t) : M unit :=
  send (DestroyWindow w) ;;
  on_server (server_destroy w).

Definition xcb_send_event (w : xcb_window_t) (mask : Z) (ev : SentEvent)
  : M unit :=
  send (SendEvent w mask ev).

(** [xcb_ewmh_set_wm_state] replaces the whole [_NET_WM_STATE] property by
    the atoms given. *)
Definition xcb_ewmh_set_wm_state (w : xcb_window_t)
    (atoms : list xcb_atom_t) : M unit :=
  send (SetWMState w atoms) ;;
  on_server (server_set_wm_state w atoms).

(** [xcb_get_geometry_reply]: no reply for a window that does not exist. *)
Definition xcb_get_geometry (w : xcb_window_t) : M (option WindowGeometry) :=
  send (GetGeometry w) ;;
  s <- get ;;
  ret (x_geometry (m_conn s) !! w).

(** [xcb_get_property_reply] for [NET_WM_STATE]: the atoms of the value,
    none when the property or the window is missing. *)
Definition xcb_get_net_wm_state (w : xcb_window_t) : M (list xcb_atom_t) :=
  send (GetNetWMState w) ;;
  s <- get ;;
  ret (default [] (x_net_wm_state (m_conn s) !! w)).

Definition xcb_get_window_attributes (env : Env) (w : xcb_window_t)
  : M (option WindowAttributes) :=
  send (GetWindowAttributes w) ;;
  ret (window_attributes_reply env w).

(** ** Member functions of [WM] *)

(** [WM::invalidateGeometryCache] *)
Definition invalidateGeometryCache (w : xcb_window_t) : M unit :=
  modify (fun s => set_m_geometryCache (delete w (m_geometryCache s)) s).

(** [WM::getWindowGeometry] *)
Definition getWindowGeometry (w : xcb_window_t) : M WindowGeometry :=
  s <- get ;;
  match m_geometryCache s !! w with
  | Some g => ret g
  | None =>
      geom <- xcb_get_geometry w ;;
      match geom with
      | None => ret (mkGeometry 0 0 100 100)
      | Some wg =>
          modify (fun s => set_m_geometryCache (<[w := wg]> (m_geometryCache s)) s) ;;
          ret wg
      end
  end.

(** [WM::focusWindow] *)
Definition focusWindow (w : xcb_window_t) : M unit :=
  if decide (w = XCB_NONE) then ret tt
  else
    xcb_configure_window w XCB_CONFIG_WINDOW_STACK_MODE [XCB_STACK_MODE_ABOVE] ;;
    xcb_map_window w ;;
    xcb_set_input_focus w ;;
    xcb_flush.

(** The body of the [for] loop of [WM::focusNextWindow]; [n] counts the
    iterations that remain, [sz] is the size read before the loop. *)
Fixpoint focusNextWindow_loop (env : Env) (sz : nat) (n : nat) : M unit :=
  match n with
  | O => ret tt
  | S n' =>
      modify (fun s =>
        set_m_currentWindowIndex ((m_currentWindowIndex s + 1) mod sz)%nat s) ;;
      s <- get ;;
      let w := nth (m_currentWindowIndex s) (m_windowList s) XCB_NONE in
      ar <- xcb_get_window_attributes env w ;;
      match ar with
      | Some a =>
          if decide (map_state a = XCB_MAP_STATE_VIEWABLE) then focusWindow w
          else focusNextWindow_loop env sz n'
      | None => focusNextWindow_loop env sz n'
      end
  end.

(** [WM::focusNextWindow] *)
Definition focusNextWindow (env : Env) : M unit :=
  s <- get ;;
  match m_windowList s with
  | [] => ret tt
  | _ =>
      let sz := length (m_windowList s) in
      focusNextWindow_loop env sz sz
  end.

(** *** Events *)

Record xcb_key_press_event_t : Type := mkKeyPress {
  kp_detail : Z;
  kp_state : Z
}.

Record xcb_button_press_event_t : Type := mkButtonPress {
  bp_detail : Z;
  bp_event : xcb_window_t;
  bp_child : xcb_window_t;
  bp_root_x : Z;
  bp_root_y : Z;
  bp_state : Z
}.

Record xcb_motion_notify_event_t : Type := mkMotionNotify {
  mn_root_x : Z;
  mn_root_y : Z
}.

Record xcb_configure_request_event_t : Type := mkConfigureRequest {
  cr_window : xcb_window_t;
  cr_value_mask : Z;
  cr_x : Z;
  cr_y : Z;
  cr_width : Z;
  cr_height : Z;
  cr_border_width : Z;
  cr_sibling : Z;
  cr_stack_mode : Z
}.

Record xcb_expose_event_t : Type := mkExpose {
  ex_window : xcb_window_t;
  ex_width : Z;
  ex_height : Z
}.

Record xcb_client_message_event_t : Type := mkClientMessage {
  cm_window : xcb_window_t;
  cm_type : xcb_atom_t;
  cm_data0 : Z;
  cm_data1 : Z
}.

(** [(ev->state & XCB_MOD_MASK_1)] converted to [bool] *)
Definition altPressed (state : Z) : bool :=
  negb (Z.land state XCB_MOD_MASK_1 =? 0).

(** *** Gestures *)

(** [WM::handleButtonPress] *)
Definition handleButtonPress (ev : xcb_button_press_event_t) : M unit :=
  s <- get ;;
  if (m_isExitConfirmationActive s
        && bool_decide (bp_event ev = m_exitConfirmationWindow s))
     || (m_isRunnerActive s && bool_decide (bp_event ev = m_runnerWindow s))
     || (m_isHelpActive s && bool_decide (bp_event ev = m_helpWindow s))
  then ret tt
  else if negb (altPressed (bp_state ev)) then ret tt
  else if decide (bp_child ev = XCB_NONE) then ret tt
  else
    let w := bp_child ev in
    geom <- getWindowGeometry w ;;
    if decide (bp_detail ev = 1) then
      modify (set_moveStart
        (mkMoveStart w (bp_root_x ev) (bp_root_y ev) (g_x geom) (g_y geom)))
    else if decide (bp_detail ev = 3) then
      modify (set_resizeStart
        (mkResizeStart w (bp_root_x ev) (bp_root_y ev)
           (g_width geom) (g_height geom)))
    else ret tt.

(** [WM::handleMotionNotify] *)
Definition handleMotionNotify (ev : xcb_motion_notify_event_t) : M unit :=
  s <- get ;;
  if decide (mv_window (moveStart s) ≠ XCB_NONE) then
    let dx := mn_root_x ev - mv_start_x (moveStart s) in
    let dy := mn_root_y ev - mv_start_y (moveStart s) in
    let newX := mv_orig_x (moveStart s) + dx in
    let newY := mv_orig_y (moveStart s) + dy in
    winGeom <- getWindowGeometry (mv_window (moveStart s)) ;;
    let newX := if decide (Z.abs newX < SNAP_THRESHOLD) then 0 else newX in
    let newY := if decide (Z.abs newY < SNAP_THRESHOLD) then 0 else newY in
    let newX :=
      if decide (Z.abs ((newX + g_width winGeom) - m_screenWidth s)
                 < SNAP_THRESHOLD)
      then m_screenWidth s - g_width winGeom else newX in
    let newY :=
      if decide (Z.abs ((newY + g_height winGeom) - m_screenHeight s)
                 < SNAP_THRESHOLD)
      then m_screenHeight s - g_height winGeom else newY in
    xcb_configure_window (mv_window (moveStart s))
      (Z.lor XCB_CONFIG_WINDOW_X XCB_CONFIG_WINDOW_Y)
      [uint32 newX; uint32 newY] ;;
    invalidateGeometryCache (mv_window (moveStart s)) ;;
    xcb_flush
  else if decide (rs_window (resizeStart s) ≠ XCB_NONE) then
    let dx := mn_root_x ev - rs_start_x (resizeStart s) in
    let dy := mn_root_y ev - rs_start_y (resizeStart s) in
    let nw := uint16 (Z.max (rs_start_width (resizeStart s) + dx) 50) in
    let nh := uint16 (Z.max (rs_start_height (resizeStart s) + dy) 50) in
    xcb_configure_window (rs_window (resizeStart s))
      (Z.lor XCB_CONFIG_WINDOW_WIDTH XCB_CONFIG_WINDOW_HEIGHT) [nw; nh] ;;
    invalidateGeometryCache (rs_window (resizeStart s)) ;;
    xcb_flush
  else ret tt.

(** [WM::handleButtonRelease] *)
Definition handleButtonRelease : M unit :=
  modify (set_moveStart no_move) ;;
  modify (set_resizeStart no_resize).

(** *** Fullscreen *)

Definition XCB_CONFIG_WINDOW_XYWH : Z :=
  Z.lor (Z.lor (Z.lor XCB_CONFIG_WINDOW_X XCB_CONFIG_WINDOW_Y)
           XCB_CONFIG_WINDOW_WIDTH) XCB_CONFIG_WINDOW_HEIGHT.

(** [WM::toggleFullscreen]; the property is read with a length of 1024. *)
Definition toggleFullscreen (w : xcb_window_t) : M unit :=
  if decide (w = 0) then ret tt
  else
    states <- xcb_get_net_wm_state w ;;
    s <- get ;;
    let isFS := bool_decide (NET_WM_STATE_FULLSCREEN s ∈ take 1024 states) in
    (if negb isFS then
       g <- getWindowGeometry w ;;
       modify (fun s => set_m_originalGeometry (<[w := g]> (m_originalGeometry s)) s) ;;
       xcb_ewmh_set_wm_state w [NET_WM_STATE_FULLSCREEN s] ;;
       xcb_configure_window w XCB_CONFIG_WINDOW_XYWH
         [0; 0; uint32 (m_screenWidth s); uint32 (m_screenHeight s)]
     else
       (match m_originalGeometry s !! w with
        | Some g =>
            xcb_configure_window w XCB_CONFIG_WINDOW_XYWH
              [uint32 (g_x g); uint32 (g_y g); g_width g; g_height g] ;;
            modify (fun s => set_m_originalGeometry (delete w (m_originalGeometry s)) s)
        | None => ret tt
        end) ;;
       xcb_ewmh_set_wm_state w []) ;;
    invalidateGeometryCache w ;;
    xcb_flush.

(** *** Dialogs *)

(** [WM::resetFocus] *)
Definition resetFocus : M unit :=
  s <- get ;;
  match m_windowList s with
  | [] => xcb_set_input_focus (m_screen_root s) ;; xcb_flush
  | _ => focusWindow (List.last (m_windowList s) XCB_NONE)
  end.

(** [std::find] followed by [erase] of the position found. *)
Fixpoint erase_first (w : xcb_window_t) (l : list xcb_window_t)
  : list xcb_window_t :=
  match l with
  | [] => []
  | v :: l' => if decide (v = w) then l' else v :: erase_first w l'
  end.

(** [WM::createPopUpWindow]; [d] stands for the references [winVar] and
    [activeFlag]. *)
Definition createPopUpWindow (env : Env) (title : string) (d : Dialog)
    (width height : Z) : M unit :=
  s <- get ;;
  if activeFlag d s then ret tt
  else
    modify (set_activeFlag d true) ;;
    modify (set_winVar d (generate_id env)) ;;
    let win := generate_id env in
    let x := (m_screenWidth s - width) ÷ 2 in
    let y := (m_screenHeight s - height) ÷ 2 in
    xcb_create_window win x y width height ;;
    send (ChangeWMName win title) ;;
    xcb_map_window win ;;
    modify (fun s => set_m_windowList (m_windowList s ++ [win]) s) ;;
    modify (fun s =>
      set_m_currentWindowIndex (length (m_windowList s) - 1)%nat s) ;;
    focusWindow win ;;
    xcb_flush.

(** [WM::destroyPopUpWindow] *)
Definition destroyPopUpWindow (d : Dialog) : M unit :=
  s <- get ;;
  if negb (activeFlag d s) || bool_decide (winVar d s = XCB_NONE) then ret tt
  else
    let win := winVar d s in
    xcb_unmap_window win ;;
    xcb_destroy_window win ;;
    (if decide (win ∈ m_windowList s) then
       modify (fun s => set_m_windowList (erase_first win (m_windowList s)) s) ;;
       modify (fun s =>
         if decide (length (m_windowList s) ≤ m_currentWindowIndex s)%nat
         then set_m_currentWindowIndex 0%nat s else s)
     else ret tt) ;;
    modify (set_winVar d XCB_NONE) ;;
    modify (set_activeFlag d false) ;;
    xcb_flush ;;
    resetFocus.

Definition createExitConfirmationDialog (env : Env) : M unit :=
  createPopUpWindow env "Confirm Exit" ExitConfirmation 300 100.

Definition destroyExitConfirmationDialog : M unit :=
  destroyPopUpWindow ExitConfirmation.

(** [WM::handleExitConfirmationKeypress] *)
Definition handleExitConfirmationKeypress (ks : xcb_keysym_t) : M unit :=
  if decide (ks = XK_y ∨ ks = XK_Y) then exit 0
  else if decide (ks = XK_n ∨ ks = XK_Escape) then
    destroyExitConfirmationDialog
  else ret tt.

Definition createRunnerDialog (env : Env) : M unit :=
  createPopUpWindow env "Run Program" Runner RUNNER_WIDTH RUNNER_HEIGHT ;;
  modify (set_m_runnerInput "").

Definition destroyRunnerDialog : M unit :=
  destroyPopUpWindow Runner ;;
  modify (set_m_runnerInput "").

Definition createHelpDialog (env : Env) : M unit :=
  createPopUpWindow env "Key Bindings" Help 400 240.

Definition destroyHelpDialog : M unit :=
  destroyPopUpWindow Help.

(** [std::string::push_back] and [pop_back] (on a non-empty string). *)
Definition push_back (str : string) (c : ascii) : string :=
  (str ++ String c "")%string.

Fixpoint pop_back (str : string) : string :=
  match str with
  | EmptyString => EmptyString
  | String c EmptyString => EmptyString
  | String c rest => String c (pop_back rest)
  end.

(** [WM::executeCommand]; the child calls [setsid], closes its descriptors
    and runs [/bin/sh -c cmd].  [Logger::log] discards the message
    ([DEBUG_LOGS] is not defined). *)
Definition executeCommand (env : Env) (cmd : string) : M unit :=
  if decide (cmd = ""%string) then ret tt
  else if decide (fork env < 0) then ret tt
  else send (Shell cmd).

(** [WM::redrawRunnerDialog] *)
Definition redrawRunnerDialog : M unit :=
  s <- get ;;
  if negb (m_isRunnerActive s) || bool_decide (m_runnerWindow s = XCB_NONE)
  then ret tt
  else
    xcb_send_event (m_runnerWindow s) XCB_EVENT_MASK_EXPOSURE
      (ExposeEvent (m_runnerWindow s) RUNNER_WIDTH RUNNER_HEIGHT) ;;
    xcb_flush.

(** [WM::handleRunnerInput] *)
Definition handleRunnerInput (env : Env) (ks : xcb_keysym_t) : M unit :=
  if decide (ks = XK_Escape) then destroyRunnerDialog
  else if decide (ks = XK_Return) then
    s <- get ;;
    executeCommand env (m_runnerInput s) ;;
    destroyRunnerDialog
  else if decide (ks = XK_BackSpace) then
    s <- get ;;
    if decide (m_runnerInput s ≠ ""%string) then
      modify (fun s => set_m_runnerInput (pop_back (m_runnerInput s)) s) ;;
      redrawRunnerDialog
    else ret tt
  else
    if decide (32 ≤ ks ∧ ks ≤ 126) then
      modify (fun s =>
        set_m_runnerInput
          (push_back (m_runnerInput s) (ascii_of_N (Z.to_N ks))) s) ;;
      redrawRunnerDialog
    else ret tt.

(** *** The keyboard *)

(** [WM::getKeysym] *)
Definition getKeysym (env : Env) (code : Z) (state : Z) : xcb_keysym_t :=
  let state :=
    uint16 (Z.land state
              (Z.lnot (Z.lor XCB_MOD_MASK_LOCK XCB_MOD_MASK_2))) in
  let col := if decide (Z.land state XCB_MOD_MASK_SHIFT ≠ 0) then 1 else 0 in
  key_symbols env code col.

(** The lambda [getFocusedWindow] of [WM::handleKeyPress]. *)
Definition getFocusedWindow (env : Env) : M xcb_window_t :=
  send GetInputFocus ;;
  ret (default XCB_NONE (input_focus_reply env)).

(** [case XK_e] of [WM::handleKeyPress] *)
Definition closeWindow (env : Env) (foc : xcb_window_t) : M unit :=
  s <- get ;;
  send (GetWMProtocols foc) ;;
  match wm_protocols_reply env foc with
  | Some atoms =>
      let hasWMDelete := bool_decide (WM_DELETE_WINDOW s ∈ atoms) in
      (if hasWMDelete then
         xcb_send_event foc 0
           (ClientMessageEvent foc (WM_PROTOCOLS s) (WM_DELETE_WINDOW s)
              XCB_CURRENT_TIME) ;;
         xcb_flush
       else ret tt) ;;
      if negb hasWMDelete then xcb_destroy_window foc ;; xcb_flush
      else ret tt
  | None => xcb_destroy_window foc ;; xcb_flush
  end.

(** [case XK_m] of [WM::handleKeyPress] *)
Definition minimizeWindow (foc : xcb_window_t) : M unit :=
  s <- get ;;
  if decide (foc ≠ XCB_NONE ∧ foc ≠ m_runnerWindow s
             ∧ foc ≠ m_exitConfirmationWindow s ∧ foc ≠ m_helpWindow s)
  then
    (if decide (foc ∈ m_windowList s) then
       modify (fun s => set_m_windowList (erase_first foc (m_windowList s)) s)
     else ret tt) ;;
    modify (fun s => set_m_minimizedWindows (m_minimizedWindows s ++ [foc]) s) ;;
    xcb_unmap_window foc ;;
    resetFocus
  else ret tt.

(** The range-[for] over [m_minimizedWindows] in [case XK_n]. *)
Fixpoint restore_loop (ws : list xcb_window_t) : M unit :=
  match ws with
  | [] => ret tt
  | w :: rest =>
      xcb_map_window w ;;
      s <- get ;;
      (if decide (w ∈ m_windowList s) then ret tt
       else modify (fun s => set_m_windowList (m_windowList s ++ [w]) s)) ;;
      restore_loop rest
  end.

(** [case XK_n] of [WM::handleKeyPress] *)
Definition restoreMinimized : M unit :=
  s <- get ;;
  restore_loop (m_minimizedWindows s) ;;
  modify (set_m_minimizedWindows []) ;;
  s <- get ;;
  match m_windowList s with
  | [] => ret tt
  | _ => focusWindow (List.last (m_windowList s) XCB_NONE)
  end.

(** [WM::handleKeyPress] *)
Definition handleKeyPress (env : Env) (ev : xcb_key_press_event_t) : M unit :=
  let ks := getKeysym env (kp_detail ev) (kp_state ev) in
  s <- get ;;
  if m_isExitConfirmationActive s then handleExitConfirmationKeypress ks
  else if m_isRunnerActive s then handleRunnerInput env ks
  else if m_isHelpActive s then
    if decide (ks = XK_Escape) then destroyHelpDialog else ret tt
  else
    foc <- getFocusedWindow env ;;
    if negb (altPressed (kp_state ev)) then ret tt
    else if decide (ks = XK_f) then toggleFullscreen foc
    else if decide (ks = XK_e) then closeWindow env foc
    else if decide (ks = XK_q) then createExitConfirmationDialog env
    else if decide (ks = XK_r) then createRunnerDialog env
    else if decide (ks = XK_i) then createHelpDialog env
    else if decide (ks = XK_Tab) then focusNextWindow env
    else if decide (ks = XK_m) then minimizeWindow foc
    else if decide (ks = XK_n) then restoreMinimized
    else ret tt.

(** *** Window life cycle and the remaining events *)

(** [WM::handleMapRequest] *)
Definition handleMapRequest (env : Env) (window : xcb_window_t) : M unit :=
  attr <- xcb_get_window_attributes env window ;;
  if from_option override_redirect false attr then xcb_map_window window
  else
    xcb_map_window window ;;
    xcb_configure_window window XCB_CONFIG_WINDOW_STACK_MODE
      [XCB_STACK_MODE_ABOVE] ;;
    focusWindow window ;;
    s <- get ;;
    (if decide (window ∈ m_windowList s) then ret tt
     else
       modify (fun s => set_m_windowList (m_windowList s ++ [window]) s) ;;
       modify (fun s =>
         set_m_currentWindowIndex (length (m_windowList s) - 1)%nat s)) ;;
    send (ChangeWindowAttributes window XCB_CW_EVENT_MASK
            XCB_EVENT_MASK_ENTER_WINDOW) ;;
    g <- getWindowGeometry window ;;
    xcb_send_event window XCB_EVENT_MASK_STRUCTURE_NOTIFY
      (ConfigureNotifyEvent window g) ;;
    xcb_flush.

(** [WM::handleDestroyNotify] *)
Definition handleDestroyNotify (w : xcb_window_t) : M unit :=
  s <- get ;;
  (if decide (w ∈ m_windowList s) then
     modify (fun s => set_m_windowList (erase_first w (m_windowList s)) s) ;;
     modify (fun s =>
       if decide (length (m_windowList s) ≤ m_currentWindowIndex s)%nat
       then set_m_currentWindowIndex 0%nat s else s)
   else ret tt) ;;
  invalidateGeometryCache w.

(** [WM::handleUnmapNotify] *)
Definition handleUnmapNotify : M unit := ret tt.

(** [WM::handleConfigureRequest] *)
Definition handleConfigureRequest (cr : xcb_configure_request_event_t)
  : M unit :=
  let mask := cr_value_mask cr in
  let put (bit v : Z) (vals : list Z) : list Z :=
    if decide (Z.land mask bit ≠ 0) then vals ++ [uint32 v] else vals in
  let vals := put XCB_CONFIG_WINDOW_X (cr_x cr) [] in
  let vals := put XCB_CONFIG_WINDOW_Y (cr_y cr) vals in
  let vals := put XCB_CONFIG_WINDOW_WIDTH (cr_width cr) vals in
  let vals := put XCB_CONFIG_WINDOW_HEIGHT (cr_height cr) vals in
  let vals := put XCB_CONFIG_WINDOW_BORDER_WIDTH (cr_border_width cr) vals in
  let vals := put XCB_CONFIG_WINDOW_SIBLING (cr_sibling cr) vals in
  let vals := put XCB_CONFIG_WINDOW_STACK_MODE (cr_stack_mode cr) vals in
  xcb_configure_window (cr_window cr) mask vals ;;
  invalidateGeometryCache (cr_window cr) ;;
  xcb_flush.

(** [WM::handleClientMessage] *)
Definition handleClientMessage (cm : xcb_client_message_event_t) : M unit :=
  s <- get ;;
  if decide (cm_type cm = WM_PROTOCOLS s ∧ cm_data0 cm = WM_DELETE_WINDOW s)
  then xcb_destroy_window (cm_window cm) ;; xcb_flush
  else if decide (cm_type cm = NET_ACTIVE_WINDOW s) then
    let w := cm_data1 cm in
    if decide (w ≠ 0) then focusWindow w else ret tt
  else ret tt.

(** [WM::handleEnterNotify] ([FOCUS_FOLLOWS_MOUSE] is defined) *)
Definition handleEnterNotify (event : xcb_window_t) : M unit :=
  s <- get ;;
  if decide (event ≠ XCB_NONE) then
    if decide (event ∈ m_windowList s) then focusWindow event else ret tt
  else ret tt.

Definition uint8 (z : Z) : Z := z mod 2 ^ 8.

(** [std::strlen]: the number of characters before the first NUL. *)
Fixpoint strlen (text : string) : nat :=
  match text with
  | EmptyString => O
  | String c rest => if Ascii.eqb c Ascii.zero then O else S (strlen rest)
  end.

(** What [xcb_image_text_8 (c, std::strlen (text), ..., text)] draws: the
    parameter [string_len] is a [uint8_t], so the request carries the first
    [strlen (text) mod 256] characters of [text]. *)
Definition image_text_8 (text : string) : string :=
  substring 0 (Z.to_nat (uint8 (Z.of_nat (strlen text)))) text.

(** [WM::drawText]: the font and the graphics context are opened, used for
    one [xcb_image_text_8] and released; the request [DrawText] stands for
    the four.  The position is passed as [int16_t]. *)
Definition drawText (win : xcb_window_t) (fontName text : string)
    (x y fgColor bgColor : Z) : M unit :=
  send (DrawText win fontName (image_text_8 text) (int16 x) (int16 y)
          fgColor bgColor) ;;
  xcb_flush.

Definition help_lines : list string :=
  [ "Alt+F          => Toggle fullscreen";
    "Alt+E          => Close focused window";
    "Alt+Q          => Exit confirmation dialog";
    "Alt+R          => Runner prompt";
    "Alt+Tab        => Focus next window";
    "Alt+I          => Help dialog";
    "Alt+M          => Minimize window";
    "Alt+N          => Restore all minimized" ]%string.

Fixpoint draw_lines (w : xcb_window_t) (lines : list string) (y : Z)
  : M unit :=
  match lines with
  | [] => ret tt
  | l :: rest =>
      drawText w DEFAULT_FONT l 10 y FOREGROUND_COLOR HELP_BG_COLOR ;;
      draw_lines w rest (y + 20)
  end.

(** [WM::handleExpose] *)
Definition handleExpose (ev : xcb_expose_event_t) : M unit :=
  s <- get ;;
  let w := ex_window ev in
  if m_isRunnerActive s && bool_decide (w = m_runnerWindow s) then
    send (PolyFillRectangle w BACKGROUND_COLOR (ex_width ev) (ex_height ev)) ;;
    let textY := RUNNER_HEIGHT ÷ 2 + 10 in
    drawText w RUNNER_FONT (m_runnerInput s) 10 textY
      FOREGROUND_COLOR BACKGROUND_COLOR
  else if m_isExitConfirmationActive s
          && bool_decide (w = m_exitConfirmationWindow s) then
    send (PolyFillRectangle w BACKGROUND_COLOR (ex_width ev) (ex_height ev)) ;;
    drawText w DEFAULT_FONT "Exit WM? (Y/N or ESC)" 10 (ex_height ev ÷ 2)
      FOREGROUND_COLOR BACKGROUND_COLOR
  else if m_isHelpActive s && bool_decide (w = m_helpWindow s) then
    send (PolyFillRectangle w HELP_BG_COLOR (ex_width ev) (ex_height ev)) ;;
    draw_lines w help_lines 20
  else ret tt.

(** *** The event loop *)

Inductive Event : Type :=
| KeyPress (ev : xcb_key_press_event_t)
| ButtonPress (ev : xcb_button_press_event_t)
| MotionNotify (ev : xcb_motion_notify_event_t)
| ButtonRelease
| MapRequest (window : xcb_window_t)
| DestroyNotify (window : xcb_window_t)
| UnmapNotify
| ConfigureRequest (ev : xcb_configure_request_event_t)
| Expose (ev : xcb_expose_event_t)
| ClientMessage (ev : xcb_client_message_event_t)
| EnterNotify (event : xcb_window_t)
| OtherEvent.

(** The [switch] of [WM::runEventLoop] on one event. *)
Definition dispatch (env : Env) (e : Event) : M unit :=
  match e with
  | KeyPress ev => handleKeyPress env ev
  | ButtonPress ev => handleButtonPress ev
  | MotionNotify ev => handleMotionNotify ev
  | ButtonRelease => handleButtonRelease
  | MapRequest w => handleMapRequest env w
  | DestroyNotify w => handleDestroyNotify w
  | UnmapNotify => handleUnmapNotify
  | ConfigureRequest ev => handleConfigureRequest ev
  | Expose ev => handleExpose ev
  | ClientMessage ev => handleClientMessage ev
  | EnterNotify w => handleEnterNotify w
  | OtherEvent => ret tt
  end.

(** The fields as the in-class initialisers and [WM::initialize] leave
    them, for a screen and atoms the server reports. *)
Definition initial (x : XServer) (root : xcb_window_t) (width height : Z)
    (protocols delete_window fullscreen active : xcb_atom_t) : WM :=
  mkWM no_move no_resize x root width height [] 0%nat
    false XCB_NONE "" false XCB_NONE false XCB_NONE ∅ ∅ []
    protocols delete_window fullscreen active.

(** Between two events other clients may change the server; a step of the
    loop handles one event on whatever server state it meets. *)
Definition step (s s' : WM) : Prop :=
  ∃ env e x, ∃ out, dispatch env e (set_m_conn x s) = Ret tt s' out.

Inductive reachable : WM -> Prop :=
| reachable_initial x root width height a1 a2 a3 a4 :
    reachable (initial x root width height a1 a2 a3 a4)
| reachable_step s s' : reachable s -> step s s' -> reachable s'.

(** A finite run of the loop: the events of [es] in order, each with the
    replies it meets, and no foreign change of the server in between. *)
Fixpoint run (es : list (Env * Event)) : M unit :=
  match es with
  | [] => ret tt
  | (env, e) :: rest => dispatch env e ;; run rest
  end.

(** ** Concrete inputs used in examples *)

(** A keyboard whose keycodes are the ASCII codes of its unshifted keys. *)
Definition example_keymap (code col : Z) : xcb_keysym_t :=
  if decide (col = 1 ∧ 97 ≤ code ∧ code ≤ 122) then code - 32 else code.

(** Replies: focus on [foc], next fresh identifier [fresh], every window
    viewable, no [WM_PROTOCOLS], [fork] succeeds. *)
Definition example_env (foc fresh : xcb_window_t) : Env :=
  mkEnv fresh (Some foc)
    (fun _ => Some (mkAttributes XCB_MAP_STATE_VIEWABLE false))
    (fun _ => None) 4242 example_keymap.

(** A server with two client windows, 5 and 6. *)
Definition example_server : XServer :=
  mkXServer
    (<[5 := mkGeometry 0 0 200 200]> (<[6 := mkGeometry 40 60 640 480]> ∅))
    ∅.

(** Root window 1 on a 1920x1080 screen. *)
Definition example_initial : WM :=
  initial example_server 1 1920 1080 300 301 302 303.

Definition alt_key (ks : xcb_keysym_t) : Event :=
  KeyPress (mkKeyPress ks XCB_MOD_MASK_1).
Definition plain_key (ks : xcb_keysym_t) : Event :=
  KeyPress (mkKeyPress ks 0).
Definition shift_key (ks : xcb_keysym_t) : Event :=
  KeyPress (mkKeyPress ks XCB_MOD_MASK_SHIFT).

(** The Runner dialog opened with Alt+r and the letter l typed into it. *)
Definition example_typing : WM :=
  state_of
    (run [(example_env 0 50, alt_key XK_r); (example_env 50 51, plain_key 108)]
       example_initial)
    example_initial.

(** Windows 5 and 6 mapped, in this order; the index is on 6. *)
Definition example_two_windows : WM :=
  state_of
    (run [(example_env 0 50, MapRequest 5); (example_env 5 50, MapRequest 6)]
       example_initial)
    example_initial.

(** Alt held, button [detail] pressed over the client window [child]. *)
Definition alt_button (detail : Z) (child : xcb_window_t) (x y : Z) : Event :=
  ButtonPress (mkButtonPress detail 1 child x y XCB_MOD_MASK_1).

(** ** Predicates of the claims *)

(** What [getWindowGeometry w] answers in [s]: the cached entry, else the
    server's reply, else the fallback rectangle. *)
Definition known_geometry (w : xcb_window_t) (s : WM) : WindowGeometry :=
  match m_geometryCache s !! w with
  | Some g => g
  | None => default (mkGeometry 0 0 100 100) (x_geometry (m_conn s) !! w)
  end.

(** The query [getWindowGeometry w] sends in [s]: none on a cache hit. *)
Definition geometry_query (w : xcb_window_t) (s : WM) : list Request :=
  match m_geometryCache s !! w with
  | Some _ => []
  | None => [GetGeometry w]
  end.

(** The state after [getWindowGeometry w]: a reply is cached. *)
Definition geometry_cached (w : xcb_window_t) (s : WM) : WM :=
  match m_geometryCache s !! w, x_geometry (m_conn s) !! w with
  | None, Some g => set_m_geometryCache (<[w := g]> (m_geometryCache s)) s
  | _, _ => s
  end.

(** Edge snapping of one coordinate in the words of the specification:
    within the threshold of 0 the coordinate is clamped to 0; then, with
    the far edge within the threshold of the screen's far edge, it is
    clamped so that the far edge is exact. *)
Definition clamp_near (c : Z) : Z :=
  if decide (Z.abs c < SNAP_THRESHOLD) then 0 else c.

Definition clamp_far (c size screen : Z) : Z :=
  if decide (Z.abs (c + size - screen) < SNAP_THRESHOLD) then screen - size
  else c.

Definition edge_snap (raw size screen : Z) : Z :=
  clamp_far (clamp_near raw) size screen.

(** The redraw request of the Runner: a synthetic Expose event. *)
Definition redraw_request (s : WM) : list Request :=
  [SendEvent (m_runnerWindow s) XCB_EVENT_MASK_EXPOSURE
     (ExposeEvent (m_runnerWindow s) RUNNER_WIDTH RUNNER_HEIGHT); Flush].

Definition at_most_one_dialog (s : WM) : Prop :=
  ∀ d1 d2, activeFlag d1 s = true → activeFlag d2 s = true → d1 = d2.

(** The current index is a position of the active sequence, or the
    sequence is empty. *)
Definition index_valid (s : WM) : Prop :=
  (m_currentWindowIndex s < length (m_windowList s))%nat
  ∨ m_windowList s = [].

(** The move of window 5, at (0, 0) with size 200x200, started with the
    pointer at (100, 100). *)
Definition example_moving : WM :=
  state_of
    (dispatch (example_env 0 50) (alt_button 1 5 100 100) example_initial)
    example_initial.

(** A geometry as [xcb_get_geometry_reply_t] carries it: [int16_t]
    coordinates and [uint16_t] sizes. *)
Definition well_formed (g : WindowGeometry) : Prop :=
  (- 2 ^ 15 ≤ g_x g < 2 ^ 15) ∧ (- 2 ^ 15 ≤ g_y g < 2 ^ 15)
  ∧ (0 ≤ g_width g < 2 ^ 16) ∧ (0 ≤ g_height g < 2 ^ 16).

(** The fullscreen marker is among the [_NET_WM_STATE] atoms of [w] that
    [toggleFullscreen] reads. *)
Definition is_fullscreen (w : xcb_window_t) (s : WM) : Prop :=
  NET_WM_STATE_FULLSCREEN s
  ∈ take 1024 (default [] (x_net_wm_state (m_conn s) !! w)).

(** The requests of [focusWindow w]. *)
Definition focus_requests (w : xcb_window_t) : list Request :=
  if decide (w = XCB_NONE) then []
  else [ConfigureWindow w XCB_CONFIG_WINDOW_STACK_MODE [XCB_STACK_MODE_ABOVE];
        MapWindow w; SetInputFocus w; Flush].

(** The attributes reply for [w] exists and reports the viewable state. *)
Definition viewable (env : Env) (w : xcb_window_t) : bool :=
  match window_attributes_reply env w with
  | Some a => bool_decide (map_state a = XCB_MAP_STATE_VIEWABLE)
  | None => false
  end.

(** The window [k] positions after the one that follows the current
    index, cyclically. *)
Definition candidate (s : WM) (k : nat) : xcb_window_t :=
  nth ((m_currentWindowIndex s + 1 + k) mod length (m_windowList s))
    (m_windowList s) XCB_NONE.

Definition is_attributes_query (r : Request) : bool :=
  match r with GetWindowAttributes _ => true | _ => false end.

(** Registry [[5; 6; 7]] with the index on 5. *)
Definition example_three_windows : WM :=
  set_m_currentWindowIndex 0%nat (set_m_windowList [5; 6; 7] example_initial).

(** Replies in which only window [v] is viewable. *)
Definition only_viewable (v : xcb_window_t) : Env :=
  mkEnv 50 (Some 5)
    (fun w => Some (mkAttributes
                      (if decide (w = v) then XCB_MAP_STATE_VIEWABLE else 0)
                      false))
    (fun _ => None) 4242 example_keymap.

(** One turn of the restore loop on the active sequence. *)
Definition push_absent (l : list xcb_window_t) (w : xcb_window_t)
  : list xcb_window_t :=
  if decide (w ∈ l) then l else l ++ [w].

(** The requests of [resetFocus] in [s]. *)
Definition reset_requests (s : WM) : list Request :=
  match m_windowList s with
  | [] => [SetInputFocus (m_screen_root s); Flush]
  | _ => focus_requests (List.last (m_windowList s) XCB_NONE)
  end.

(** The registry after [std::find], [erase] and the reset of the index,
    as [handleDestroyNotify] and [destroyPopUpWindow] do them. *)
Definition unregistered (w : xcb_window_t) (s : WM) : WM :=
  if decide (w ∈ m_windowList s) then
    let l := erase_first w (m_windowList s) in
    let s1 := set_m_windowList l s in
    if decide (length l ≤ m_currentWindowIndex s)%nat
    then set_m_currentWindowIndex 0%nat s1 else s1
  else s.

(** The Runner dialog is open on a window. *)
Definition runner_open (s : WM) : Prop :=
  m_isRunnerActive s = true ∧ m_runnerWindow s ≠ XCB_NONE.

(** The Runner dialog is closed and its buffer empty. *)
Definition runner_closed (s : WM) : Prop :=
  m_isRunnerActive s = false ∧ m_runnerWindow s = XCB_NONE
  ∧ m_runnerInput s = ""%string.

Definition is_shell (r : Request) : bool :=
  match r with Shell _ => true | _ => false end.

(** The Runner opened with Alt+r and [ls] typed into it. *)
Definition example_ls_typed : WM :=
  state_of
    (run [(example_env 0 50, alt_key XK_r); (example_env 50 51, plain_key 108);
          (example_env 50 51, plain_key 115)] example_initial)
    example_initial.

(** The invariant the registering and the erasing paths keep: the index
    is a position, or the sequence is empty and the index is 0. *)
Definition index_ok (s : WM) : Prop :=
  (m_currentWindowIndex s < length (m_windowList s))%nat
  ∨ (m_windowList s = [] ∧ m_currentWindowIndex s = 0%nat).

Definition keeps_index_ok (s s' : WM) : Prop := index_ok s → index_ok s'.

(** A computation relates the state it starts in to the state it returns
    in by [R]. *)
Definition respects {A} (R : relation WM) (m : M A) : Prop :=
  ∀ s, match m s with Ret _ s' _ => R s s' | Exit _ _ => True end.

(** [P] holds of the state a result carries, when it carries one. *)
Definition ensures {A} (P : WM → Prop) (r : Res A) : Prop :=
  match r with Ret _ s' _ => P s' | Exit _ _ => True end.

(** The result carries a state, and [P] holds of it. *)
Definition returns {A} (P : WM → Prop) (r : Res A) : Prop :=
  match r with Ret _ s' _ => P s' | Exit _ _ => False end.

Definition is_ret {A} (r : Res A) : bool :=
  match r with Ret _ _ _ => true | Exit _ _ => false end.

(** No dialog flag is raised between [s] and [s']. *)
Definition flags_le (s s' : WM) : Prop :=
  ∀ d, activeFlag d s' = true → activeFlag d s = true.

(** The flags of the dialogs other than [d] are the same in [s] and [s']. *)
Definition others_kept (d : Dialog) (s s' : WM) : Prop :=
  ∀ d', d' ≠ d → activeFlag d' s' = activeFlag d' s.

(** ** Further predicates and inputs *)

(** The resize of window 5, of size 200x200, started with the pointer at
    (100, 100). *)
Definition example_resizing : WM :=
  state_of
    (dispatch (example_env 0 50) (alt_button 3 5 100 100) example_initial)
    example_initial.

(** The registry of [s'] is the registry of [s] with some windows erased. *)
Definition registry_shrinks (s s' : WM) : Prop :=
  m_windowList s' `sublist_of` m_windowList s.

(** The events of one drag: a button press, the pointer motions and the
    button release. *)
Definition drag (env : Env) (press : xcb_button_press_event_t)
    (motions : list xcb_motion_notify_event_t) : list (Env * Event) :=
  (env, ButtonPress press)
  :: ((λ m, (env, MotionNotify m)) <$> motions) ++ [(env, ButtonRelease)].

(** The flag and the window variable of every dialog are the same in [s]
    and [s']. *)
Definition dialog_fields_kept (s s' : WM) : Prop :=
  ∀ d, activeFlag d s' = activeFlag d s ∧ winVar d s' = winVar d s.

(** A dialog that is not active has no window. *)
Definition closed_dialogs_have_no_window (s : WM) : Prop :=
  ∀ d, activeFlag d s = false → winVar d s = XCB_NONE.

(** What a key press leaves alone while a dialog is active: the minimized
    windows, the saved and the cached geometries and both gesture slots are
    the same in [s] and [s'], no window is registered and no dialog is
    opened. *)
Definition modal_kept (s s' : WM) : Prop :=
  m_minimizedWindows s' = m_minimizedWindows s
  ∧ m_originalGeometry s' = m_originalGeometry s
  ∧ m_geometryCache s' = m_geometryCache s
  ∧ moveStart s' = moveStart s
  ∧ resizeStart s' = resizeStart s
  ∧ registry_shrinks s s'
  ∧ flags_le s s'.

(** The keysym the keyboard mapping gives a key press. *)
Definition keysym_of (p : Env * xcb_key_press_event_t) : xcb_keysym_t :=
  getKeysym p.1 (kp_detail p.2) (kp_state p.2).

(** Key presses as events of the loop, each with the replies it meets. *)
Definition key_events (ps : list (Env * xcb_key_press_event_t))
  : list (Env * Event) :=
  (λ p, (p.1, KeyPress p.2)) <$> ps.

(** The characters of a sequence of key presses. *)
Definition typed_word (ps : list (Env * xcb_key_press_event_t)) : string :=
  string_of_list_ascii ((λ p, ascii_of_N (Z.to_N (keysym_of p))) <$> ps).

(** The computation returns in every state. *)
Definition never_exits {A} (m : M A) : Prop := ∀ s, is_ret (m s) = true.

(** The dialogs, the Runner buffer, the minimized windows and the saved
    geometries are the same in [s] and [s']. *)
Definition dialog_state_kept (s s' : WM) : Prop :=
  dialog_fields_kept s s'
  ∧ m_runnerInput s' = m_runnerInput s
  ∧ m_minimizedWindows s' = m_minimizedWindows s
  ∧ m_originalGeometry s' = m_originalGeometry s.

(** The registry and the index are the same in [s] and [s']. *)
Definition registry_kept (s s' : WM) : Prop :=
  m_windowList s' = m_windowList s
  ∧ m_currentWindowIndex s' = m_currentWindowIndex s.

(** Both gesture slots are the same in [s] and [s']. *)
Definition gestures_kept (s s' : WM) : Prop :=
  moveStart s' = moveStart s ∧ resizeStart s' = resizeStart s.

(** The screen, the root window and the atoms are the same in [s] and
    [s']. *)
Definition setup_kept (s s' : WM) : Prop :=
  m_screen_root s' = m_screen_root s
  ∧ m_screenWidth s' = m_screenWidth s
  ∧ m_screenHeight s' = m_screenHeight s
  ∧ WM_PROTOCOLS s' = WM_PROTOCOLS s
  ∧ WM_DELETE_WINDOW s' = WM_DELETE_WINDOW s
  ∧ NET_WM_STATE_FULLSCREEN s' = NET_WM_STATE_FULLSCREEN s
  ∧ NET_ACTIVE_WINDOW s' = NET_ACTIVE_WINDOW s.

(** [m] run [n] times in a row. *)
Fixpoint repeat_m (n : nat) (m : M unit) : M unit :=
  match n with
  | O => ret tt
  | S n' => m ;; repeat_m n' m
  end.

(** ** Start-up and shutdown *)

(** The passive grabs [WM::grabKeysAndButtons] asks for, all on the root
    window with [owner_events] set and both grab modes asynchronous. *)
Inductive Grab : Type :=
| GrabKey (modifiers : Z) (keycode : Z)
| GrabButton (button : Z) (modifiers : Z).

#[global] Instance Grab_eq_dec : EqDecision Grab.
Proof. solve_decision. Defined.

Definition MOD_MASK : Z := XCB_MOD_MASK_1.

Definition keysToGrab : list xcb_keysym_t :=
  [XK_f; XK_e; XK_q; XK_r; XK_Tab; XK_i; XK_m; XK_n].

Definition modifiers : list Z :=
  [MOD_MASK;
   uint16 (Z.lor MOD_MASK XCB_MOD_MASK_LOCK);
   uint16 (Z.lor MOD_MASK XCB_MOD_MASK_2);
   uint16 (Z.lor (Z.lor MOD_MASK XCB_MOD_MASK_LOCK) XCB_MOD_MASK_2)].

(** [WM::grabKeysAndButtons]; [keycodes ks] is the array
    [xcb_key_symbols_get_keycode] returns for [ks], up to its terminator, or
    [None] for the null pointer. *)
Definition grabKeysAndButtons (keycodes : xcb_keysym_t -> option (list Z))
  : list Grab :=
  flat_map
    (fun modifier =>
       flat_map
         (fun ks =>
            match keycodes ks with
            | None => []
            | Some kc => GrabKey modifier <$> kc
            end)
         keysToGrab
       ++ [GrabButton 1 modifier; GrabButton 3 modifier])
    modifiers.

(** The modifier state of a grab. *)
Definition grab_modifiers (g : Grab) : Z :=
  match g with GrabKey m _ => m | GrabButton _ m => m end.

(** Alt, with Caps Lock and Num Lock as [lock] and [num] say. *)
Definition alt_with (lock num : bool) : Z :=
  Z.lor (Z.lor XCB_MOD_MASK_1 (if lock then XCB_MOD_MASK_LOCK else 0))
    (if num then XCB_MOD_MASK_2 else 0).

(** The loop of [WM::cleanup] over the registry. *)
Fixpoint cleanup_loop (ws : list xcb_window_t) : M unit :=
  match ws with
  | [] => ret tt
  | w :: rest => xcb_destroy_window w ;; cleanup_loop rest
  end.

(** [WM::cleanup], as far as windows go: every registered window is
    destroyed.  The release of the cursor, of the EWMH atoms and of the key
    symbols and the disconnection that follow have no counterpart in the
    fields modelled here. *)
Definition cleanup : M unit :=
  s <- get ;;
  cleanup_loop (m_windowList s) ;;
  xcb_flush.

(** * Properties *)

(** ** Sequencing *)

Section respects.
Context (R : relation WM) `{!PreOrder R}.

Lemma respects_ret {A} (a : A) : respects R (ret a).
Proof. intros s. simpl. reflexivity. Qed.

Lemma respects_get : respects R get.
Proof. intros s. simpl. reflexivity. Qed.

Lemma respects_send r : respects R (send r).
Proof. intros s. simpl. reflexivity. Qed.

Lemma respects_exit c : respects R (exit c).
Proof. intros s. exact I. Qed.

Lemma respects_modify f : (∀ s, R s (f s)) → respects R (modify f).
Proof. intros H s. apply H. Qed.

Lemma respects_bind {A B} (m : M A) (k : A → M B) :
  respects R m → (∀ a, respects R (k a)) → respects R (bind m k).
Proof.
  intros Hm Hk s. unfold bind. specialize (Hm s).
  destruct (m s) as [a s1 o1|]; [|done].
  specialize (Hk a s1). destruct (k a s1); [|done].
  by etrans.
Qed.

Lemma respects_ensures {A} (m : M A) s : respects R m → ensures (R s) (m s).
Proof. intros H. apply H. Qed.
End respects.

Lemma ensures_mono {A} (P Q : WM → Prop) (r : Res A) :
  (∀ s, P s → Q s) → ensures P r → ensures Q r.
Proof. intros H. destruct r; simpl; auto. Qed.

Lemma ensures_bind {A B} (m : M A) (k : A → M B) (P : WM → Prop) s :
  (∀ a s1 o1, m s = Ret a s1 o1 → ensures P (k a s1)) →
  ensures P (bind m k s).
Proof.
  intros H. unfold bind. destruct (m s) as [a s1 o1|]; [|done].
  specialize (H a s1 o1 eq_refl). by destruct (k a s1).
Qed.

#[local] Instance flags_le_preorder : PreOrder flags_le.
Proof. split; [intros s d; done | intros s1 s2 s3 H1 H2 d H; auto]. Qed.

#[local] Instance others_kept_preorder d : PreOrder (others_kept d).
Proof.
  split; [intros s d' _; done |].
  intros s1 s2 s3 H1 H2 d' H. rewrite H2, H1; done.
Qed.

Ltac head_of t := lazymatch t with ?f _ => head_of f | _ => t end.

(** One step through the syntax of a member function; [base] proves the
    relation across a single field update, [loops] closes the loops. *)
Ltac frame_step base loops :=
  first
  [ loops
  | lazymatch goal with
    | |- respects _ (ret _) => apply respects_ret; tc_solve
    | |- respects _ get => apply respects_get; tc_solve
    | |- respects _ (send _) => apply respects_send; tc_solve
    | |- respects _ (exit _) => apply respects_exit
    | |- respects _ (modify _) => apply respects_modify; intros ?; base
    | |- respects _ (bind _ _) => apply respects_bind; [tc_solve| |intros ?]
    | |- respects _ (if ?c then _ else _) => destruct c
    | |- respects _ (match ?x with _ => _ end) => destruct x
    | |- respects _ ?m => let h := head_of m in unfold h
    end ].

Ltac flags_base :=
  intros ?; repeat match goal with d : Dialog |- _ => destruct d end;
  cbn; try done; repeat case_decide; cbn; done.

Ltac frame := repeat frame_step flags_base fail.

Lemma bind_eq {A B} (m : M A) (k : A → M B) s a s1 o1 :
  m s = Ret a s1 o1 → bind m k s = prepend o1 (k a s1).
Proof. intros E. unfold bind. by rewrite E. Qed.

Lemma bind_assoc {A B C} (m : M A) (f : A → M B) (g : B → M C) s :
  bind (bind m f) g s = bind m (λ a, bind (f a) g) s.
Proof.
  unfold bind. destruct (m s) as [a s1 o1|]; [|done].
  destruct (f a s1) as [b s2 o2|]; [|done].
  destruct (g b s2); by rewrite app_assoc.
Qed.

Lemma prepend_prepend {A} o1 o2 (r : Res A) :
  prepend o1 (prepend o2 r) = prepend (o1 ++ o2) r.
Proof. destruct r; simpl; by rewrite app_assoc. Qed.

Lemma set_m_conn_same s : set_m_conn (m_conn s) s = s.
Proof. by destruct s. Qed.

Lemma reachable_dispatch env e s s' out :
  reachable s → dispatch env e s = Ret tt s' out → reachable s'.
Proof.
  intros Hs E. apply (reachable_step s); [done|].
  exists env, e, (m_conn s), out. by rewrite set_m_conn_same.
Qed.

Lemma reachable_run es : ∀ s s' out,
  reachable s → run es s = Ret tt s' out → reachable s'.
Proof.
  induction es as [|[env e] es IH]; intros s s' out Hs E.
  - by inversion E; subst.
  - simpl in E. unfold bind in E.
    destruct (dispatch env e s) as [[] s1 o1|] eqn:E1; [|done].
    destruct (run es s1) as [[] s2 o2|] eqn:E2; [|done].
    inversion E; subst. eapply IH; [|done].
    by eapply reachable_dispatch.
Qed.

(** ** Dialog flags through the handlers *)

Lemma focusNextWindow_loop_flags env sz n :
  respects flags_le (focusNextWindow_loop env sz n).
Proof. induction n; simpl; repeat frame_step flags_base assumption. Qed.

Lemma restore_loop_flags ws : respects flags_le (restore_loop ws).
Proof. induction ws; simpl; repeat frame_step flags_base assumption. Qed.

Lemma draw_lines_flags w ls : ∀ y, respects flags_le (draw_lines w ls y).
Proof.
  induction ls; intros y; simpl;
    repeat frame_step flags_base ltac:(apply IHls).
Qed.

Ltac flag_loops :=
  idtac;
  lazymatch goal with
  | |- respects _ (focusNextWindow_loop _ _ _) =>
      apply focusNextWindow_loop_flags
  | |- respects _ (restore_loop _) => apply restore_loop_flags
  | |- respects _ (draw_lines _ _ _) => apply draw_lines_flags
  end.

Ltac flag_frame := repeat frame_step flags_base flag_loops.

Lemma destroyPopUpWindow_flags d : respects flags_le (destroyPopUpWindow d).
Proof. flag_frame. Qed.

Lemma createPopUpWindow_others env title d width height :
  respects (others_kept d) (createPopUpWindow env title d width height).
Proof.
  repeat frame_step
    ltac:(intros d' Hd'; destruct d, d'; cbn; try done; repeat case_decide; done)
    fail.
Qed.

Ltac by_frame R tac :=
  lazymatch goal with
  | |- ensures _ (?m ?s) =>
      eapply ensures_mono; [|apply (respects_ensures R m s); tac]
  end.

Lemma handleKeyPress_dialog_active_flags env ev s :
  (∃ d, activeFlag d s = true) →
  ensures (flags_le s) (handleKeyPress env ev s).
Proof.
  intros [d Hd]. unfold handleKeyPress.
  apply ensures_bind. intros ? ? ? [= <- <- <-].
  assert (Hno : m_isExitConfirmationActive s = false →
    m_isRunnerActive s = false → m_isHelpActive s = false → False)
    by (destruct d; simpl in Hd; congruence).
  destruct (m_isExitConfirmationActive s);
    [|destruct (m_isRunnerActive s);
      [|destruct (m_isHelpActive s); [|by exfalso; apply Hno]]];
    by_frame flags_le flag_frame; done.
Qed.

Lemma at_most_one_flags_le s s' :
  flags_le s s' → at_most_one_dialog s → at_most_one_dialog s'.
Proof. intros Hle H d1 d2 H1 H2. apply H; by apply Hle. Qed.

Lemma at_most_one_others_kept d s s' :
  (∀ d', activeFlag d' s = false) → others_kept d s s' →
  at_most_one_dialog s'.
Proof.
  intros Hno Hk d1 d2 H1 H2.
  destruct (decide (d1 = d)) as [->|N1], (decide (d2 = d)) as [->|N2];
    try done.
  - rewrite (Hk d2 N2), Hno in H2. done.
  - rewrite (Hk d1 N1), Hno in H1. done.
  - rewrite (Hk d1 N1), Hno in H1. done.
Qed.

Ltac create_frame :=
  repeat frame_step
    ltac:(intros d' Hd'; destruct d'; cbn; try done; repeat case_decide; done)
    ltac:(idtac;
          lazymatch goal with
          | |- respects _ (createPopUpWindow _ _ _ _ _) =>
              apply createPopUpWindow_others
          end).

Lemma handleKeyPress_at_most_one env ev s :
  at_most_one_dialog s → ensures at_most_one_dialog (handleKeyPress env ev s).
Proof.
  intros Hs.
  assert (Hcase : (∃ d, activeFlag d s = true) ∨ (∀ d, activeFlag d s = false)).
  { destruct (activeFlag Runner s) eqn:F1; [eauto|].
    destruct (activeFlag ExitConfirmation s) eqn:F2; [eauto|].
    destruct (activeFlag Help s) eqn:F3; [eauto|].
    right. by intros []. }
  destruct Hcase as [Hd|Hall].
  { eapply ensures_mono;
      [|by apply handleKeyPress_dialog_active_flags].
    intros s' Hle. by eapply at_most_one_flags_le. }
  pose proof (Hall Runner) as E2. pose proof (Hall ExitConfirmation) as E1.
  pose proof (Hall Help) as E3. simpl in E1, E2, E3.
  unfold handleKeyPress.
  apply ensures_bind. intros ? ? ? [= <- <- <-]. rewrite E1, E2, E3.
  apply ensures_bind. intros foc ? ? [= <- <- <-].
  destruct (negb (altPressed (kp_state ev))); [simpl; done|].
  repeat case_decide;
    lazymatch goal with
    | |- ensures _ (createExitConfirmationDialog _ _) =>
        by_frame (others_kept ExitConfirmation) create_frame;
        intros s' H'; by eapply at_most_one_others_kept
    | |- ensures _ (createRunnerDialog _ _) =>
        by_frame (others_kept Runner) create_frame;
        intros s' H'; by eapply at_most_one_others_kept
    | |- ensures _ (createHelpDialog _ _) =>
        by_frame (others_kept Help) create_frame;
        intros s' H'; by eapply at_most_one_others_kept
    | |- _ =>
        by_frame flags_le flag_frame;
        intros s' H'; by eapply at_most_one_flags_le
    end.
Qed.

Lemma dispatch_at_most_one env e s :
  at_most_one_dialog s → ensures at_most_one_dialog (dispatch env e s).
Proof.
  intros Hs. destruct e; unfold dispatch;
    try (by apply handleKeyPress_at_most_one);
    (by_frame flags_le flag_frame;
     intros s' H'; by eapply at_most_one_flags_le).
Qed.

Lemma reachable_at_most_one s : reachable s → at_most_one_dialog s.
Proof.
  induction 1 as [|s s' _ IH (env & e & x & out & E)].
  - intros d1 d2 H1. by destruct d1.
  - assert (Hx : at_most_one_dialog (set_m_conn x s))
      by (intros d1 d2; destruct d1, d2; simpl; try done;
          intros; by apply IH).
    pose proof (dispatch_at_most_one env e _ Hx) as H.
    by rewrite E in H.
Qed.

Lemma reachable_run_state es s :
  reachable s → is_ret (run es s) = true → reachable (state_of (run es s) s).
Proof.
  intros Hs E. destruct (run es s) as [[] s' out|] eqn:Er; [|done].
  by eapply reachable_run.
Qed.

Lemma set_m_runnerInput_same s : set_m_runnerInput (m_runnerInput s) s = s.
Proof. by destruct s. Qed.

Lemma handleRunnerInput_printable env ks s :
  32 ≤ ks ≤ 126 →
  handleRunnerInput env ks s =
    Ret tt
      (set_m_runnerInput
         (push_back (m_runnerInput s) (ascii_of_N (Z.to_N ks))) s)
      (if negb (m_isRunnerActive s) || bool_decide (m_runnerWindow s = XCB_NONE)
       then [] else redraw_request s).
Proof.
  intros Hk. unfold handleRunnerInput, XK_Escape, XK_Return, XK_BackSpace.
  repeat (case_decide; [lia|]). case_decide; [|lia].
  unfold redrawRunnerDialog, bind, modify, get, xcb_send_event, xcb_flush,
    send, ret. cbn.
  by destruct (_ || _).
Qed.

(** C1 (as amended): the loop keeps at most one of the three dialogs
    active.  The guard of [createPopUpWindow] is the flag of the dialog
    being created, so the function is a no-op when that flag is set; a
    create chord (Alt+q, Alt+r, Alt+i) pressed while any dialog is active
    does not reach it: [handleKeyPress] hands the key to the active dialog,
    and this changes no field but the Runner buffer, and the buffer only
    when the Runner is the active dialog. *)
Theorem dialog_exclusivity_by_routing (s : WM) :
  reachable s →
  at_most_one_dialog s
  ∧ (∀ env title d width height,
       activeFlag d s = true →
       createPopUpWindow env title d width height s = Ret tt s [])
  ∧ (∀ env ev d,
       activeFlag d s = true →
       altPressed (kp_state ev) = true →
       getKeysym env (kp_detail ev) (kp_state ev) ∈ [XK_q; XK_r; XK_i] →
       ∃ buf out,
         handleKeyPress env ev s = Ret tt (set_m_runnerInput buf s) out
         ∧ (m_isRunnerActive s = false → buf = m_runnerInput s)).
Proof.
  intros Hs. pose proof (reachable_at_most_one s Hs) as H1.
  split; [done|]. split.
  - intros env title d width height Hd.
    unfold createPopUpWindow, bind, get. by rewrite Hd.
  - intros env ev d Hd _ Hks.
    unfold handleKeyPress, bind at 1, get.
    set (ks := getKeysym env (kp_detail ev) (kp_state ev)) in *.
    assert (Hq : ks = XK_q ∨ ks = XK_r ∨ ks = XK_i).
    { rewrite !elem_of_cons, elem_of_nil in Hks. tauto. }
    destruct (m_isExitConfirmationActive s) eqn:E1.
    { exists (m_runnerInput s), [].
      rewrite set_m_runnerInput_same. split; [|done].
      unfold handleExitConfirmationKeypress.
      destruct Hq as [->| [->| ->]]; reflexivity. }
    destruct (m_isRunnerActive s) eqn:E2.
    { assert (Hr : 32 ≤ ks ≤ 126)
        by (destruct Hq as [->| [->| ->]]; done).
      rewrite (handleRunnerInput_printable env ks s Hr). simpl.
      eexists _, _. split; [reflexivity | done]. }
    destruct (m_isHelpActive s) eqn:E3.
    { exists (m_runnerInput s), [].
      rewrite set_m_runnerInput_same. split; [|done].
      case_decide as Hesc; [|reflexivity].
      destruct Hq as [Hq| [Hq| Hq]]; rewrite Hq in Hesc; done. }
    destruct d; simpl in Hd; congruence.
Qed.

Lemma dialog_exclusivity_by_routing_witness :
  reachable example_typing
  ∧ at_most_one_dialog example_typing
  ∧ createPopUpWindow (example_env 50 52) "Run Program" Runner
      RUNNER_WIDTH RUNNER_HEIGHT example_typing = Ret tt example_typing []
  ∧ ∃ buf out,
      handleKeyPress (example_env 50 52) (mkKeyPress XK_q XCB_MOD_MASK_1)
        example_typing
      = Ret tt (set_m_runnerInput buf example_typing) out
      ∧ (m_isRunnerActive example_typing = false →
         buf = m_runnerInput example_typing).
Proof.
  assert (Hr : reachable example_typing).
  { apply reachable_run_state; [apply reachable_initial|].
    vm_compute. reflexivity. }
  split; [exact Hr|].
  destruct (dialog_exclusivity_by_routing example_typing Hr) as (H1 & H2 & H3).
  split; [exact H1|]. split.
  - apply H2. vm_compute. reflexivity.
  - apply (H3 _ _ Runner).
    + vm_compute. reflexivity.
    + vm_compute. reflexivity.
    + vm_compute. left.
Defined.

(** C1, as stated, fails on the code twice over.  Called one after the
    other, [createExitConfirmationDialog] and [createRunnerDialog] leave two
    dialogs active; and Alt+r pressed while the Runner is active changes the
    Runner buffer from [l] to [lr]. *)
Lemma create_request_not_noop :
  returns (fun s => ¬ at_most_one_dialog s)
    ((createExitConfirmationDialog (example_env 0 50) ;;
      createRunnerDialog (example_env 50 51)) example_initial)
  ∧ m_isRunnerActive example_typing = true
  ∧ m_runnerInput example_typing = "l"%string
  ∧ returns (fun s => m_runnerInput s = "lr"%string)
      (dispatch (example_env 50 52) (alt_key XK_r) example_typing).
Proof.
  split; [|split; [|split]].
  - set (r := bind _ _ _). vm_compute in r. subst r. simpl.
    intros H. discriminate (H Runner ExitConfirmation eq_refl eq_refl).
  - vm_compute. reflexivity.
  - vm_compute. reflexivity.
  - set (r := dispatch _ _ _). vm_compute in r. subst r. simpl. reflexivity.
Qed.

(** ** Exit confirmation *)

Lemma handleExitConfirmationKeypress_cases ks s :
  handleExitConfirmationKeypress ks s =
    if decide (ks = XK_y ∨ ks = XK_Y) then Exit 0 []
    else if decide (ks = XK_n ∨ ks = XK_Escape)
         then destroyExitConfirmationDialog s
         else Ret tt s [].
Proof.
  unfold handleExitConfirmationKeypress. by repeat case_decide.
Qed.

(** C4 (what the code does): [handleExitConfirmationKeypress]
    compares the key with [XK_n] and [XK_Escape] only, so the keysym [XK_N]
    changes nothing in any state; after Alt+q and Shift+n the Exit
    Confirmation dialog is still active on its window. *)
Theorem exit_confirmation_ignores_uppercase_N :
  (∀ s, handleExitConfirmationKeypress XK_N s = Ret tt s [])
  ∧ getKeysym (example_env 50 51) XK_n XCB_MOD_MASK_SHIFT = XK_N
  ∧ returns
      (fun s => m_isExitConfirmationActive s = true
                ∧ m_exitConfirmationWindow s = 50
                ∧ m_windowList s = [50])
      (run [(example_env 0 50, alt_key XK_q);
            (example_env 50 51, shift_key XK_n)] example_initial).
Proof.
  split; [by intros s|]. split; [reflexivity|].
  set (r := run _ _). vm_compute in r. subst r. simpl. done.
Qed.

(** ** Gestures *)

Lemma getWindowGeometry_eq w s :
  getWindowGeometry w s
  = Ret (known_geometry w s) (geometry_cached w s) (geometry_query w s).
Proof.
  unfold getWindowGeometry, known_geometry, geometry_cached, geometry_query,
    xcb_get_geometry, bind, get, send, modify, ret.
  destruct (m_geometryCache s !! w); [done|]. simpl.
  by destruct (x_geometry (m_conn s) !! w).
Qed.

(** One statement of a member function, executed. *)
Ltac mstep :=
  first [ rewrite bind_assoc
        | erewrite bind_eq;
          [|first [apply getWindowGeometry_eq | reflexivity]] ].

Ltac mrun := repeat mstep; rewrite ?prepend_prepend.

Lemma handleMotionNotify_move ev s :
  mv_window (moveStart s) ≠ XCB_NONE →
  let w := mv_window (moveStart s) in
  let g := known_geometry w s in
  let vals :=
    [uint32 (edge_snap
               (mv_orig_x (moveStart s)
                + (mn_root_x ev - mv_start_x (moveStart s)))
               (g_width g) (m_screenWidth s));
     uint32 (edge_snap
               (mv_orig_y (moveStart s)
                + (mn_root_y ev - mv_start_y (moveStart s)))
               (g_height g) (m_screenHeight s))] in
  let mask := Z.lor XCB_CONFIG_WINDOW_X XCB_CONFIG_WINDOW_Y in
  handleMotionNotify ev s
  = Ret tt
      (set_m_geometryCache (delete w (m_geometryCache s))
         (set_m_conn (server_configure w mask vals (m_conn s)) s))
      (geometry_query w s ++ [ConfigureWindow w mask vals; Flush]).
Proof.
  intros Hm w g vals mask.
  unfold handleMotionNotify, bind at 1, get.
  destruct (decide (mv_window (moveStart s) ≠ XCB_NONE)) as [_|N];
    [|contradiction].
  unfold bind at 1. rewrite getWindowGeometry_eq. fold w g.
  unfold xcb_configure_window, invalidateGeometryCache, on_server, xcb_flush,
    bind, get, send, modify, ret.
  cbn. f_equal.
  unfold geometry_cached. fold w.
  destruct (m_geometryCache s !! w) eqn:Ec; [done|].
  destruct (x_geometry (m_conn s) !! w); [|done].
  cbn. by rewrite delete_insert_eq.
Qed.

(** C2 (as amended): the two slots are set independently.  A press with
    Alt over a window, not on the window of an active dialog, sets the move
    slot when the button is 1, recording the window, the pointer position
    and the window position, and leaves the resize slot as it is; it sets
    the resize slot when the button is 3, recording the window, the pointer
    position and the window size, and leaves the move slot as it is.  No
    press empties a slot.  When the move slot holds a window a motion event
    is handled as a move of that window, whatever the resize slot holds,
    and changes neither slot.  A release empties both slots. *)
Theorem gesture_slots_independent
    (press : xcb_button_press_event_t) (motion : xcb_motion_notify_event_t)
    (s : WM) :
  let w := bp_child press in
  let g := known_geometry w s in
  ((∀ d, activeFlag d s = true → bp_event press ≠ winVar d s) →
   altPressed (bp_state press) = true →
   w ≠ XCB_NONE →
   ∃ s',
     handleButtonPress press s = Ret tt s' (geometry_query w s)
     ∧ (bp_detail press = 1 →
        moveStart s'
        = mkMoveStart w (bp_root_x press) (bp_root_y press) (g_x g) (g_y g)
        ∧ mv_window (moveStart s') ≠ XCB_NONE
        ∧ resizeStart s' = resizeStart s)
     ∧ (bp_detail press = 3 →
        resizeStart s'
        = mkResizeStart w (bp_root_x press) (bp_root_y press)
            (g_width g) (g_height g)
        ∧ rs_window (resizeStart s') ≠ XCB_NONE
        ∧ moveStart s' = moveStart s))
  ∧ returns (fun s' =>
      (bp_detail press = 1 → resizeStart s' = resizeStart s)
    ∧ (bp_detail press = 3 → moveStart s' = moveStart s)
    ∧ (mv_window (moveStart s) ≠ XCB_NONE →
       mv_window (moveStart s') ≠ XCB_NONE)
    ∧ (rs_window (resizeStart s) ≠ XCB_NONE →
       rs_window (resizeStart s') ≠ XCB_NONE))
    (handleButtonPress press s)
  ∧ (mv_window (moveStart s) ≠ XCB_NONE →
     let mw := mv_window (moveStart s) in
     let mg := known_geometry mw s in
     (∃ s',
        handleMotionNotify motion s
        = Ret tt s'
            (geometry_query mw s
             ++ [ConfigureWindow mw
                   (Z.lor XCB_CONFIG_WINDOW_X XCB_CONFIG_WINDOW_Y)
                   [uint32 (edge_snap
                              (mv_orig_x (moveStart s)
                               + (mn_root_x motion - mv_start_x (moveStart s)))
                              (g_width mg) (m_screenWidth s));
                    uint32 (edge_snap
                              (mv_orig_y (moveStart s)
                               + (mn_root_y motion - mv_start_y (moveStart s)))
                              (g_height mg) (m_screenHeight s))];
                 Flush])
        ∧ moveStart s' = moveStart s
        ∧ resizeStart s' = resizeStart s)
     ∧ requests_of (handleMotionNotify motion s)
       = requests_of
           (handleMotionNotify motion (set_resizeStart no_resize s)))
  ∧ handleButtonRelease s
    = Ret tt (set_resizeStart no_resize (set_moveStart no_move s)) [].
Proof.
  intros w g. split; [|split; [|split]].
  - intros Hd Halt Hw. unfold handleButtonPress. mstep.
    assert (H1 : m_isExitConfirmationActive s
                 && bool_decide (bp_event press = m_exitConfirmationWindow s)
                 = false).
    { destruct (m_isExitConfirmationActive s) eqn:E; [|done]. cbn.
      apply bool_decide_eq_false_2. by apply (Hd ExitConfirmation). }
    assert (H2 : m_isRunnerActive s
                 && bool_decide (bp_event press = m_runnerWindow s) = false).
    { destruct (m_isRunnerActive s) eqn:E; [|done]. cbn.
      apply bool_decide_eq_false_2. by apply (Hd Runner). }
    assert (H3 : m_isHelpActive s
                 && bool_decide (bp_event press = m_helpWindow s) = false).
    { destruct (m_isHelpActive s) eqn:E; [|done]. cbn.
      apply bool_decide_eq_false_2. by apply (Hd Help). }
    rewrite H1, H2, H3, Halt. cbn [orb negb prepend app].
    rewrite decide_False by (intros H; by apply Hw).
    fold w. mstep. fold g.
    assert (Hf : moveStart (geometry_cached w s) = moveStart s
                 ∧ resizeStart (geometry_cached w s) = resizeStart s).
    { unfold geometry_cached.
      destruct (m_geometryCache s !! w), (x_geometry (m_conn s) !! w); done. }
    destruct Hf as [Hf1 Hf2]. unfold modify, ret.
    destruct (decide (bp_detail press = 1)) as [E1|N1];
      [|destruct (decide (bp_detail press = 3)) as [E3|N3]];
      cbn [prepend]; rewrite app_nil_r; eexists;
      (split; [reflexivity|]); split; intros E; try lia;
      cbn [moveStart resizeStart set_moveStart set_resizeStart mv_window
           rs_window]; done.
  - unfold handleButtonPress, bind at 1, get.
    destruct (_ || _); [simpl; done|].
    destruct (negb _); [simpl; done|].
    case_decide; [simpl; done|].
    unfold getWindowGeometry, xcb_get_geometry, bind, get, send, modify, ret.
    destruct (m_geometryCache s !! bp_child press); simpl.
    + repeat case_decide; simpl; repeat split; try done; lia.
    + destruct (x_geometry (m_conn s) !! bp_child press); simpl;
        repeat case_decide; simpl; repeat split; try done; lia.
  - intros Hm mw mg. split; [|by rewrite !handleMotionNotify_move].
    rewrite (handleMotionNotify_move motion s Hm). eexists.
    split; [reflexivity|]. done.
  - reflexivity.
Qed.

(** Button 1 is down over window 5 (of size 200x200); button 3 is pressed
    over it at (300, 300). *)
Lemma gesture_slots_independent_witness :
  let press := mkButtonPress 3 1 5 300 300 XCB_MOD_MASK_1 in
  let s :=
    state_of (dispatch (example_env 0 50) (alt_button 1 5 100 100)
                example_initial) example_initial in
  (∀ d, activeFlag d s = true → bp_event press ≠ winVar d s)
  ∧ mv_window (moveStart s) ≠ XCB_NONE
  ∧ (∃ s',
       handleButtonPress press s = Ret tt s' []
       ∧ resizeStart s' = mkResizeStart 5 300 300 200 200
       ∧ rs_window (resizeStart s') ≠ XCB_NONE
       ∧ moveStart s' = moveStart s)
  ∧ requests_of (handleMotionNotify (mkMotionNotify 108 100) s)
    = requests_of (handleMotionNotify (mkMotionNotify 108 100)
                     (set_resizeStart no_resize s)).
Proof.
  intros press s.
  pose proof (gesture_slots_independent press (mkMotionNotify 108 100) s)
    as H. cbv zeta in H. destruct H as (H0 & _ & H2 & _).
  assert (Hd : ∀ d, activeFlag d s = true → bp_event press ≠ winVar d s)
    by (intros []; vm_compute; discriminate).
  assert (Hm : mv_window (moveStart s) ≠ XCB_NONE) by (vm_compute; congruence).
  split; [exact Hd|]. split; [exact Hm|]. split.
  - destruct H0 as (s' & E & _ & H3).
    + exact Hd.
    + vm_compute. reflexivity.
    + vm_compute. discriminate.
    + exists s'. split; [exact E|]. exact (H3 eq_refl).
  - exact (proj2 (H2 Hm)).
Defined.

(** C2, as stated, fails on the code: with Alt held, button 1 and then
    button 3 pressed over window 5 before any release leave both slots
    holding window 5. *)
Lemma move_and_resize_both_pending :
  let s :=
    state_of
      (run [(example_env 0 50, alt_button 1 5 100 100);
            (example_env 0 50, alt_button 3 5 100 100)] example_initial)
      example_initial in
  reachable s
  ∧ mv_window (moveStart s) = 5
  ∧ rs_window (resizeStart s) = 5
  ∧ mv_window (moveStart s) ≠ XCB_NONE
  ∧ rs_window (resizeStart s) ≠ XCB_NONE.
Proof.
  intros s. split.
  - apply reachable_run_state; [apply reachable_initial|].
    vm_compute. reflexivity.
  - vm_compute. repeat split; congruence.
Qed.

(** ** The window registry *)

Lemma erase_first_notin w l : w ∉ l → erase_first w l = l.
Proof.
  induction l as [|v l IH]; [done|]. intros H. simpl.
  rewrite not_elem_of_cons in H. destruct H as [Hw Hl].
  case_decide; [congruence|]. by rewrite IH.
Qed.

Lemma elem_of_erase_first v w l : v ∈ erase_first w l → v ∈ l.
Proof.
  induction l as [|u l IH]; [done|]. simpl. case_decide as Hu.
  - intros Hv. by right.
  - rewrite !elem_of_cons. intros [->|Hv]; [by left | right; by apply IH].
Qed.

Lemma NoDup_erase_first w l : NoDup l → NoDup (erase_first w l).
Proof.
  induction 1 as [|u l Hu Hl IH]; [constructor|]. simpl.
  case_decide; [done|]. constructor; [|done].
  intros H'. apply Hu. by eapply elem_of_erase_first.
Qed.

Lemma erase_first_NoDup_notin w l : NoDup l → w ∉ erase_first w l.
Proof.
  induction 1 as [|u l Hu Hl IH]; simpl; [apply not_elem_of_nil|].
  case_decide; [by subst|]. rewrite not_elem_of_cons. split; [congruence|done].
Qed.

Lemma index_ok_valid s : index_ok s → index_valid s.
Proof. intros [H|[H _]]; [by left | by right]. Qed.

#[local] Instance keeps_index_ok_preorder : PreOrder keeps_index_ok.
Proof.
  split; [intros s H; exact H | intros s1 s2 s3 H1 H2 H; exact (H2 (H1 H))].
Qed.

Lemma respects_modify2 R `{!PreOrder R} f1 f2 :
  (∀ s, R s (f2 (f1 s))) → respects R (modify f1 ;; modify f2).
Proof. intros H s. apply H. Qed.

Lemma respects_modify2_bind R `{!PreOrder R} {A} f1 f2 (k : M A) :
  (∀ s, R s (f2 (f1 s))) → respects R k →
  respects R (modify f1 ;; modify f2 ;; k).
Proof.
  intros H Hk s. unfold bind, modify. specialize (Hk (f2 (f1 s))).
  destruct (k (f2 (f1 s))); [|done]. simpl. etrans; [apply H|done].
Qed.

Ltac index_base :=
  intros Hok; unfold index_ok in *;
  repeat match goal with d : Dialog |- _ => destruct d end;
  cbn in *; repeat case_decide; cbn in *;
  rewrite ?length_app in *; simpl in *;
  try match goal with
      | |- context [erase_first ?w ?l] => destruct (erase_first w l)
      end;
  simpl in *;
  first [ done | left; lia | right; done | lia ].

(** An update of the sequence and the update of the index that follows
    it are taken together. *)
Ltac index_pairs :=
  idtac;
  lazymatch goal with
  | |- respects _ (bind (modify _) (fun _ => bind (modify _) _)) =>
      apply respects_modify2_bind; [tc_solve | intros ?; index_base |]
  | |- respects _ (bind (modify _) (fun _ => modify _)) =>
      apply respects_modify2; [tc_solve | intros ?; index_base]
  end.

Lemma restore_loop_index_ok ws : respects keeps_index_ok (restore_loop ws).
Proof.
  induction ws; simpl;
    repeat frame_step index_base ltac:(first [assumption | index_pairs]).
Qed.

Ltac index_frame :=
  repeat frame_step index_base
    ltac:(idtac;
          first [ lazymatch goal with
                  | |- respects _ (restore_loop _) =>
                      apply restore_loop_index_ok
                  end
                | index_pairs ]).

(** The paths that register or erase a window keep the index in range. *)
Lemma handleMapRequest_index_ok env w :
  respects keeps_index_ok (handleMapRequest env w).
Proof. index_frame. Qed.

Lemma createPopUpWindow_index_ok env title d width height :
  respects keeps_index_ok (createPopUpWindow env title d width height).
Proof. index_frame. Qed.

Lemma handleDestroyNotify_index_ok w :
  respects keeps_index_ok (handleDestroyNotify w).
Proof. index_frame. Qed.

Lemma destroyPopUpWindow_index_ok d :
  respects keeps_index_ok (destroyPopUpWindow d).
Proof. index_frame. Qed.

Lemma restoreMinimized_index_ok : respects keeps_index_ok restoreMinimized.
Proof. index_frame. Qed.

(** C3 (what the code does): windows 5 and 6 are mapped, the
    index is 1 and valid; Alt+m with the focus on 6 erases 6 from the
    sequence and leaves the index at 1, past the end of [[5]].  The minimize
    branch has no counterpart of the reset that follows the [erase] in
    [handleDestroyNotify] and [destroyPopUpWindow]. *)
Theorem minimize_leaves_index_past_end :
  reachable example_two_windows
  ∧ m_windowList example_two_windows = [5; 6]
  ∧ index_valid example_two_windows
  ∧ returns
      (fun s' => m_windowList s' = [5]
                 ∧ m_currentWindowIndex s' = 1%nat
                 ∧ m_minimizedWindows s' = [6]
                 ∧ ¬ index_valid s')
      (dispatch (example_env 6 50) (alt_key XK_m) example_two_windows).
Proof.
  split; [|split; [|split]].
  - apply reachable_run_state; [apply reachable_initial|].
    vm_compute. reflexivity.
  - vm_compute. reflexivity.
  - left. vm_compute. lia.
  - set (r := dispatch _ _ _). vm_compute in r. subst r. simpl.
    repeat split; try reflexivity.
    intros [H|H]; simpl in H; [lia | discriminate].
Qed.

Lemma handleDestroyNotify_eq w s :
  handleDestroyNotify w s
  = Ret tt
      (set_m_geometryCache (delete w (m_geometryCache s))
         (if decide (w ∈ m_windowList s) then
            let l := erase_first w (m_windowList s) in
            let s1 := set_m_windowList l s in
            if decide (length l ≤ m_currentWindowIndex s)%nat
            then set_m_currentWindowIndex 0%nat s1 else s1
          else s))
      [].
Proof.
  unfold handleDestroyNotify, invalidateGeometryCache, bind, get, modify, ret.
  case_decide; [|done]. cbn. by case_decide.
Qed.

(** ** Moving with edge snapping *)

Lemma int16_uint32 z : - 2 ^ 15 ≤ z < 2 ^ 15 → int16 (uint32 z) = z.
Proof.
  intros Hz. unfold int16, uint32.
  replace (z mod 2 ^ 32 mod 2 ^ 16) with (z mod 2 ^ 16).
  2:{ symmetry. apply Z.mod_mod_divide. exists (2 ^ 16). reflexivity. }
  destruct (decide (0 ≤ z)).
  - rewrite Z.mod_small by lia.
    destruct (Z.ltb_spec z (2 ^ 15)); lia.
  - replace (z mod 2 ^ 16) with (z + 2 ^ 16).
    2:{ apply Z.mod_unique with (q := -1); lia. }
    destruct (Z.ltb_spec (z + 2 ^ 16) (2 ^ 15)); lia.
Qed.

Lemma edge_snap_in_zone raw size screen :
  Z.abs raw < SNAP_THRESHOLD ∨ Z.abs (raw + size - screen) < SNAP_THRESHOLD →
  edge_snap raw size screen = 0 ∨ edge_snap raw size screen = screen - size.
Proof.
  unfold edge_snap, clamp_far, clamp_near. intros H.
  repeat case_decide; try tauto; lia.
Qed.

(** C6: while a move is active a motion event asks for the position
    original + pointer delta, snapped on each axis on its own with the
    threshold 10: a coordinate of absolute value below the threshold is
    clamped to 0, and then a coordinate whose far edge is within the
    threshold of the screen's far edge is clamped so that this edge is
    exact.  So a raw coordinate within the threshold of either edge is
    placed at 0 or at screen - size and stays there under further motions
    inside the same zone.  The cached geometry of the window is dropped. *)
Theorem move_snaps_to_edges (ev : xcb_motion_notify_event_t) (s : WM) :
  mv_window (moveStart s) ≠ XCB_NONE →
  let w := mv_window (moveStart s) in
  let g := known_geometry w s in
  let rawX := mv_orig_x (moveStart s) + (mn_root_x ev - mv_start_x (moveStart s)) in
  let rawY := mv_orig_y (moveStart s) + (mn_root_y ev - mv_start_y (moveStart s)) in
  let nearX := if decide (Z.abs rawX < 10) then 0 else rawX in
  let nearY := if decide (Z.abs rawY < 10) then 0 else rawY in
  ∃ newX newY s',
    handleMotionNotify ev s
    = Ret tt s'
        (geometry_query w s
         ++ [ConfigureWindow w
               (Z.lor XCB_CONFIG_WINDOW_X XCB_CONFIG_WINDOW_Y)
               [uint32 newX; uint32 newY];
             Flush])
    ∧ m_geometryCache s' !! w = None
    ∧ x_geometry (m_conn s') !! w
      = (λ g0, mkGeometry (int16 (uint32 newX)) (int16 (uint32 newY))
                 (g_width g0) (g_height g0))
        <$> x_geometry (m_conn s) !! w
    ∧ newX = edge_snap rawX (g_width g) (m_screenWidth s)
    ∧ newY = edge_snap rawY (g_height g) (m_screenHeight s)
    ∧ (if decide (Z.abs (nearX + g_width g - m_screenWidth s) < 10)
       then newX + g_width g = m_screenWidth s else newX = nearX)
    ∧ (if decide (Z.abs (nearY + g_height g - m_screenHeight s) < 10)
       then newY + g_height g = m_screenHeight s else newY = nearY)
    ∧ (Z.abs rawX < 10 ∨ Z.abs (rawX + g_width g - m_screenWidth s) < 10 →
       newX = 0 ∨ newX = m_screenWidth s - g_width g)
    ∧ (Z.abs rawY < 10 ∨ Z.abs (rawY + g_height g - m_screenHeight s) < 10 →
       newY = 0 ∨ newY = m_screenHeight s - g_height g).
Proof.
  intros Hm w g rawX rawY nearX nearY.
  exists (edge_snap rawX (g_width g) (m_screenWidth s)),
         (edge_snap rawY (g_height g) (m_screenHeight s)).
  eexists. split; [apply (handleMotionNotify_move ev s Hm)|].
  cbn [m_geometryCache set_m_geometryCache m_conn set_m_conn].
  split; [apply lookup_delete_eq|]. split.
  { unfold server_configure. fold w.
    destruct (x_geometry (m_conn s) !! w) as [g0|] eqn:Eg; simpl.
    - by rewrite lookup_insert_eq.
    - by rewrite Eg. }
  split; [done|]. split; [done|].
  split; [|split; [|split]].
  - subst nearX. unfold edge_snap, clamp_far, clamp_near, SNAP_THRESHOLD.
    repeat case_decide; lia.
  - subst nearY. unfold edge_snap, clamp_far, clamp_near, SNAP_THRESHOLD.
    repeat case_decide; lia.
  - apply edge_snap_in_zone.
  - apply edge_snap_in_zone.
Qed.

(** The two drags of the specification: window 5 at (0, 0, 200, 200) on
    the 1920x1080 screen, raw x = 8 and raw x = 1715. *)
Lemma move_snaps_to_edges_witness :
  mv_window (moveStart example_moving) ≠ XCB_NONE
  ∧ (∃ s',
       handleMotionNotify (mkMotionNotify 108 100) example_moving
       = Ret tt s' [ConfigureWindow 5 3 [0; 0]; Flush]
       ∧ x_geometry (m_conn s') !! 5 = Some (mkGeometry 0 0 200 200))
  ∧ (∃ s',
       handleMotionNotify (mkMotionNotify 1815 100) example_moving
       = Ret tt s' [ConfigureWindow 5 3 [1720; 0]; Flush]
       ∧ x_geometry (m_conn s') !! 5 = Some (mkGeometry 1720 0 200 200)).
Proof.
  assert (Hm : mv_window (moveStart example_moving) ≠ XCB_NONE)
    by (vm_compute; congruence).
  assert (Hw : mv_window (moveStart example_moving) = 5)
    by (vm_compute; reflexivity).
  split; [exact Hm|]. split.
  - destruct (move_snaps_to_edges (mkMotionNotify 108 100) example_moving Hm)
      as (newX & newY & s' & E & _ & Hg & -> & -> & _).
    rewrite Hw in Hg. exists s'. split.
    + rewrite E. vm_compute. reflexivity.
    + rewrite Hg. vm_compute. reflexivity.
  - destruct (move_snaps_to_edges (mkMotionNotify 1815 100) example_moving Hm)
      as (newX & newY & s' & E & _ & Hg & -> & -> & _).
    rewrite Hw in Hg. exists s'. split.
    + rewrite E. vm_compute. reflexivity.
    + rewrite Hg. vm_compute. reflexivity.
Defined.

(** ** Fullscreen *)

Lemma toggleFullscreen_enter w s :
  w ≠ 0 → ¬ is_fullscreen w s →
  toggleFullscreen w s
  = Ret tt
      (set_m_geometryCache (delete w (m_geometryCache s))
         (set_m_conn
            (server_configure w XCB_CONFIG_WINDOW_XYWH
               [0; 0; uint32 (m_screenWidth s); uint32 (m_screenHeight s)]
               (server_set_wm_state w [NET_WM_STATE_FULLSCREEN s] (m_conn s)))
            (set_m_originalGeometry
               (<[w := known_geometry w s]> (m_originalGeometry s)) s)))
      (GetNetWMState w
       :: geometry_query w s
       ++ [SetWMState w [NET_WM_STATE_FULLSCREEN s];
           ConfigureWindow w XCB_CONFIG_WINDOW_XYWH
             [0; 0; uint32 (m_screenWidth s); uint32 (m_screenHeight s)];
           Flush]).
Proof.
  intros Hw Hfs. unfold toggleFullscreen.
  destruct (decide (w = 0)) as [|_]; [done|].
  do 2 mstep. rewrite bool_decide_eq_false_2 by done. cbn [negb].
  mrun. cbn. f_equal.
  - unfold geometry_cached.
    destruct (m_geometryCache s !! w) eqn:Ec; [done|].
    destruct (x_geometry (m_conn s) !! w); [|done].
    cbn. by rewrite delete_insert_eq.
  - rewrite !app_nil_r, <- !app_assoc. done.
Qed.

Lemma toggleFullscreen_leave w s :
  w ≠ 0 → is_fullscreen w s →
  toggleFullscreen w s
  = match m_originalGeometry s !! w with
    | Some g =>
        let vals := [uint32 (g_x g); uint32 (g_y g); g_width g; g_height g] in
        Ret tt
          (set_m_geometryCache (delete w (m_geometryCache s))
             (set_m_conn
                (server_set_wm_state w []
                   (server_configure w XCB_CONFIG_WINDOW_XYWH vals (m_conn s)))
                (set_m_originalGeometry (delete w (m_originalGeometry s)) s)))
          [GetNetWMState w; ConfigureWindow w XCB_CONFIG_WINDOW_XYWH vals;
           SetWMState w []; Flush]
    | None =>
        Ret tt
          (set_m_geometryCache (delete w (m_geometryCache s))
             (set_m_conn (server_set_wm_state w [] (m_conn s)) s))
          [GetNetWMState w; SetWMState w []; Flush]
    end.
Proof.
  intros Hw Hfs. unfold toggleFullscreen.
  destruct (decide (w = 0)) as [|_]; [done|].
  do 2 mstep. rewrite bool_decide_eq_true_2 by done. cbn [negb].
  destruct (m_originalGeometry s !! w) as [g|]; mrun; reflexivity.
Qed.

Lemma server_configure_lookup w mask vals x g :
  x_geometry x !! w = Some g →
  x_geometry (server_configure w mask vals x) !! w
  = Some (configure_geometry mask vals g).
Proof.
  intros Hg. unfold server_configure. rewrite Hg. cbn.
  apply lookup_insert_eq.
Qed.

Lemma server_configure_wm_state w mask vals x :
  x_net_wm_state (server_configure w mask vals x) = x_net_wm_state x.
Proof. unfold server_configure. by destruct (x_geometry x !! w). Qed.

Lemma server_set_wm_state_geometry w atoms x :
  x_geometry (server_set_wm_state w atoms x) = x_geometry x.
Proof. unfold server_set_wm_state. by destruct (x_geometry x !! w). Qed.

Lemma server_set_wm_state_lookup w atoms x :
  is_Some (x_geometry x !! w) →
  x_net_wm_state (server_set_wm_state w atoms x) !! w = Some atoms.
Proof.
  intros [g Hg]. unfold server_set_wm_state. rewrite Hg. cbn.
  apply lookup_insert_eq.
Qed.

Lemma configure_geometry_xywh a b c d g :
  configure_geometry XCB_CONFIG_WINDOW_XYWH [a; b; c; d] g
  = mkGeometry (int16 a) (int16 b) (uint16 c) (uint16 d).
Proof. reflexivity. Qed.

(** C7: for a window that exists, is not marked fullscreen and whose
    cached geometry, if any, is the server's, the first toggle saves the
    geometry, sets the fullscreen state and covers the screen; the second,
    with nothing in between, asks for the saved rectangle, which gives the
    window exactly its original geometry, removes the fullscreen state and
    erases the saved entry.  After each toggle the cache has no entry for
    the window.  A toggle of a fullscreen window without saved entry only
    removes the state. *)
Theorem fullscreen_round_trip
    (w : xcb_window_t) (s : WM) (g : WindowGeometry) :
  w ≠ 0 →
  x_geometry (m_conn s) !! w = Some g →
  well_formed g →
  (∀ c, m_geometryCache s !! w = Some c → c = g) →
  ¬ is_fullscreen w s →
  (∃ s1 out1 s2 out2,
     toggleFullscreen w s = Ret tt s1 out1
     ∧ m_originalGeometry s1 !! w = Some g
     ∧ is_fullscreen w s1
     ∧ x_geometry (m_conn s1) !! w
       = Some (mkGeometry 0 0 (uint16 (uint32 (m_screenWidth s)))
                 (uint16 (uint32 (m_screenHeight s))))
     ∧ m_geometryCache s1 !! w = None
     ∧ toggleFullscreen w s1 = Ret tt s2 out2
     ∧ out2 = [GetNetWMState w;
               ConfigureWindow w XCB_CONFIG_WINDOW_XYWH
                 [uint32 (g_x g); uint32 (g_y g); g_width g; g_height g];
               SetWMState w []; Flush]
     ∧ x_geometry (m_conn s2) !! w = Some g
     ∧ ¬ is_fullscreen w s2
     ∧ m_originalGeometry s2 !! w = None
     ∧ m_geometryCache s2 !! w = None)
  ∧ (∀ t, is_fullscreen w t → m_originalGeometry t !! w = None →
       toggleFullscreen w t
       = Ret tt
           (set_m_geometryCache (delete w (m_geometryCache t))
              (set_m_conn (server_set_wm_state w [] (m_conn t)) t))
           [GetNetWMState w; SetWMState w []; Flush]).
Proof.
  intros Hw Hg Hwf Hc Hfs. split.
  2:{ intros t Ht Hnone. rewrite toggleFullscreen_leave by done.
      by rewrite Hnone. }
  assert (Hk : known_geometry w s = g).
  { unfold known_geometry. destruct (m_geometryCache s !! w) eqn:Ec.
    - by apply Hc.
    - by rewrite Hg. }
  pose proof (toggleFullscreen_enter w s Hw Hfs) as E1. rewrite Hk in E1.
  remember (server_set_wm_state w [NET_WM_STATE_FULLSCREEN s] (m_conn s))
    as xa eqn:Exa.
  remember (server_configure w XCB_CONFIG_WINDOW_XYWH
              [0; 0; uint32 (m_screenWidth s); uint32 (m_screenHeight s)] xa)
    as x1 eqn:Ex1.
  assert (Hxa : x_geometry xa !! w = Some g)
    by (by rewrite Exa, server_set_wm_state_geometry).
  assert (Hstate : x_net_wm_state x1 !! w = Some [NET_WM_STATE_FULLSCREEN s]).
  { rewrite Ex1, server_configure_wm_state, Exa.
    apply server_set_wm_state_lookup. by rewrite Hg. }
  assert (Hgeo1 : x_geometry x1 !! w
                  = Some (mkGeometry 0 0 (uint16 (uint32 (m_screenWidth s)))
                            (uint16 (uint32 (m_screenHeight s))))).
  { rewrite Ex1, (server_configure_lookup _ _ _ _ _ Hxa).
    by rewrite configure_geometry_xywh. }
  remember (set_m_geometryCache (delete w (m_geometryCache s))
              (set_m_conn x1
                 (set_m_originalGeometry (<[w:=g]> (m_originalGeometry s)) s)))
    as s1 eqn:Es1.
  assert (Hconn1 : m_conn s1 = x1) by (by rewrite Es1).
  assert (Hsaved : m_originalGeometry s1 !! w = Some g)
    by (rewrite Es1; cbn; apply lookup_insert_eq).
  assert (Hfs1 : is_fullscreen w s1).
  { unfold is_fullscreen. rewrite Hconn1, Hstate, Es1. cbn. left. }
  pose proof (toggleFullscreen_leave w s1 Hw Hfs1) as E2.
  rewrite Hsaved in E2. cbn zeta in E2. rewrite Hconn1 in E2.
  remember (server_configure w XCB_CONFIG_WINDOW_XYWH
              [uint32 (g_x g); uint32 (g_y g); g_width g; g_height g] x1)
    as xb eqn:Exb.
  assert (Hxb : x_geometry xb !! w = Some g).
  { rewrite Exb, (server_configure_lookup _ _ _ _ _ Hgeo1).
    rewrite configure_geometry_xywh.
    destruct Hwf as (Hx & Hy & Hwd & Hh).
    rewrite (int16_uint32 _ Hx), (int16_uint32 _ Hy).
    unfold uint16. rewrite !Z.mod_small by done. by destruct g. }
  eexists _, _, _, _.
  split; [exact E1|].
  split; [exact Hsaved|]. split; [exact Hfs1|].
  split; [by rewrite Hconn1|].
  split; [rewrite Es1; cbn; apply lookup_delete_eq|].
  split; [exact E2|]. split; [reflexivity|].
  cbn [m_conn set_m_conn set_m_geometryCache set_m_originalGeometry
       m_geometryCache m_originalGeometry].
  split; [by rewrite server_set_wm_state_geometry|].
  split.
  { unfold is_fullscreen.
    cbn [m_conn set_m_conn set_m_geometryCache set_m_originalGeometry].
    rewrite server_set_wm_state_lookup by (by rewrite Hxb).
    apply not_elem_of_nil. }
  split; apply lookup_delete_eq.
Qed.

Lemma fullscreen_round_trip_witness :
  let g := mkGeometry 40 60 640 480 in
  x_geometry (m_conn example_initial) !! 6 = Some g
  ∧ well_formed g
  ∧ ¬ is_fullscreen 6 example_initial
  ∧ ∃ s1 out1 s2 out2,
      toggleFullscreen 6 example_initial = Ret tt s1 out1
      ∧ x_geometry (m_conn s1) !! 6 = Some (mkGeometry 0 0 1920 1080)
      ∧ is_fullscreen 6 s1
      ∧ toggleFullscreen 6 s1 = Ret tt s2 out2
      ∧ x_geometry (m_conn s2) !! 6 = Some g
      ∧ ¬ is_fullscreen 6 s2
      ∧ m_originalGeometry s2 !! 6 = None.
Proof.
  intros g.
  assert (Hg : x_geometry (m_conn example_initial) !! 6 = Some g)
    by (vm_compute; reflexivity).
  assert (Hwf : well_formed g) by (unfold well_formed; simpl; lia).
  assert (Hfs : ¬ is_fullscreen 6 example_initial)
    by (unfold is_fullscreen; vm_compute; apply not_elem_of_nil).
  assert (Hc : ∀ c, m_geometryCache example_initial !! 6 = Some c → c = g)
    by (intros c; vm_compute; discriminate).
  assert (Hw : (6 : Z) ≠ 0) by lia.
  destruct (fullscreen_round_trip 6 example_initial g Hw Hg Hwf Hc Hfs)
    as [(s1 & out1 & s2 & out2 & E1 & _ & F1 & G1 & _ & E2 & _ & G2 & F2 & O2 & _)
        _].
  split; [exact Hg|]. split; [exact Hwf|]. split; [exact Hfs|].
  exists s1, out1, s2, out2. repeat split; assumption.
Defined.

(** ** Cycling the focus *)

Lemma server_configure_stack w v x :
  server_configure w XCB_CONFIG_WINDOW_STACK_MODE [v] x = x.
Proof.
  unfold server_configure. destruct (x_geometry x !! w) as [g|] eqn:Eg; [|done].
  replace (configure_geometry XCB_CONFIG_WINDOW_STACK_MODE [v] g) with g
    by (by destruct g).
  rewrite insert_id by done. by destruct x.
Qed.

Lemma focusWindow_eq w s : focusWindow w s = Ret tt s (focus_requests w).
Proof.
  unfold focusWindow, focus_requests. case_decide; [done|].
  unfold xcb_configure_window, xcb_map_window, xcb_set_input_focus, xcb_flush,
    on_server, bind, send, modify. cbn.
  by rewrite server_configure_stack, set_m_conn_same.
Qed.

Section focus_next.
Context (env : Env) (sz : nat).

Lemma focusNextWindow_loop_S n s :
  let s1 := set_m_currentWindowIndex ((m_currentWindowIndex s + 1) mod sz)%nat s in
  let w := nth ((m_currentWindowIndex s + 1) mod sz)%nat (m_windowList s) XCB_NONE in
  focusNextWindow_loop env sz (S n) s
  = prepend [GetWindowAttributes w]
      (if viewable env w then focusWindow w s1
       else focusNextWindow_loop env sz n s1).
Proof.
  intros s1 w. cbn [focusNextWindow_loop]. unfold viewable.
  do 2 mstep. cbn [app]. fold s1.
  change (nth (m_currentWindowIndex s1) (m_windowList s1) XCB_NONE) with w.
  unfold xcb_get_window_attributes. mrun. cbn [app].
  destruct (window_attributes_reply env w) as [a|]; [|done].
  case_decide.
  - by rewrite bool_decide_eq_true_2.
  - by rewrite bool_decide_eq_false_2.
Qed.

Lemma candidate_0 s :
  length (m_windowList s) = sz →
  candidate s 0 = nth ((m_currentWindowIndex s + 1) mod sz)%nat (m_windowList s) XCB_NONE.
Proof. intros <-. unfold candidate. by rewrite Nat.add_0_r. Qed.

Lemma candidate_advance s j :
  length (m_windowList s) = sz →
  candidate
    (set_m_currentWindowIndex ((m_currentWindowIndex s + 1) mod sz)%nat s) j
  = candidate s (S j).
Proof.
  intros <-. unfold candidate. cbn. f_equal.
  rewrite <- Nat.add_assoc, Nat.Div0.add_mod_idemp_l. reflexivity.
Qed.

Lemma focusNextWindow_loop_found k : ∀ n s,
  length (m_windowList s) = sz →
  (k < n)%nat →
  (∀ j, (j < k)%nat → viewable env (candidate s j) = false) →
  viewable env (candidate s k) = true →
  focusNextWindow_loop env sz n s
  = Ret tt
      (set_m_currentWindowIndex ((m_currentWindowIndex s + 1 + k) mod sz)%nat s)
      ((GetWindowAttributes <$> (candidate s <$> seq 0 (S k)))
       ++ focus_requests (candidate s k)).
Proof.
  induction k as [|k IH]; intros n s Hsz Hk Hnot Hyes;
    (destruct n as [|n]; [lia|]);
    rewrite focusNextWindow_loop_S, <- (candidate_0 s Hsz).
  - rewrite Hyes, focusWindow_eq. cbn. by rewrite Nat.add_0_r.
  - rewrite (Hnot 0%nat) by lia.
    rewrite (IH n); [| done | lia | |].
    + cbn [prepend m_currentWindowIndex set_m_currentWindowIndex].
      rewrite candidate_advance by done.
      rewrite <- (Nat.add_assoc _ 1 k), Nat.Div0.add_mod_idemp_l.
      apply (f_equal2 (Ret tt)); [reflexivity|].
      change (seq 0 (S (S k))) with (0%nat :: seq 1 (S k)).
      rewrite !fmap_cons. cbn [app]. f_equal. f_equal. f_equal.
      rewrite <- fmap_S_seq, <- list_fmap_compose.
      apply list_fmap_ext. intros _ j _. cbn. by apply candidate_advance.
    + intros j Hj. rewrite candidate_advance by done. apply Hnot. lia.
    + by rewrite candidate_advance.
Qed.

Lemma focusNextWindow_loop_none n : ∀ s,
  length (m_windowList s) = sz →
  (∀ j, (j < n)%nat → viewable env (candidate s j) = false) →
  focusNextWindow_loop env sz n s
  = Ret tt
      (match n with
       | O => s
       | S _ =>
           set_m_currentWindowIndex
             ((m_currentWindowIndex s + n) mod sz)%nat s
       end)
      (GetWindowAttributes <$> (candidate s <$> seq 0 n)).
Proof.
  induction n as [|n IH]; intros s Hsz Hnot; [done|].
  rewrite focusNextWindow_loop_S, <- (candidate_0 s Hsz).
  rewrite (Hnot 0%nat) by lia.
  rewrite IH; [| done |].
  - cbn [prepend m_currentWindowIndex set_m_currentWindowIndex].
    apply (f_equal2 (Ret tt)).
    + destruct n as [|n]; [reflexivity|].
      rewrite Nat.Div0.add_mod_idemp_l.
      replace (m_currentWindowIndex s + 1 + S n)%nat
        with (m_currentWindowIndex s + S (S n))%nat by lia.
      reflexivity.
    + change (seq 0 (S n)) with (0%nat :: seq 1 n).
      rewrite !fmap_cons. cbn [app]. f_equal. f_equal.
      rewrite <- fmap_S_seq, <- list_fmap_compose.
      apply list_fmap_ext. intros _ j _. cbn. by apply candidate_advance.
  - intros j Hj. rewrite candidate_advance by done. apply Hnot. lia.
Qed.

Lemma focusNextWindow_loop_queries n : ∀ s,
  is_ret (focusNextWindow_loop env sz n s) = true
  ∧ (length (List.filter is_attributes_query
               (requests_of (focusNextWindow_loop env sz n s))) ≤ n)%nat.
Proof.
  induction n as [|n IH]; intros s; [split; [done | cbn; lia]|].
  rewrite focusNextWindow_loop_S. destruct (viewable env _).
  - rewrite focusWindow_eq. cbn. split; [done|].
    unfold focus_requests. case_decide; cbn; lia.
  - specialize (IH (set_m_currentWindowIndex
                      ((m_currentWindowIndex s + 1) mod sz)%nat s)).
    destruct (focusNextWindow_loop _ _ _ _); cbn in *; [|by destruct IH].
    split; [done|]. lia.
Qed.

End focus_next.

(** C8 (as amended): [focusNextWindow] examines the windows after the
    current index in cyclic order.  At the first one, [k] positions on, whose reply says
    viewable it stops, sets the index to that position and focuses the
    window; the windows examined are the [k + 1] candidates up to it.  When
    none of the [N] candidates is viewable, the call returns after exactly
    [N] queries with every field but the index unchanged and the index
    reduced modulo [N]: for an index that is a position of the sequence the
    state is unchanged.  The call always returns, after at most [N]
    queries. *)
Theorem focus_next_cycles (env : Env) (s : WM) :
  let N := length (m_windowList s) in
  (∀ k, (k < N)%nat →
     (∀ j, (j < k)%nat → viewable env (candidate s j) = false) →
     viewable env (candidate s k) = true →
     focusNextWindow env s
     = Ret tt
         (set_m_currentWindowIndex
            ((m_currentWindowIndex s + 1 + k) mod N)%nat s)
         ((GetWindowAttributes <$> (candidate s <$> seq 0 (S k)))
          ++ focus_requests (candidate s k)))
  ∧ ((∀ j, (j < N)%nat → viewable env (candidate s j) = false) →
     focusNextWindow env s
     = Ret tt
         (set_m_currentWindowIndex (m_currentWindowIndex s mod N)%nat s)
         (GetWindowAttributes <$> (candidate s <$> seq 0 N)))
  ∧ (index_valid s →
     (∀ j, (j < N)%nat → viewable env (candidate s j) = false) →
     focusNextWindow env s
     = Ret tt s (GetWindowAttributes <$> (candidate s <$> seq 0 N)))
  ∧ is_ret (focusNextWindow env s) = true
  ∧ (length (List.filter is_attributes_query
               (requests_of (focusNextWindow env s))) ≤ N)%nat.
Proof.
  intros N.
  assert (Hnone : (∀ j, (j < N)%nat → viewable env (candidate s j) = false) →
    focusNextWindow env s
    = Ret tt
        (set_m_currentWindowIndex (m_currentWindowIndex s mod N)%nat s)
        (GetWindowAttributes <$> (candidate s <$> seq 0 N))).
  { intros Hnot. subst N. unfold focusNextWindow, bind at 1, get.
    destruct (m_windowList s) as [|v l] eqn:El.
    { cbn. by destruct s. }
    rewrite <- El in *.
    rewrite focusNextWindow_loop_none by done.
    rewrite El at 1. cbn [length app].
    replace (m_currentWindowIndex s + length (m_windowList s))%nat
      with (m_currentWindowIndex s + 1 * length (m_windowList s))%nat by lia.
    by rewrite Nat.Div0.mod_add. }
  split; [|split; [exact Hnone|split]].
  - subst N. unfold focusNextWindow, bind at 1, get.
    destruct (m_windowList s) as [|v l] eqn:El; [cbn; intros; lia|].
    rewrite <- El. intros k Hk Hnot Hyes.
    by rewrite (focusNextWindow_loop_found env _ k).
  - intros Hv Hnot. rewrite (Hnone Hnot). f_equal.
    destruct Hv as [Hidx|Hnil].
    + rewrite Nat.mod_small by done. by destruct s.
    + subst N. rewrite Hnil. cbn. by destruct s.
  - subst N. unfold focusNextWindow, bind at 1 2, get.
    destruct (m_windowList s) as [|v l] eqn:El; [cbn; split; [done|lia]|].
    rewrite <- El.
    pose proof (focusNextWindow_loop_queries env (length (m_windowList s))
                  (length (m_windowList s)) s) as [Hr Hq].
    destruct (focusNextWindow_loop _ _ _ _); [|done]. cbn. by split.
Qed.

Lemma focus_next_cycles_witness :
  index_valid example_three_windows
  ∧ focusNextWindow (only_viewable 7) example_three_windows
    = Ret tt (set_m_currentWindowIndex 2%nat example_three_windows)
        [GetWindowAttributes 6; GetWindowAttributes 7;
         ConfigureWindow 7 XCB_CONFIG_WINDOW_STACK_MODE [XCB_STACK_MODE_ABOVE];
         MapWindow 7; SetInputFocus 7; Flush]
  ∧ focusNextWindow (only_viewable 99) example_three_windows
    = Ret tt example_three_windows
        [GetWindowAttributes 6; GetWindowAttributes 7; GetWindowAttributes 5].
Proof.
  assert (Hv : index_valid example_three_windows)
    by (left; vm_compute; lia).
  split; [exact Hv|]. split.
  - destruct (focus_next_cycles (only_viewable 7) example_three_windows)
      as (H & _).
    rewrite (H 1%nat).
    + vm_compute. reflexivity.
    + vm_compute. lia.
    + intros j Hj. assert (j = 0%nat) as -> by lia. vm_compute. reflexivity.
    + vm_compute. reflexivity.
  - destruct (focus_next_cycles (only_viewable 99) example_three_windows)
      as (_ & _ & H & _).
    rewrite (H Hv).
    + vm_compute. reflexivity.
    + intros j Hj. change (length (m_windowList example_three_windows))
        with 3%nat in Hj.
      destruct j as [|[|[|j]]]; [vm_compute; reflexivity .. | lia].
Defined.

(** C8, as stated, fails on the code: after windows 5 and 6 are mapped and
    6 is minimized the registry is [[5]] with the index at 1; Alt+Tab with
    no window viewable then examines window 5 once and returns with the
    index at 0, so the state is not left unchanged. *)
Lemma focus_next_normalises_stale_index :
  let s :=
    state_of
      (run [(example_env 0 50, MapRequest 5); (example_env 5 50, MapRequest 6);
            (example_env 6 50, alt_key XK_m)] example_initial)
      example_initial in
  reachable s
  ∧ m_windowList s = [5]
  ∧ m_currentWindowIndex s = 1%nat
  ∧ (∀ j, (j < length (m_windowList s))%nat →
       viewable (only_viewable 99) (candidate s j) = false)
  ∧ focusNextWindow (only_viewable 99) s
    = Ret tt (set_m_currentWindowIndex 0%nat s) [GetWindowAttributes 5]
  ∧ set_m_currentWindowIndex 0%nat s ≠ s
  ∧ returns (fun s' => m_currentWindowIndex s' = 0%nat ∧ s' ≠ s)
      (dispatch (only_viewable 99) (alt_key XK_Tab) s).
Proof.
  intros s.
  assert (Hne : set_m_currentWindowIndex 0%nat s ≠ s).
  { intros E. apply (f_equal m_currentWindowIndex) in E.
    vm_compute in E. discriminate. }
  split; [|split; [|split; [|split; [|split; [|split]]]]].
  - apply reachable_run_state; [apply reachable_initial|].
    vm_compute. reflexivity.
  - vm_compute. reflexivity.
  - vm_compute. reflexivity.
  - intros j Hj. change (length (m_windowList s)) with 1%nat in Hj.
    destruct j as [|j]; [vm_compute; reflexivity | lia].
  - vm_compute. reflexivity.
  - exact Hne.
  - assert (E : dispatch (only_viewable 99) (alt_key XK_Tab) s
                = Ret tt (set_m_currentWindowIndex 0%nat s)
                    [GetInputFocus; GetWindowAttributes 5])
      by (vm_compute; reflexivity).
    rewrite E. split; [reflexivity | exact Hne].
Qed.

(** ** Minimize and restore *)

Lemma set_m_windowList_same s : set_m_windowList (m_windowList s) s = s.
Proof. by destruct s. Qed.

Lemma resetFocus_eq s : resetFocus s = Ret tt s (reset_requests s).
Proof.
  unfold resetFocus, reset_requests, bind at 1, get.
  destruct (m_windowList s); [done|].
  by rewrite focusWindow_eq.
Qed.

Lemma restore_loop_eq ws : ∀ s,
  restore_loop ws s
  = Ret tt (set_m_windowList (foldl push_absent (m_windowList s) ws) s)
      (MapWindow <$> ws).
Proof.
  induction ws as [|w ws IH]; intros s.
  - cbn [foldl]. by rewrite set_m_windowList_same.
  - cbn [restore_loop foldl]. unfold xcb_map_window. do 2 mstep.
    unfold push_absent at 2.
    destruct (decide (w ∈ m_windowList s)); mrun; rewrite IH.
    + reflexivity.
    + reflexivity.
Qed.

Lemma elem_of_push_absent v l w : v ∈ push_absent l w ↔ v ∈ l ∨ v = w.
Proof.
  unfold push_absent. case_decide as Hw.
  - split; [by left | intros [?| ->]; done].
  - by rewrite elem_of_app, list_elem_of_singleton.
Qed.

Lemma NoDup_push_absent l w : NoDup l → NoDup (push_absent l w).
Proof.
  intros Hl. unfold push_absent. case_decide as Hw; [done|].
  apply NoDup_app. split; [done|]. split; [|apply NoDup_singleton].
  intros v Hv. rewrite list_elem_of_singleton. by intros ->.
Qed.

Lemma elem_of_restored v ws : ∀ l,
  v ∈ foldl push_absent l ws ↔ v ∈ l ∨ v ∈ ws.
Proof.
  induction ws as [|w ws IH]; intros l; cbn.
  - rewrite elem_of_nil. tauto.
  - rewrite IH, elem_of_push_absent, elem_of_cons. tauto.
Qed.

Lemma NoDup_restored ws : ∀ l, NoDup l → NoDup (foldl push_absent l ws).
Proof.
  induction ws as [|w ws IH]; intros l Hl; cbn; [done|].
  by apply IH, NoDup_push_absent.
Qed.

Lemma restored_last l ws w :
  w ∉ l → w ∉ ws →
  foldl push_absent l (ws ++ [w]) = foldl push_absent l ws ++ [w].
Proof.
  intros Hl Hws. rewrite foldl_app. cbn. unfold push_absent at 1.
  case_decide as Hin; [|done].
  apply elem_of_restored in Hin. tauto.
Qed.

Lemma last_snoc (l : list xcb_window_t) w d : List.last (l ++ [w]) d = w.
Proof. apply List.last_last. Qed.

Lemma minimizeWindow_eq foc s :
  foc ≠ XCB_NONE → foc ≠ m_runnerWindow s →
  foc ≠ m_exitConfirmationWindow s → foc ≠ m_helpWindow s →
  let s1 :=
    set_m_minimizedWindows (m_minimizedWindows s ++ [foc])
      (set_m_windowList (erase_first foc (m_windowList s)) s) in
  minimizeWindow foc s = Ret tt s1 (UnmapWindow foc :: reset_requests s1).
Proof.
  intros H1 H2 H3 H4 s1. unfold minimizeWindow, xcb_unmap_window. mstep.
  rewrite decide_True by done. cbn [prepend app].
  destruct (decide (foc ∈ m_windowList s)) as [Hin|Hin].
  - mrun. rewrite resetFocus_eq. reflexivity.
  - mrun. rewrite resetFocus_eq. subst s1.
    rewrite erase_first_notin, set_m_windowList_same by done. reflexivity.
Qed.

Lemma restoreMinimized_eq s :
  let l := foldl push_absent (m_windowList s) (m_minimizedWindows s) in
  restoreMinimized s
  = Ret tt (set_m_minimizedWindows [] (set_m_windowList l s))
      ((MapWindow <$> m_minimizedWindows s)
       ++ match l with
          | [] => []
          | _ => focus_requests (List.last l XCB_NONE)
          end).
Proof.
  intros l. unfold restoreMinimized. mstep.
  erewrite bind_eq by apply restore_loop_eq. fold l.
  do 2 mstep. rewrite !prepend_prepend.
  cbn [m_windowList set_m_minimizedWindows set_m_windowList].
  destruct l as [|v l'] eqn:El.
  - cbn. by rewrite !app_nil_r.
  - rewrite focusWindow_eq. cbn [prepend]. by rewrite !app_nil_r.
Qed.

(** C5 (what the code does): a destroy notification for [w] erases [w]
    from the active sequence (its first occurrence, the only one when the
    sequence has no duplicates), drops the cached geometry of [w] and resets
    to 0 an index that the erase leaves past the end, all as claimed; but it
    leaves the minimized windows as they are.  A minimized window that is
    destroyed therefore stays minimized, and the next restore maps it and
    registers it again.  After windows 5 and 6 are mapped, 6 is minimized
    and the destroy notification for 6 is handled, 6 is still minimized;
    Alt+n then maps 6, puts it back into the active sequence and gives it
    the focus. *)
Theorem destroy_notify_keeps_minimized_entry :
  (∀ w s, ∃ s',
     handleDestroyNotify w s = Ret tt s' []
     ∧ m_windowList s' = erase_first w (m_windowList s)
     ∧ (NoDup (m_windowList s) → w ∉ m_windowList s')
     ∧ m_geometryCache s' = delete w (m_geometryCache s)
     ∧ m_geometryCache s' !! w = None
     ∧ m_minimizedWindows s' = m_minimizedWindows s
     ∧ (w ∈ m_windowList s →
        (length (m_windowList s') ≤ m_currentWindowIndex s)%nat →
        m_currentWindowIndex s' = 0%nat)
     ∧ (w ∈ m_windowList s →
        (m_currentWindowIndex s < length (m_windowList s'))%nat →
        m_currentWindowIndex s' = m_currentWindowIndex s)
     ∧ (w ∉ m_windowList s →
        m_currentWindowIndex s' = m_currentWindowIndex s))
  ∧ (∀ w s, w ∈ m_minimizedWindows s →
       ∃ s1 s2 out,
         handleDestroyNotify w s = Ret tt s1 []
         ∧ (NoDup (m_windowList s) → w ∉ m_windowList s1)
         ∧ w ∈ m_minimizedWindows s1
         ∧ restoreMinimized s1 = Ret tt s2 out
         ∧ w ∈ m_windowList s2
         ∧ MapWindow w ∈ out)
  ∧ (let s :=
       state_of
         (run [(example_env 0 50, MapRequest 5);
               (example_env 5 50, MapRequest 6);
               (example_env 6 50, alt_key XK_m);
               (example_env 5 50, DestroyNotify 6)] example_initial)
         example_initial in
     reachable s
     ∧ m_windowList s = [5]
     ∧ m_minimizedWindows s = [6]
     ∧ dispatch (example_env 5 50) (alt_key XK_n) s
       = Ret tt
           (set_m_minimizedWindows [] (set_m_windowList [5; 6] s))
           [GetInputFocus; MapWindow 6;
            ConfigureWindow 6 XCB_CONFIG_WINDOW_STACK_MODE
              [XCB_STACK_MODE_ABOVE];
            MapWindow 6; SetInputFocus 6; Flush]).
Proof.
  split; [|split].
  - intros w s. eexists. split; [apply handleDestroyNotify_eq|].
    cbn [m_windowList m_geometryCache m_minimizedWindows m_currentWindowIndex
         set_m_geometryCache].
    destruct (decide (w ∈ m_windowList s)) as [Hin|Hin]; cbn zeta.
    + destruct (decide (length (erase_first w (m_windowList s))
                        ≤ m_currentWindowIndex s)%nat); cbn;
        repeat split;
        first [ done | apply erase_first_NoDup_notin; done
              | apply lookup_delete_eq | intros; lia ].
    + rewrite erase_first_notin by done.
      repeat split; first [ done | apply lookup_delete_eq ].
  - intros w s Hmin. rewrite handleDestroyNotify_eq.
    set (s1 := set_m_geometryCache _ _).
    assert (Hl : m_windowList s1 = erase_first w (m_windowList s)).
    { subst s1. cbn [m_windowList set_m_geometryCache].
      destruct (decide (w ∈ m_windowList s)) as [Hin|Hin]; cbn zeta.
      - by case_decide.
      - by rewrite erase_first_notin. }
    assert (Hm : m_minimizedWindows s1 = m_minimizedWindows s).
    { subst s1. cbn [m_minimizedWindows set_m_geometryCache].
      destruct (decide (w ∈ m_windowList s)); cbn zeta; [|done].
      by case_decide. }
    pose proof (restoreMinimized_eq s1) as E. cbv zeta in E.
    exists s1. eexists _, _. split; [reflexivity|].
    split; [intros Hnd; rewrite Hl; by apply erase_first_NoDup_notin|].
    split; [by rewrite Hm|]. split; [exact E|].
    cbn [m_windowList set_m_minimizedWindows set_m_windowList]. split.
    + apply elem_of_restored. right. by rewrite Hm.
    + apply elem_of_app. left. apply list_elem_of_fmap_2. by rewrite Hm.
  - intros s. split; [|split; [|split]].
    + apply reachable_run_state; [apply reachable_initial|].
      vm_compute. reflexivity.
    + vm_compute. reflexivity.
    + vm_compute. reflexivity.
    + vm_compute. reflexivity.
Qed.

(** C9: minimizing the focused window [foc] of the active sequence takes
    it out of the sequence and appends it to the minimized windows.
    Restore-all then maps every minimized window and leaves each of them in
    the active sequence, which keeps its former windows and has no window
    twice; it clears the minimized windows and focuses [foc], the last one
    restored.  A second restore-all returns the same state. *)
Theorem minimize_restore_round_trip (foc : xcb_window_t) (s : WM) :
  NoDup (m_windowList s) →
  foc ∈ m_windowList s →
  foc ∉ m_minimizedWindows s →
  foc ≠ XCB_NONE →
  foc ≠ m_runnerWindow s →
  foc ≠ m_exitConfirmationWindow s →
  foc ≠ m_helpWindow s →
  ∃ s1 out1 s2 out2,
    minimizeWindow foc s = Ret tt s1 out1
    ∧ m_windowList s1 = erase_first foc (m_windowList s)
    ∧ (foc ∉ m_windowList s1)
    ∧ m_minimizedWindows s1 = m_minimizedWindows s ++ [foc]
    ∧ UnmapWindow foc ∈ out1
    ∧ restoreMinimized s1 = Ret tt s2 out2
    ∧ (∀ w, w ∈ m_minimizedWindows s1 → w ∈ m_windowList s2)
    ∧ (∀ w, w ∈ m_windowList s1 → w ∈ m_windowList s2)
    ∧ NoDup (m_windowList s2)
    ∧ m_minimizedWindows s2 = []
    ∧ List.last (m_minimizedWindows s1) XCB_NONE = foc
    ∧ out2 = (MapWindow <$> m_minimizedWindows s1) ++ focus_requests foc
    ∧ restoreMinimized s2 = Ret tt s2 (focus_requests foc).
Proof.
  intros Hnd Hin Hmin H0 H1 H2 H3.
  pose proof (minimizeWindow_eq foc s H0 H1 H2 H3) as E1. cbn zeta in E1.
  set (l1 := erase_first foc (m_windowList s)) in *.
  set (m1 := m_minimizedWindows s ++ [foc]) in *.
  remember (set_m_minimizedWindows m1 (set_m_windowList l1 s)) as s1 eqn:Es1.
  assert (Hl1 : m_windowList s1 = l1) by (by rewrite Es1).
  assert (Hm1 : m_minimizedWindows s1 = m1) by (by rewrite Es1).
  assert (Hfoc : foc ∉ l1) by (by apply erase_first_NoDup_notin).
  pose proof (restoreMinimized_eq s1) as E2. cbn zeta in E2.
  rewrite Hl1, Hm1 in E2.
  assert (Hl2 : foldl push_absent l1 m1
                = foldl push_absent l1 (m_minimizedWindows s) ++ [foc])
    by (by apply restored_last).
  set (l2 := foldl push_absent l1 m1) in *.
  assert (Hlast : List.last l2 XCB_NONE = foc)
    by (rewrite Hl2; apply last_snoc).
  assert (Hout : match l2 with
                 | [] => []
                 | _ => focus_requests (List.last l2 XCB_NONE)
                 end = focus_requests foc).
  { rewrite Hlast. destruct l2; [|done].
    by destruct (foldl push_absent l1 (m_minimizedWindows s)). }
  rewrite Hout in E2.
  remember (set_m_minimizedWindows [] (set_m_windowList l2 s1)) as s2 eqn:Es2.
  assert (Hs2l : m_windowList s2 = l2) by (by rewrite Es2).
  assert (Hs2m : m_minimizedWindows s2 = []) by (by rewrite Es2).
  exists s1, (UnmapWindow foc :: reset_requests s1), s2,
    ((MapWindow <$> m1) ++ focus_requests foc).
  split; [exact E1|]. split; [exact Hl1|]. split; [by rewrite Hl1|].
  split; [exact Hm1|]. split; [left|]. split; [exact E2|].
  rewrite Hs2l, Hm1, Hl1.
  split; [intros w Hw; apply elem_of_restored; by right|].
  split; [intros w Hw; apply elem_of_restored; by left|].
  split; [by apply NoDup_restored, NoDup_erase_first|].
  split; [exact Hs2m|]. split; [apply last_snoc|]. split; [reflexivity|].
  pose proof (restoreMinimized_eq s2) as E3. cbn zeta in E3.
  rewrite Hs2l, Hs2m in E3. cbn [foldl fmap list_fmap app] in E3.
  rewrite Hout in E3. rewrite E3. f_equal.
  rewrite Es2. cbn. reflexivity.
Qed.

Lemma minimize_restore_round_trip_witness :
  let s := example_two_windows in
  NoDup (m_windowList s)
  ∧ 6 ∈ m_windowList s
  ∧ (6 ∉ m_minimizedWindows s)
  ∧ ∃ s1 out1 s2 out2,
      minimizeWindow 6 s = Ret tt s1 out1
      ∧ m_windowList s1 = [5]
      ∧ m_minimizedWindows s1 = [6]
      ∧ restoreMinimized s1 = Ret tt s2 out2
      ∧ m_windowList s2 = [5; 6]
      ∧ m_minimizedWindows s2 = []
      ∧ out2 = [MapWindow 6;
                ConfigureWindow 6 XCB_CONFIG_WINDOW_STACK_MODE
                  [XCB_STACK_MODE_ABOVE];
                MapWindow 6; SetInputFocus 6; Flush]
      ∧ restoreMinimized s2 = Ret tt s2 (focus_requests 6).
Proof.
  intros s.
  assert (Hl : m_windowList s = [5; 6]) by (vm_compute; reflexivity).
  assert (Hm : m_minimizedWindows s = []) by (vm_compute; reflexivity).
  assert (Hnd : NoDup (m_windowList s))
    by (rewrite Hl; apply (bool_decide_unpack _); vm_compute; exact I).
  assert (Hin : 6 ∈ m_windowList s)
    by (rewrite Hl; apply (bool_decide_unpack _); vm_compute; exact I).
  assert (Hmin : 6 ∉ m_minimizedWindows s)
    by (rewrite Hm; apply not_elem_of_nil).
  assert (H0 : (6 : Z) ≠ XCB_NONE) by (vm_compute; congruence).
  assert (H1 : 6 ≠ m_runnerWindow s) by (vm_compute; congruence).
  assert (H2 : 6 ≠ m_exitConfirmationWindow s) by (vm_compute; congruence).
  assert (H3 : 6 ≠ m_helpWindow s) by (vm_compute; congruence).
  destruct (minimize_restore_round_trip 6 s Hnd Hin Hmin H0 H1 H2 H3)
    as (s1 & out1 & s2 & out2 & E1 & Hl1 & _ & Hm1 & _ & E2 & _ & _ & _
        & Hm2 & _ & Hout & E3).
  split; [exact Hnd|]. split; [exact Hin|]. split; [exact Hmin|].
  exists s1, out1, s2, out2.
  rewrite Hl in Hl1. rewrite Hm in Hm1. cbn in Hl1, Hm1.
  split; [exact E1|]. split; [exact Hl1|]. split; [exact Hm1|].
  split; [exact E2|]. split.
  { pose proof (restoreMinimized_eq s1) as E. cbn zeta in E.
    rewrite E2, Hl1, Hm1 in E. injection E as -> _. reflexivity. }
  split; [exact Hm2|]. split; [|exact E3].
  rewrite Hout, Hm1. reflexivity.
Defined.

(** ** The Runner dialog *)

Lemma destroyPopUpWindow_eq d s :
  activeFlag d s = true → winVar d s ≠ XCB_NONE →
  let win := winVar d s in
  let s' :=
    set_activeFlag d false
      (set_winVar d XCB_NONE
         (unregistered win (set_m_conn (server_destroy win (m_conn s)) s))) in
  destroyPopUpWindow d s
  = Ret tt s' ([UnmapWindow win; DestroyWindow win; Flush] ++ reset_requests s').
Proof.
  intros Hd Hw win s'. unfold destroyPopUpWindow. mstep.
  rewrite Hd, bool_decide_eq_false_2 by done. cbn [negb orb prepend app].
  fold win. unfold xcb_unmap_window, xcb_destroy_window, xcb_flush, on_server.
  subst s'. unfold unregistered.
  cbn [m_windowList set_m_conn m_currentWindowIndex].
  destruct (decide (win ∈ m_windowList s)) as [Hin|Hin].
  - mrun. rewrite resetFocus_eq. cbn [prepend].
    cbn [m_windowList set_m_conn m_currentWindowIndex set_m_windowList].
    destruct (decide (length (erase_first win (m_windowList s))
                      ≤ m_currentWindowIndex s)%nat);
      destruct d; reflexivity.
  - mrun. rewrite resetFocus_eq. destruct d; reflexivity.
Qed.

Lemma pop_back_push_back str c : pop_back (push_back str c) = str.
Proof.
  unfold push_back. induction str as [|a str IH]; [done|].
  change (String a str +:+ String c "") with (String a (str +:+ String c "")).
  destruct (str +:+ String c "") as [|b rest] eqn:E.
  - destruct str; discriminate.
  - change (pop_back (String a (String b rest)))
      with (String a (pop_back (String b rest))).
    by rewrite IH.
Qed.

Lemma destroyRunnerDialog_closes s :
  runner_open s →
  let win := m_runnerWindow s in
  ∃ s' out,
    destroyRunnerDialog s
    = Ret tt s' ([UnmapWindow win; DestroyWindow win; Flush] ++ out)
    ∧ runner_closed s'
    ∧ List.filter is_shell out = []
    ∧ m_windowList s' = erase_first win (m_windowList s).
Proof.
  intros [Ha Hw] win. unfold destroyRunnerDialog.
  erewrite bind_eq by (by apply (destroyPopUpWindow_eq Runner)).
  cbn [prepend modify winVar set_activeFlag set_winVar]. fold win.
  eexists _, _. split; [by rewrite app_nil_r|].
  split; [done|]. split.
  - unfold reset_requests, focus_requests.
    destruct (m_windowList _); [done|]. by case_decide.
  - cbn. unfold unregistered. cbn.
    destruct (decide (win ∈ m_windowList s)) as [Hin|Hin]; cbn.
    + by case_decide.
    + by rewrite erase_first_notin.
Qed.

(** C10: while the Runner dialog is open, a key with keysym in 32..126
    appends its character to the buffer and a redraw request (a synthetic
    Expose event) is sent; backspace on a non-empty buffer removes the last
    character and sends the redraw request; Escape unmaps and destroys the
    window, closes the dialog and clears the buffer, and runs nothing;
    Enter hands the buffer to [executeCommand], which starts the shell on
    it unless it is empty or [fork] fails, and then closes the dialog in
    the same way.  Opening the Runner, typing [ls] and pressing Enter runs
    exactly [ls] and leaves the dialog closed with an empty buffer. *)
Theorem runner_keystrokes :
  (∀ env ks s, runner_open s → 32 ≤ ks ≤ 126 →
     handleRunnerInput env ks s
     = Ret tt
         (set_m_runnerInput
            (push_back (m_runnerInput s) (ascii_of_N (Z.to_N ks))) s)
         (redraw_request s))
  ∧ (∀ env s, runner_open s → m_runnerInput s ≠ ""%string →
       handleRunnerInput env XK_BackSpace s
       = Ret tt (set_m_runnerInput (pop_back (m_runnerInput s)) s)
           (redraw_request s))
  ∧ (∀ str c, pop_back (push_back str c) = str)
  ∧ (∀ env s, runner_open s →
       ∃ s' out,
         handleRunnerInput env XK_Escape s
         = Ret tt s'
             ([UnmapWindow (m_runnerWindow s);
               DestroyWindow (m_runnerWindow s); Flush] ++ out)
         ∧ runner_closed s'
         ∧ List.filter is_shell out = [])
  ∧ (∀ env s, runner_open s → m_runnerInput s ≠ ""%string → 0 ≤ fork env →
       ∃ s' out,
         handleRunnerInput env XK_Return s
         = Ret tt s'
             (Shell (m_runnerInput s)
              :: [UnmapWindow (m_runnerWindow s);
                  DestroyWindow (m_runnerWindow s); Flush] ++ out)
         ∧ runner_closed s'
         ∧ List.filter is_shell out = [])
  ∧ (∀ env s, m_runnerInput s = ""%string →
       handleRunnerInput env XK_Return s = handleRunnerInput env XK_Escape s)
  ∧ (let r :=
       run [(example_env 0 50, alt_key XK_r);
            (example_env 50 51, plain_key 108);
            (example_env 50 51, plain_key 115);
            (example_env 50 51, plain_key XK_Return)] example_initial in
     returns runner_closed r
     ∧ List.filter is_shell (requests_of r) = [Shell "ls"]).
Proof.
  split; [|split; [|split; [|split; [|split; [|split]]]]].
  - intros env ks s [Ha Hw] Hk.
    rewrite handleRunnerInput_printable by done.
    by rewrite Ha, bool_decide_eq_false_2.
  - intros env s [Ha Hw] Hne. unfold handleRunnerInput.
    rewrite decide_False by done. rewrite decide_False by done.
    rewrite decide_True by done. mstep. rewrite decide_True by done.
    unfold redrawRunnerDialog. do 2 mstep.
    cbn [m_isRunnerActive m_runnerWindow set_m_runnerInput].
    rewrite Ha, bool_decide_eq_false_2 by done.
    reflexivity.
  - apply pop_back_push_back.
  - intros env s Hopen. unfold handleRunnerInput.
    rewrite decide_True by done.
    destruct (destroyRunnerDialog_closes s Hopen) as (s' & out & E & Hc & Hs & _).
    by exists s', out.
  - intros env s Hopen Hne Hfork. unfold handleRunnerInput.
    rewrite decide_False by done. rewrite decide_True by done. mstep.
    unfold executeCommand. rewrite decide_False by done.
    rewrite decide_False by lia.
    destruct (destroyRunnerDialog_closes s Hopen) as (s' & out & E & Hc & Hs & _).
    exists s', out. split; [|done].
    erewrite bind_eq by reflexivity. by rewrite E.
  - intros env s Hempty. unfold handleRunnerInput.
    rewrite decide_False by done. rewrite !decide_True by done. mstep.
    unfold executeCommand. rewrite decide_True by done.
    erewrite bind_eq by reflexivity. by destruct (destroyRunnerDialog s).
  - set (r := run _ _). vm_compute in r. subst r. split; [|reflexivity].
    repeat split.
Qed.

Lemma runner_keystrokes_witness :
  runner_open example_ls_typed
  ∧ m_runnerInput example_ls_typed = "ls"%string
  ∧ (handleRunnerInput (example_env 50 51) 33 example_ls_typed
     = Ret tt (set_m_runnerInput "ls!" example_ls_typed)
         (redraw_request example_ls_typed))
  ∧ (handleRunnerInput (example_env 50 51) XK_BackSpace example_ls_typed
     = Ret tt (set_m_runnerInput "l" example_ls_typed)
         (redraw_request example_ls_typed))
  ∧ (∃ s' out,
       handleRunnerInput (example_env 50 51) XK_Escape example_ls_typed
       = Ret tt s' ([UnmapWindow 50; DestroyWindow 50; Flush] ++ out)
       ∧ runner_closed s' ∧ List.filter is_shell out = [])
  ∧ (∃ s' out,
       handleRunnerInput (example_env 50 51) XK_Return example_ls_typed
       = Ret tt s'
           (Shell "ls" :: [UnmapWindow 50; DestroyWindow 50; Flush] ++ out)
       ∧ runner_closed s' ∧ List.filter is_shell out = []).
Proof.
  assert (Hopen : runner_open example_ls_typed)
    by (split; vm_compute; congruence).
  assert (Hbuf : m_runnerInput example_ls_typed = "ls"%string)
    by (vm_compute; reflexivity).
  assert (Hne : m_runnerInput example_ls_typed ≠ ""%string)
    by (rewrite Hbuf; discriminate).
  assert (Hwin : m_runnerWindow example_ls_typed = 50)
    by (vm_compute; reflexivity).
  destruct runner_keystrokes as (K1 & K2 & _ & K4 & K5 & _).
  split; [exact Hopen|]. split; [exact Hbuf|]. split; [|split; [|split]].
  - rewrite (K1 _ 33 _ Hopen) by lia. rewrite Hbuf. reflexivity.
  - rewrite (K2 _ _ Hopen Hne). rewrite Hbuf. reflexivity.
  - destruct (K4 (example_env 50 51) _ Hopen) as (s' & out & E & Hc & Hs).
    rewrite Hwin in E. by exists s', out.
  - assert (Hfork : 0 ≤ fork (example_env 50 51)) by (vm_compute; discriminate).
    destruct (K5 (example_env 50 51) _ Hopen Hne Hfork)
      as (s' & out & E & Hc & Hs).
    rewrite Hwin, Hbuf in E. by exists s', out.
Defined.

(** * Further properties of the handlers *)

(** ** Resizing *)

Lemma handleMotionNotify_resize ev s :
  mv_window (moveStart s) = XCB_NONE →
  rs_window (resizeStart s) ≠ XCB_NONE →
  let w := rs_window (resizeStart s) in
  let vals :=
    [uint16 (Z.max (rs_start_width (resizeStart s)
                    + (mn_root_x ev - rs_start_x (resizeStart s))) 50);
     uint16 (Z.max (rs_start_height (resizeStart s)
                    + (mn_root_y ev - rs_start_y (resizeStart s))) 50)] in
  let mask := Z.lor XCB_CONFIG_WINDOW_WIDTH XCB_CONFIG_WINDOW_HEIGHT in
  handleMotionNotify ev s
  = Ret tt
      (set_m_geometryCache (delete w (m_geometryCache s))
         (set_m_conn (server_configure w mask vals (m_conn s)) s))
      [ConfigureWindow w mask vals; Flush].
Proof.
  intros Hm Hr w vals mask. unfold handleMotionNotify. mstep.
  rewrite decide_False by (intros N; by apply N).
  rewrite decide_True by done. cbn [prepend].
  unfold xcb_configure_window, invalidateGeometryCache, on_server, xcb_flush.
  mrun. reflexivity.
Qed.

Lemma uint16_idemp z : uint16 (uint16 z) = uint16 z.
Proof. unfold uint16. apply Z.mod_mod. lia. Qed.

Lemma uint16_small z : 0 ≤ z < 2 ^ 16 → uint16 z = z.
Proof. intros. unfold uint16. by apply Z.mod_small. Qed.

(** While only a resize is active, a motion event asks for the size
    start + pointer delta, floored at 50 on each axis and narrowed to
    [uint16_t]; it leaves the position alone and drops the cached geometry.
    As long as start + delta stays below 2^16 the size asked for is at
    least 50. *)
Theorem resize_floors_at_50 (ev : xcb_motion_notify_event_t) (s : WM) :
  mv_window (moveStart s) = XCB_NONE →
  rs_window (resizeStart s) ≠ XCB_NONE →
  let w := rs_window (resizeStart s) in
  let rawW := rs_start_width (resizeStart s)
              + (mn_root_x ev - rs_start_x (resizeStart s)) in
  let rawH := rs_start_height (resizeStart s)
              + (mn_root_y ev - rs_start_y (resizeStart s)) in
  ∃ nw nh s',
    handleMotionNotify ev s
    = Ret tt s'
        [ConfigureWindow w
           (Z.lor XCB_CONFIG_WINDOW_WIDTH XCB_CONFIG_WINDOW_HEIGHT) [nw; nh];
         Flush]
    ∧ nw = uint16 (Z.max rawW 50) ∧ nh = uint16 (Z.max rawH 50)
    ∧ (rawW < 2 ^ 16 → nw = Z.max rawW 50 ∧ 50 ≤ nw)
    ∧ (rawH < 2 ^ 16 → nh = Z.max rawH 50 ∧ 50 ≤ nh)
    ∧ x_geometry (m_conn s') !! w
      = (λ g0, mkGeometry (g_x g0) (g_y g0) nw nh)
        <$> x_geometry (m_conn s) !! w
    ∧ m_geometryCache s' !! w = None
    ∧ resizeStart s' = resizeStart s
    ∧ m_windowList s' = m_windowList s.
Proof.
  intros Hm Hr w rawW rawH.
  eexists _, _, _. split; [apply (handleMotionNotify_resize ev s Hm Hr)|].
  fold w rawW rawH.
  split; [reflexivity|]. split; [reflexivity|].
  split; [intros H; rewrite uint16_small by lia; lia|].
  split; [intros H; rewrite uint16_small by lia; lia|].
  cbn [m_conn set_m_conn set_m_geometryCache m_geometryCache resizeStart
       m_windowList].
  split; [|split; [apply lookup_delete_eq | done]].
  unfold server_configure.
  destruct (x_geometry (m_conn s) !! w) as [g0|] eqn:Eg; cbn [fmap option_fmap option_map].
  - cbn [x_geometry]. rewrite lookup_insert_eq. f_equal.
    change (configure_geometry _ [?a; ?b] g0)
      with (mkGeometry (g_x g0) (g_y g0) (uint16 a) (uint16 b)).
    by rewrite !uint16_idemp.
  - by rewrite Eg.
Qed.

Lemma resize_floors_at_50_witness :
  mv_window (moveStart example_resizing) = XCB_NONE
  ∧ rs_window (resizeStart example_resizing) ≠ XCB_NONE
  ∧ ∃ s',
      handleMotionNotify (mkMotionNotify (-200) 150) example_resizing
      = Ret tt s' [ConfigureWindow 5 12 [50; 250]; Flush]
      ∧ x_geometry (m_conn s') !! 5 = Some (mkGeometry 0 0 50 250).
Proof.
  assert (Hm : mv_window (moveStart example_resizing) = XCB_NONE)
    by (vm_compute; reflexivity).
  assert (Hr : rs_window (resizeStart example_resizing) ≠ XCB_NONE)
    by (vm_compute; congruence).
  assert (Hw : rs_window (resizeStart example_resizing) = 5)
    by (vm_compute; reflexivity).
  split; [exact Hm|]. split; [exact Hr|].
  destruct (resize_floors_at_50 (mkMotionNotify (-200) 150) example_resizing
              Hm Hr) as (nw & nh & s' & E & -> & -> & _ & _ & Hg & _).
  rewrite Hw in Hg. exists s'. split.
  - rewrite E. vm_compute. reflexivity.
  - rewrite Hg. vm_compute. reflexivity.
Defined.

(** ** The geometry cache *)

(** [getWindowGeometry] answers from the cache without a request; on a
    miss it asks the server once and caches the reply, so that the next
    call is a hit with the same answer; when the server does not reply it
    answers (0, 0, 100, 100) and caches nothing, so that the next call asks
    again; after [invalidateGeometryCache] the server is asked again. *)
Theorem geometry_cache_hit_miss_fallback (w : xcb_window_t) (s : WM) :
  (∀ g, m_geometryCache s !! w = Some g →
     getWindowGeometry w s = Ret g s [])
  ∧ (∀ g, m_geometryCache s !! w = None →
       x_geometry (m_conn s) !! w = Some g →
       ∃ s1,
         getWindowGeometry w s = Ret g s1 [GetGeometry w]
         ∧ m_geometryCache s1 = <[w := g]> (m_geometryCache s)
         ∧ getWindowGeometry w s1 = Ret g s1 [])
  ∧ (m_geometryCache s !! w = None →
     x_geometry (m_conn s) !! w = None →
     getWindowGeometry w s = Ret (mkGeometry 0 0 100 100) s [GetGeometry w])
  ∧ (∃ s2,
       (invalidateGeometryCache w ;; getWindowGeometry w) s
       = Ret (default (mkGeometry 0 0 100 100) (x_geometry (m_conn s) !! w))
           s2 [GetGeometry w]
       ∧ m_conn s2 = m_conn s).
Proof.
  split; [|split; [|split]].
  - intros g Hc. rewrite getWindowGeometry_eq.
    unfold known_geometry, geometry_cached, geometry_query. by rewrite Hc.
  - intros g Hc Hg. eexists. rewrite getWindowGeometry_eq.
    unfold known_geometry, geometry_cached, geometry_query at 1.
    rewrite Hc, Hg. split; [reflexivity|]. split; [reflexivity|].
    rewrite getWindowGeometry_eq.
    unfold known_geometry, geometry_cached, geometry_query.
    cbn [m_geometryCache set_m_geometryCache].
    by rewrite lookup_insert_eq.
  - intros Hc Hg. rewrite getWindowGeometry_eq.
    unfold known_geometry, geometry_cached, geometry_query. by rewrite Hc, Hg.
  - unfold invalidateGeometryCache. mstep. rewrite getWindowGeometry_eq.
    unfold known_geometry, geometry_cached, geometry_query.
    cbn [m_geometryCache set_m_geometryCache m_conn prepend app].
    rewrite lookup_delete_eq.
    destruct (x_geometry (m_conn s) !! w); eexists; split; reflexivity.
Qed.

Lemma geometry_cache_hit_miss_fallback_witness :
  m_geometryCache example_initial !! 6 = None
  ∧ x_geometry (m_conn example_initial) !! 6 = Some (mkGeometry 40 60 640 480)
  ∧ (∃ s1,
       getWindowGeometry 6 example_initial
       = Ret (mkGeometry 40 60 640 480) s1 [GetGeometry 6]
       ∧ getWindowGeometry 6 s1 = Ret (mkGeometry 40 60 640 480) s1 [])
  ∧ x_geometry (m_conn example_initial) !! 9 = None
  ∧ getWindowGeometry 9 example_initial
    = Ret (mkGeometry 0 0 100 100) example_initial [GetGeometry 9].
Proof.
  assert (Hc : m_geometryCache example_initial !! 6 = None)
    by (vm_compute; reflexivity).
  assert (Hg : x_geometry (m_conn example_initial) !! 6
               = Some (mkGeometry 40 60 640 480)) by (vm_compute; reflexivity).
  assert (Hc9 : m_geometryCache example_initial !! 9 = None)
    by (vm_compute; reflexivity).
  assert (Hg9 : x_geometry (m_conn example_initial) !! 9 = None)
    by (vm_compute; reflexivity).
  split; [exact Hc|]. split; [exact Hg|].
  destruct (geometry_cache_hit_miss_fallback 6 example_initial)
    as (_ & Hmiss & _).
  destruct (geometry_cache_hit_miss_fallback 9 example_initial)
    as (_ & _ & Hfall & _).
  destruct (Hmiss _ Hc Hg) as (s1 & E1 & _ & E2).
  split; [by exists s1|]. split; [exact Hg9|]. exact (Hfall Hc9 Hg9).
Defined.

(** ** Keysyms *)

Lemma land_1_testbit z : Z.land z 1 = if Z.testbit z 0 then 1 else 0.
Proof.
  apply Z.bits_inj'. intros n Hn. rewrite Z.land_spec.
  destruct (decide (n = 0)) as [->|Hne].
  - destruct (Z.testbit z 0); reflexivity.
  - replace (Z.testbit 1 n) with false
      by (symmetry; apply (Z.pow2_bits_false 0); lia).
    rewrite andb_false_r. destruct (Z.testbit z 0).
    + symmetry. apply (Z.pow2_bits_false 0); lia.
    + symmetry. apply Z.bits_0.
Qed.

(** [getKeysym] looks the key up in column 1 when the Shift bit of the
    state is set and in column 0 otherwise: no other modifier bit, and in
    particular neither Caps Lock nor Num Lock, changes the keysym. *)
Theorem keysym_depends_on_shift_only (env : Env) (code state : Z) :
  getKeysym env code state
  = key_symbols env code (if Z.testbit state 0 then 1 else 0)
  ∧ getKeysym env code (Z.lor state XCB_MOD_MASK_LOCK)
    = getKeysym env code state
  ∧ getKeysym env code (Z.lor state XCB_MOD_MASK_2)
    = getKeysym env code state
  ∧ getKeysym env code (Z.lor state XCB_MOD_MASK_1)
    = getKeysym env code state.
Proof.
  assert (H : ∀ st, getKeysym env code st
                    = key_symbols env code (if Z.testbit st 0 then 1 else 0)).
  { intros st. unfold getKeysym, uint16, XCB_MOD_MASK_SHIFT.
    rewrite land_1_testbit.
    rewrite Z.mod_pow2_bits_low by lia.
    rewrite Z.land_spec, Z.lnot_spec by lia.
    change (Z.testbit (Z.lor XCB_MOD_MASK_LOCK XCB_MOD_MASK_2) 0) with false.
    rewrite andb_true_r.
    destruct (Z.testbit st 0); by case_decide. }
  split; [apply H|].
  rewrite !H, !Z.lor_spec.
  change (Z.testbit XCB_MOD_MASK_LOCK 0) with false.
  change (Z.testbit XCB_MOD_MASK_2 0) with false.
  change (Z.testbit XCB_MOD_MASK_1 0) with false.
  by rewrite orb_false_r.
Qed.

(** ** Presses and motions that are ignored *)

(** A button press changes nothing and sends nothing when it lands on the
    window of an active dialog, when Alt is not held, or when no child
    window is under the pointer. *)
Theorem button_press_ignored (ev : xcb_button_press_event_t) (s : WM) :
  (∃ d, activeFlag d s = true ∧ bp_event ev = winVar d s)
  ∨ altPressed (bp_state ev) = false
  ∨ bp_child ev = XCB_NONE →
  handleButtonPress ev s = Ret tt s [].
Proof.
  intros H. unfold handleButtonPress. mstep. cbn [prepend].
  destruct ((m_isExitConfirmationActive s
             && bool_decide (bp_event ev = m_exitConfirmationWindow s))
            || (m_isRunnerActive s
                && bool_decide (bp_event ev = m_runnerWindow s))
            || (m_isHelpActive s && bool_decide (bp_event ev = m_helpWindow s)))
    eqn:Ed; [done|].
  destruct H as [(d & Hd & Hw)|[Ha|Hc]].
  - exfalso. apply orb_false_elim in Ed as [Ed E3].
    apply orb_false_elim in Ed as [E1 E2].
    destruct d; cbn in Hd, Hw; rewrite Hd in *; cbn in *.
    + by rewrite bool_decide_eq_true_2 in E2.
    + by rewrite bool_decide_eq_true_2 in E1.
    + by rewrite bool_decide_eq_true_2 in E3.
  - by rewrite Ha.
  - destruct (negb _); [done|]. by rewrite decide_True.
Qed.

Lemma button_press_ignored_witness :
  altPressed (bp_state (mkButtonPress 1 1 5 100 100 0)) = false
  ∧ handleButtonPress (mkButtonPress 1 1 5 100 100 0) example_initial
    = Ret tt example_initial [].
Proof.
  assert (H : altPressed (bp_state (mkButtonPress 1 1 5 100 100 0)) = false)
    by reflexivity.
  split; [exact H|].
  apply button_press_ignored. right. left. exact H.
Defined.

(** After a button release a motion event changes nothing and sends
    nothing, whatever gesture was pending before the release. *)
Theorem motion_after_release_ignored
    (ev : xcb_motion_notify_event_t) (s : WM) :
  (handleButtonRelease ;; handleMotionNotify ev) s
  = Ret tt (set_resizeStart no_resize (set_moveStart no_move s)) [].
Proof.
  unfold handleButtonRelease. rewrite bind_assoc. do 2 mstep.
  unfold handleMotionNotify. mstep.
  cbn [moveStart resizeStart set_moveStart set_resizeStart].
  reflexivity.
Qed.

Lemma prepend_nil {A} (r : Res A) : prepend [] r = r.
Proof. by destruct r. Qed.

(** ** Keys outside the dialogs *)

(** With no dialog active, a key press without Alt, or with Alt and a
    keysym that is none of f, e, q, r, i, Tab, m, n, only asks the server
    for the focused window and changes nothing. *)
Theorem unbound_key_does_nothing
    (env : Env) (ev : xcb_key_press_event_t) (s : WM) :
  (∀ d, activeFlag d s = false) →
  altPressed (kp_state ev) = false
  ∨ getKeysym env (kp_detail ev) (kp_state ev)
    ∉ [XK_f; XK_e; XK_q; XK_r; XK_i; XK_Tab; XK_m; XK_n] →
  handleKeyPress env ev s = Ret tt s [GetInputFocus].
Proof.
  intros Hno H. unfold handleKeyPress. mstep.
  pose proof (Hno Runner) as E2. pose proof (Hno ExitConfirmation) as E1.
  pose proof (Hno Help) as E3. cbn in E1, E2, E3. rewrite E1, E2, E3.
  unfold getFocusedWindow. mrun. cbn [app].
  destruct H as [Ha|Hk]; [by rewrite Ha|].
  destruct (negb _); [done|].
  rewrite !not_elem_of_cons in Hk.
  destruct Hk as (? & ? & ? & ? & ? & ? & ? & ? & _).
  by rewrite !decide_False by done.
Qed.

Lemma unbound_key_does_nothing_witness :
  (∀ d, activeFlag d example_two_windows = false)
  ∧ handleKeyPress (example_env 6 50) (mkKeyPress XK_m 0) example_two_windows
    = Ret tt example_two_windows [GetInputFocus].
Proof.
  assert (H : ∀ d, activeFlag d example_two_windows = false)
    by (intros []; vm_compute; reflexivity).
  split; [exact H|].
  apply unbound_key_does_nothing; [exact H|]. left. reflexivity.
Defined.

(** ** The Help dialog *)

(** While the Help dialog is the active one, every key but Escape is
    ignored; Escape unmaps and destroys the dialog's window, takes it out
    of the registry, clears the flag and the window variable and resets the
    focus.  A dialog whose window variable is [XCB_NONE] cannot be closed:
    Escape is ignored as well. *)
Theorem help_dialog_keys (env : Env) (ev : xcb_key_press_event_t) (s : WM) :
  m_isExitConfirmationActive s = false →
  m_isRunnerActive s = false →
  m_isHelpActive s = true →
  let ks := getKeysym env (kp_detail ev) (kp_state ev) in
  (ks ≠ XK_Escape → handleKeyPress env ev s = Ret tt s [])
  ∧ (ks = XK_Escape → m_helpWindow s = XCB_NONE →
     handleKeyPress env ev s = Ret tt s [])
  ∧ (ks = XK_Escape → m_helpWindow s ≠ XCB_NONE →
     ∃ s',
       handleKeyPress env ev s
       = Ret tt s'
           ([UnmapWindow (m_helpWindow s); DestroyWindow (m_helpWindow s);
             Flush] ++ reset_requests s')
       ∧ m_isHelpActive s' = false
       ∧ m_helpWindow s' = XCB_NONE
       ∧ m_windowList s' = erase_first (m_helpWindow s) (m_windowList s)
       ∧ m_minimizedWindows s' = m_minimizedWindows s
       ∧ m_runnerInput s' = m_runnerInput s).
Proof.
  intros E1 E2 E3 ks.
  assert (Hk : handleKeyPress env ev s
               = (if decide (ks = XK_Escape) then destroyHelpDialog
                  else ret tt) s).
  { unfold handleKeyPress. mstep. by rewrite E1, E2, E3, prepend_nil. }
  rewrite Hk. clear Hk. split; [|split].
  - intros Hne. by rewrite decide_False.
  - intros -> Hw. rewrite decide_True by done.
    unfold destroyHelpDialog, destroyPopUpWindow. mstep.
    cbn [activeFlag winVar]. by rewrite E3, bool_decide_eq_true_2.
  - intros -> Hw. rewrite decide_True by done.
    unfold destroyHelpDialog.
    rewrite (destroyPopUpWindow_eq Help) by done.
    cbn [winVar set_activeFlag set_winVar]. eexists. split; [reflexivity|].
    unfold unregistered. cbn [m_windowList set_m_conn m_currentWindowIndex].
    destruct (decide (m_helpWindow s ∈ m_windowList s)) as [Hin|Hin].
    + case_decide; cbn; done.
    + cbn. by rewrite erase_first_notin.
Qed.

(** The Help dialog opened with Alt+i. *)
Lemma help_dialog_keys_witness :
  let s :=
    state_of (dispatch (example_env 0 50) (alt_key XK_i) example_initial)
      example_initial in
  m_isExitConfirmationActive s = false
  ∧ m_isRunnerActive s = false
  ∧ m_isHelpActive s = true
  ∧ m_helpWindow s ≠ XCB_NONE
  ∧ handleKeyPress (example_env 50 51) (mkKeyPress XK_q XCB_MOD_MASK_1) s
    = Ret tt s []
  ∧ ∃ s',
      handleKeyPress (example_env 50 51) (mkKeyPress XK_Escape 0) s
      = Ret tt s'
          ([UnmapWindow (m_helpWindow s); DestroyWindow (m_helpWindow s);
            Flush] ++ reset_requests s')
      ∧ m_isHelpActive s' = false
      ∧ m_windowList s' = [].
Proof.
  intros s.
  assert (E1 : m_isExitConfirmationActive s = false) by (vm_compute; reflexivity).
  assert (E2 : m_isRunnerActive s = false) by (vm_compute; reflexivity).
  assert (E3 : m_isHelpActive s = true) by (vm_compute; reflexivity).
  assert (Hw : m_helpWindow s ≠ XCB_NONE) by (vm_compute; congruence).
  split; [exact E1|]. split; [exact E2|]. split; [exact E3|].
  split; [exact Hw|]. split.
  - destruct (help_dialog_keys (example_env 50 51)
                (mkKeyPress XK_q XCB_MOD_MASK_1) s E1 E2 E3) as (H & _).
    apply H. vm_compute. congruence.
  - destruct (help_dialog_keys (example_env 50 51)
                (mkKeyPress XK_Escape 0) s E1 E2 E3) as (_ & _ & H).
    destruct H as (s' & E & F & _ & L & _); [vm_compute; reflexivity | exact Hw |].
    exists s'. split; [exact E|]. split; [exact F|].
    rewrite L. vm_compute. reflexivity.
Defined.

(** ** Closing a window *)

(** Alt+e on the focused window [foc]: when the window's [WM_PROTOCOLS]
    lists [WM_DELETE_WINDOW], the window is sent that client message and is
    not destroyed; otherwise, or without a reply, it is destroyed and sent
    nothing.  In both cases the registry keeps the window; it leaves the
    registry with its destroy notification. *)
Theorem close_window_graceful_or_forced
    (env : Env) (foc : xcb_window_t) (s : WM) :
  (∀ atoms, wm_protocols_reply env foc = Some atoms →
     WM_DELETE_WINDOW s ∈ atoms →
     closeWindow env foc s
     = Ret tt s
         [GetWMProtocols foc;
          SendEvent foc 0
            (ClientMessageEvent foc (WM_PROTOCOLS s) (WM_DELETE_WINDOW s)
               XCB_CURRENT_TIME);
          Flush])
  ∧ ((∀ atoms, wm_protocols_reply env foc = Some atoms →
        WM_DELETE_WINDOW s ∉ atoms) →
     closeWindow env foc s
     = Ret tt (set_m_conn (server_destroy foc (m_conn s)) s)
         [GetWMProtocols foc; DestroyWindow foc; Flush])
  ∧ ensures (fun s' => m_windowList s' = m_windowList s
                       ∧ m_currentWindowIndex s' = m_currentWindowIndex s
                       ∧ m_minimizedWindows s' = m_minimizedWindows s)
      (closeWindow env foc s)
  ∧ (∀ s1 out, closeWindow env foc s = Ret tt s1 out →
       NoDup (m_windowList s) →
       returns (fun s2 => foc ∉ m_windowList s2) (handleDestroyNotify foc s1)).
Proof.
  assert (Hyes : ∀ atoms, wm_protocols_reply env foc = Some atoms →
     WM_DELETE_WINDOW s ∈ atoms →
     closeWindow env foc s
     = Ret tt s
         [GetWMProtocols foc;
          SendEvent foc 0
            (ClientMessageEvent foc (WM_PROTOCOLS s) (WM_DELETE_WINDOW s)
               XCB_CURRENT_TIME);
          Flush]).
  { intros atoms Hr Hin. unfold closeWindow. do 2 mstep. rewrite Hr.
    rewrite bool_decide_eq_true_2 by done.
    unfold xcb_send_event, xcb_flush. mrun. reflexivity. }
  assert (Hno : (∀ atoms, wm_protocols_reply env foc = Some atoms →
        WM_DELETE_WINDOW s ∉ atoms) →
     closeWindow env foc s
     = Ret tt (set_m_conn (server_destroy foc (m_conn s)) s)
         [GetWMProtocols foc; DestroyWindow foc; Flush]).
  { intros H. unfold closeWindow. do 2 mstep.
    unfold xcb_destroy_window, xcb_flush, on_server.
    destruct (wm_protocols_reply env foc) as [atoms|] eqn:Hr.
    - rewrite bool_decide_eq_false_2 by (by apply H).
      mrun. reflexivity.
    - mrun. reflexivity. }
  assert (Hcase : (∃ atoms, wm_protocols_reply env foc = Some atoms
                            ∧ WM_DELETE_WINDOW s ∈ atoms)
                  ∨ (∀ atoms, wm_protocols_reply env foc = Some atoms →
                       WM_DELETE_WINDOW s ∉ atoms)).
  { destruct (wm_protocols_reply env foc) as [atoms|]; [|by right].
    destruct (decide (WM_DELETE_WINDOW s ∈ atoms)); [left; eauto|].
    right. by intros ? [= <-]. }
  split; [exact Hyes|]. split; [exact Hno|]. split.
  - destruct Hcase as [(atoms & Hr & Hin)|H].
    + by rewrite (Hyes atoms).
    + by rewrite (Hno H).
  - intros s1 out E Hnd. rewrite handleDestroyNotify_eq. cbn [returns].
    assert (Hl : m_windowList s1 = m_windowList s).
    { destruct Hcase as [(atoms & Hr & Hin)|H].
      - rewrite (Hyes atoms) in E by done. by injection E as <- _.
      - rewrite (Hno H) in E. by injection E as <- _. }
    destruct (decide (foc ∈ m_windowList s1)) as [Hin|Hin]; [|done].
    cbn zeta. case_decide; cbn; rewrite Hl; by apply erase_first_NoDup_notin.
Qed.

Lemma close_window_graceful_or_forced_witness :
  let env :=
    mkEnv 50 (Some 6) (fun _ => None) (fun _ => Some [301]) 1 example_keymap in
  wm_protocols_reply env 6 = Some [301]
  ∧ WM_DELETE_WINDOW example_two_windows ∈ [301]
  ∧ closeWindow env 6 example_two_windows
    = Ret tt example_two_windows
        [GetWMProtocols 6; SendEvent 6 0 (ClientMessageEvent 6 300 301 0);
         Flush]
  ∧ closeWindow (example_env 6 50) 6 example_two_windows
    = Ret tt
        (set_m_conn (server_destroy 6 (m_conn example_two_windows))
           example_two_windows)
        [GetWMProtocols 6; DestroyWindow 6; Flush].
Proof.
  intros env.
  assert (Hr : wm_protocols_reply env 6 = Some [301]) by reflexivity.
  assert (Hin : WM_DELETE_WINDOW example_two_windows ∈ [301])
    by (apply (bool_decide_unpack _); vm_compute; exact I).
  split; [exact Hr|]. split; [exact Hin|]. split.
  - destruct (close_window_graceful_or_forced env 6 example_two_windows)
      as (H & _).
    exact (H _ Hr Hin).
  - destruct (close_window_graceful_or_forced (example_env 6 50) 6
                example_two_windows) as (_ & H & _).
    apply H. intros atoms Ha. vm_compute in Ha. discriminate.
Defined.

(** ** Events that only focus or draw *)

Lemma draw_lines_state w ls : ∀ y s, ∃ out, draw_lines w ls y s = Ret tt s out.
Proof.
  induction ls as [|l ls IH]; intros y s; [by eexists|].
  cbn [draw_lines]. unfold drawText, xcb_flush. rewrite bind_assoc.
  do 2 mstep. destruct (IH (y + 20) s) as [out ->]. by eexists.
Qed.

Lemma handleExpose_state ev s : ∃ out, handleExpose ev s = Ret tt s out.
Proof.
  unfold handleExpose, drawText, xcb_flush. mstep.
  destruct (_ && _); [mrun; by eexists|].
  destruct (_ && _); [mrun; by eexists|].
  destruct (_ && _); [|by eexists].
  mstep. destruct (draw_lines_state (ex_window ev) help_lines 20 s) as [out ->].
  by eexists.
Qed.

(** Pointer entry, unmap notifications, exposures, unknown events and
    client messages other than the close protocol leave every field and the
    server model as they are.  On pointer entry the window is focused when
    it is a registered window, and nothing is sent otherwise. *)
Theorem passive_events_keep_state (env : Env) (e : Event) (s : WM) :
  match e with
  | EnterNotify _ | UnmapNotify | Expose _ | OtherEvent => True
  | ClientMessage cm =>
      ¬ (cm_type cm = WM_PROTOCOLS s ∧ cm_data0 cm = WM_DELETE_WINDOW s)
  | _ => False
  end →
  ∃ out,
    dispatch env e s = Ret tt s out
    ∧ (∀ w, e = EnterNotify w →
         out = if decide (w ≠ XCB_NONE ∧ w ∈ m_windowList s)
               then focus_requests w else [])
    ∧ (e = UnmapNotify ∨ e = OtherEvent → out = []).
Proof.
  destruct e as [| | | | | | |cr|ex|cm|w|]; try done; intros H; cbn [dispatch].
  - eexists. split; [reflexivity|]. split; [done|]. done.
  - destruct (handleExpose_state ex s) as [out E]. exists out.
    split; [done|]. split; [done|]. by intros [|].
  - unfold handleClientMessage. mstep. rewrite decide_False by done.
    case_decide.
    + case_decide.
      * rewrite focusWindow_eq. eexists. split; [reflexivity|].
        split; [done|]. by intros [|].
      * eexists. split; [reflexivity|]. split; [done|]. by intros [|].
    + eexists. split; [reflexivity|]. split; [done|]. by intros [|].
  - unfold handleEnterNotify. mstep. cbn [prepend].
    destruct (decide (w ≠ XCB_NONE)) as [Hw|Hw].
    + destruct (decide (w ∈ m_windowList s)) as [Hin|Hin].
      * rewrite focusWindow_eq. eexists. split; [done|]. split.
        -- intros ? [= <-]. by rewrite decide_True.
        -- by intros [|].
      * eexists. split; [reflexivity|]. split.
        -- intros ? [= <-]. rewrite decide_False; [done|]. by intros [].
        -- by intros [|].
    + eexists. split; [reflexivity|]. split.
      * intros ? [= <-]. rewrite decide_False; [done|]. by intros [].
      * by intros [|].
  - eexists. split; [reflexivity|]. split; [done|]. done.
Qed.

Lemma passive_events_keep_state_witness :
  (∃ out,
     dispatch (example_env 0 50) (EnterNotify 6) example_two_windows
     = Ret tt example_two_windows out
     ∧ out = focus_requests 6)
  ∧ (∃ out,
       dispatch (example_env 0 50) (EnterNotify 9) example_two_windows
       = Ret tt example_two_windows out
       ∧ out = []).
Proof.
  split.
  - destruct (passive_events_keep_state (example_env 0 50) (EnterNotify 6)
                example_two_windows I) as (out & E & H & _).
    exists out. split; [exact E|]. rewrite (H 6 eq_refl).
    vm_compute. reflexivity.
  - destruct (passive_events_keep_state (example_env 0 50) (EnterNotify 9)
                example_two_windows I) as (out & E & H & _).
    exists out. split; [exact E|]. rewrite (H 9 eq_refl).
    vm_compute. reflexivity.
Defined.

Lemma strlen_le text : (strlen text ≤ String.length text)%nat.
Proof.
  induction text as [|c text IH]; cbn; [lia|].
  destruct (Ascii.eqb c Ascii.zero); lia.
Qed.

Lemma strlen_no_nul text :
  Forall (λ c, c ≠ Ascii.zero) (list_ascii_of_string text) →
  strlen text = String.length text.
Proof.
  induction text as [|c text IH]; cbn; [done|].
  intros [Hc Ht]%Forall_cons.
  destruct (Ascii.eqb_spec c Ascii.zero); [done|]. by rewrite IH.
Qed.

Lemma substring_0_length n : ∀ text,
  (n ≤ String.length text)%nat → String.length (substring 0 n text) = n.
Proof.
  induction n as [|n IH]; intros [|c text] Hn; cbn in *; try done; try lia.
  rewrite IH; [done|lia].
Qed.

Lemma substring_0_all text : substring 0 (String.length text) text = text.
Proof. induction text as [|c text IH]; cbn; [done|]. by rewrite IH. Qed.

Lemma uint8_of_nat n : Z.to_nat (uint8 (Z.of_nat n)) = (n mod 256)%nat.
Proof.
  unfold uint8. change (2 ^ 8) with (Z.of_nat 256).
  by rewrite <- Nat2Z.inj_mod, Nat2Z.id.
Qed.

(** What [handleExpose] hands to the drawing primitives: for the Runner
    window the background and the Runner buffer at (10, 35) in the large
    font; for the Exit Confirmation window the background and the prompt at
    half the exposed height; for the Help window the black background and
    the eight binding lines at y = 20, 40, ..., 160; for any other window
    nothing.  The Runner is tested first, then Exit Confirmation, then
    Help.  Of a text, the characters before its first NUL are counted and
    the first (count mod 256) of them are drawn: a Runner buffer of 256 or
    more characters is cut, one without NUL and shorter than 256 is drawn
    whole. *)
Theorem expose_draws_dialog_content (ev : xcb_expose_event_t) (s : WM) :
  let w := ex_window ev in
  let runner := m_isRunnerActive s && bool_decide (w = m_runnerWindow s) in
  let confirm :=
    m_isExitConfirmationActive s
    && bool_decide (w = m_exitConfirmationWindow s) in
  let help := m_isHelpActive s && bool_decide (w = m_helpWindow s) in
  (runner = true →
   handleExpose ev s
   = Ret tt s
       [PolyFillRectangle w BACKGROUND_COLOR (ex_width ev) (ex_height ev);
        DrawText w RUNNER_FONT (image_text_8 (m_runnerInput s)) 10 35
          FOREGROUND_COLOR BACKGROUND_COLOR;
        Flush])
  ∧ (runner = false → confirm = true →
     handleExpose ev s
     = Ret tt s
         [PolyFillRectangle w BACKGROUND_COLOR (ex_width ev) (ex_height ev);
          DrawText w DEFAULT_FONT "Exit WM? (Y/N or ESC)" 10
            (int16 (ex_height ev ÷ 2)) FOREGROUND_COLOR BACKGROUND_COLOR;
          Flush])
  ∧ (runner = false → confirm = false → help = true →
     handleExpose ev s
     = Ret tt s
         (PolyFillRectangle w HELP_BG_COLOR (ex_width ev) (ex_height ev)
          :: flat_map
               (λ '(i, line),
                  [DrawText w DEFAULT_FONT line 10 (20 + 20 * Z.of_nat i)
                     FOREGROUND_COLOR HELP_BG_COLOR;
                   Flush])
               (imap pair help_lines)))
  ∧ (runner = false → confirm = false → help = false →
     handleExpose ev s = Ret tt s [])
  ∧ (∀ text,
       image_text_8 text = substring 0 (strlen text mod 256) text
       ∧ String.length (image_text_8 text) = (strlen text mod 256)%nat)
  ∧ (∀ text,
       Forall (λ c, c ≠ Ascii.zero) (list_ascii_of_string text) →
       (String.length text < 256)%nat →
       image_text_8 text = text)
  ∧ (0 ≤ ex_height ev < 2 ^ 16 →
     int16 (ex_height ev ÷ 2) = ex_height ev ÷ 2).
Proof.
  intros w runner confirm help.
  unfold handleExpose, drawText, xcb_flush.
  split; [|split; [|split; [|split; [|split; [|split]]]]].
  - intros H1. mstep. fold w runner. rewrite H1. mrun. reflexivity.
  - intros H1 H2. mstep. fold w runner confirm. rewrite H1, H2. mrun.
    reflexivity.
  - intros H1 H2 H3. mstep. fold w runner confirm help. rewrite H1, H2, H3.
    mstep. cbn [prepend app]. reflexivity.
  - intros H1 H2 H3. mstep. fold w runner confirm help. by rewrite H1, H2, H3.
  - intros text. unfold image_text_8. rewrite uint8_of_nat.
    split; [done|]. apply substring_0_length.
    pose proof (strlen_le text).
    pose proof (Nat.Div0.mod_le (strlen text) 256). lia.
  - intros text Hnul Hlen. unfold image_text_8.
    rewrite uint8_of_nat, (strlen_no_nul _ Hnul), Nat.mod_small by done.
    apply substring_0_all.
  - intros Hh.
    assert (0 ≤ ex_height ev ÷ 2 < 2 ^ 15).
    { rewrite Z.quot_div_nonneg by lia. split.
      - apply Z.div_pos; lia.
      - apply Z.div_lt_upper_bound; lia. }
    unfold int16. rewrite Z.mod_small by lia.
    destruct (Z.ltb_spec (ex_height ev ÷ 2) (2 ^ 15)); lia.
Qed.

Lemma expose_draws_dialog_content_witness :
  m_isRunnerActive example_ls_typed
  && bool_decide (50 = m_runnerWindow example_ls_typed) = true
  ∧ handleExpose (mkExpose 50 300 50) example_ls_typed
    = Ret tt example_ls_typed
        [PolyFillRectangle 50 BACKGROUND_COLOR 300 50;
         DrawText 50 RUNNER_FONT "ls" 10 35 FOREGROUND_COLOR BACKGROUND_COLOR;
         Flush]
  ∧ handleExpose (mkExpose 6 640 480) example_ls_typed
    = Ret tt example_ls_typed []
  ∧ image_text_8 "ls" = "ls"%string.
Proof.
  assert (H1 : m_isRunnerActive example_ls_typed
               && bool_decide (50 = m_runnerWindow example_ls_typed) = true)
    by (vm_compute; reflexivity).
  split; [exact H1|]. split; [|split].
  - destruct (expose_draws_dialog_content (mkExpose 50 300 50) example_ls_typed)
      as (H & _).
    rewrite (H H1). vm_compute. reflexivity.
  - destruct (expose_draws_dialog_content (mkExpose 6 640 480) example_ls_typed)
      as (_ & _ & _ & H & _).
    apply H; vm_compute; reflexivity.
  - destruct (expose_draws_dialog_content (mkExpose 6 640 480) example_ls_typed)
      as (_ & _ & _ & _ & _ & H & _).
    apply H; [|vm_compute; lia].
    repeat constructor; discriminate.
Defined.

(** ** Configure requests *)

Lemma land_pow2_testbit (mask k : Z) :
  0 ≤ k → Z.land mask (2 ^ k) ≠ 0 ↔ Z.testbit mask k = true.
Proof.
  intros Hk. split.
  - intros Hne. destruct (Z.testbit mask k) eqn:E; [done|].
    exfalso. apply Hne. apply Z.bits_inj'. intros n Hn.
    rewrite Z.land_spec, Z.bits_0, Z.pow2_bits_eqb by done.
    destruct (Z.eqb_spec k n) as [<-|]; [by rewrite E|].
    by rewrite andb_false_r.
  - intros E H0.
    assert (Ht : Z.testbit (Z.land mask (2 ^ k)) k = true).
    { rewrite Z.land_spec, E, Z.pow2_bits_eqb, Z.eqb_refl by done. done. }
    by rewrite H0, Z.bits_0 in Ht.
Qed.

Lemma mod16_uint32 z : uint32 z mod 2 ^ 16 = z mod 2 ^ 16.
Proof.
  unfold uint32. apply Z.mod_mod_divide. exists (2 ^ 16). reflexivity.
Qed.

Lemma int16_uint32_any z : int16 (uint32 z) = int16 z.
Proof. unfold int16. by rewrite mod16_uint32. Qed.

Lemma uint16_uint32_any z : uint16 (uint32 z) = uint16 z.
Proof. unfold uint16. by rewrite mod16_uint32. Qed.

Lemma testbit_decide_land (mask k : Z) :
  0 ≤ k →
  Z.testbit mask k = (if decide (Z.land mask (2 ^ k) ≠ 0) then true else false).
Proof.
  intros Hk. case_decide as H.
  - by apply land_pow2_testbit.
  - destruct (Z.testbit mask k) eqn:E; [|done].
    apply (land_pow2_testbit mask k Hk) in E. done.
Qed.

(** A configure request is forwarded with the client's own mask.  For a
    window the server knows, each of x, y, width and height is afterwards
    the requested value (as INT16 or CARD16) when its mask bit is set and
    the old value otherwise, whatever the border, sibling and stacking bits
    are; the cache entry of the window is dropped, so the next
    [getWindowGeometry] answers the new geometry; the registry and the
    index are not touched. *)
Theorem configure_request_honoured (cr : xcb_configure_request_event_t)
    (s : WM) (g : WindowGeometry) :
  x_geometry (m_conn s) !! cr_window cr = Some g →
  let mask := cr_value_mask cr in
  let g' :=
    mkGeometry
      (if Z.testbit mask 0 then int16 (cr_x cr) else g_x g)
      (if Z.testbit mask 1 then int16 (cr_y cr) else g_y g)
      (if Z.testbit mask 2 then uint16 (cr_width cr) else g_width g)
      (if Z.testbit mask 3 then uint16 (cr_height cr) else g_height g) in
  ∃ s' vals,
    handleConfigureRequest cr s
    = Ret tt s' [ConfigureWindow (cr_window cr) mask vals; Flush]
    ∧ (length vals ≤ 7)%nat
    ∧ x_geometry (m_conn s') !! cr_window cr = Some g'
    ∧ m_geometryCache s' !! cr_window cr = None
    ∧ known_geometry (cr_window cr) s' = g'
    ∧ m_windowList s' = m_windowList s
    ∧ m_currentWindowIndex s' = m_currentWindowIndex s.
Proof.
  intros Hg mask g'. unfold handleConfigureRequest. fold mask.
  unfold XCB_CONFIG_WINDOW_X, XCB_CONFIG_WINDOW_Y, XCB_CONFIG_WINDOW_WIDTH,
    XCB_CONFIG_WINDOW_HEIGHT, XCB_CONFIG_WINDOW_BORDER_WIDTH,
    XCB_CONFIG_WINDOW_SIBLING, XCB_CONFIG_WINDOW_STACK_MODE.
  unfold xcb_configure_window, invalidateGeometryCache, xcb_flush, on_server,
    bind, send, modify. cbn [prepend app].
  eexists _, _. split; [reflexivity|].
  unfold known_geometry. cbn [m_conn m_geometryCache m_windowList
    m_currentWindowIndex set_m_conn set_m_geometryCache].
  rewrite lookup_delete_eq. unfold server_configure. rewrite Hg.
  cbn [x_geometry]. rewrite lookup_insert_eq. cbn [default].
  unfold configure_geometry, config_value. subst g'.
  rewrite (testbit_decide_land mask 0), (testbit_decide_land mask 1),
    (testbit_decide_land mask 2), (testbit_decide_land mask 3) by done.
  change (2 ^ 0) with 1. change (2 ^ 1) with 2. change (2 ^ 2) with 4.
  change (2 ^ 3) with 8.
  destruct (decide (Z.land mask 1 ≠ 0)), (decide (Z.land mask 2 ≠ 0)),
    (decide (Z.land mask 4 ≠ 0)), (decide (Z.land mask 8 ≠ 0)),
    (decide (Z.land mask 16 ≠ 0)), (decide (Z.land mask 32 ≠ 0)),
    (decide (Z.land mask 64 ≠ 0));
    cbn [app length from_option];
    rewrite ?int16_uint32_any, ?uint16_uint32_any;
    (split; [lia|]); done.
Qed.

Lemma configure_request_honoured_witness :
  let cr := mkConfigureRequest 6 5 10 20 300 400 0 0 0 in
  x_geometry (m_conn example_two_windows) !! 6
  = Some (mkGeometry 40 60 640 480)
  ∧ ∃ s' vals,
      handleConfigureRequest cr example_two_windows
      = Ret tt s' [ConfigureWindow 6 5 vals; Flush]
      ∧ (length vals ≤ 7)%nat
      ∧ x_geometry (m_conn s') !! 6 = Some (mkGeometry 10 60 300 480)
      ∧ m_geometryCache s' !! 6 = None
      ∧ known_geometry 6 s' = mkGeometry 10 60 300 480
      ∧ m_windowList s' = m_windowList example_two_windows
      ∧ m_currentWindowIndex s' = m_currentWindowIndex example_two_windows.
Proof.
  intros cr.
  assert (H : x_geometry (m_conn example_two_windows) !! cr_window cr
              = Some (mkGeometry 40 60 640 480)) by (vm_compute; reflexivity).
  split; [exact H|].
  exact (configure_request_honoured cr example_two_windows _ H).
Defined.

(** ** Map requests *)

(** An override-redirect window is mapped and nothing else happens: it is
    never registered.  Any other window is mapped, raised and focused, and
    is registered at the end of the registry with the index on it unless it
    is registered already, in which case the registry and the index stay as
    they are (the index does not follow the focus); a registry without
    duplicates stays so.  The client is told the geometry
    [getWindowGeometry] knows for it. *)
Theorem map_request_registers_once (env : Env) (w : xcb_window_t) (s : WM) :
  let override :=
    from_option override_redirect false (window_attributes_reply env w) in
  (override = true →
   handleMapRequest env w s = Ret tt s [GetWindowAttributes w; MapWindow w])
  ∧ (override = false →
     ∃ s',
       handleMapRequest env w s
       = Ret tt s'
           ([GetWindowAttributes w; MapWindow w;
             ConfigureWindow w XCB_CONFIG_WINDOW_STACK_MODE
               [XCB_STACK_MODE_ABOVE]]
            ++ focus_requests w
            ++ [ChangeWindowAttributes w XCB_CW_EVENT_MASK
                  XCB_EVENT_MASK_ENTER_WINDOW]
            ++ geometry_query w s
            ++ [SendEvent w XCB_EVENT_MASK_STRUCTURE_NOTIFY
                  (ConfigureNotifyEvent w (known_geometry w s));
                Flush])
       ∧ m_windowList s'
         = (if decide (w ∈ m_windowList s) then m_windowList s
            else m_windowList s ++ [w])
       ∧ m_currentWindowIndex s'
         = (if decide (w ∈ m_windowList s) then m_currentWindowIndex s
            else length (m_windowList s))
       ∧ (NoDup (m_windowList s) → NoDup (m_windowList s'))
       ∧ m_minimizedWindows s' = m_minimizedWindows s
       ∧ m_conn s' = m_conn s).
Proof.
  intros override. unfold handleMapRequest, xcb_get_window_attributes.
  split; intros Ho; unfold override in Ho.
  - do 3 mstep. rewrite Ho. reflexivity.
  - do 3 mstep. rewrite Ho. unfold xcb_map_window, xcb_configure_window,
      on_server, xcb_send_event, xcb_flush.
    mrun. rewrite server_configure_stack, set_m_conn_same.
    erewrite bind_eq by apply focusWindow_eq. mstep.
    destruct (decide (w ∈ m_windowList s)) as [Hin|Hin].
    + mrun. unfold send. cbn [prepend]. eexists. split.
      { apply (f_equal2 (Ret tt)); [reflexivity|].
        repeat first [rewrite <- app_assoc | progress cbn [app]]. reflexivity. }
      unfold geometry_cached.
      destruct (m_geometryCache s !! w), (x_geometry (m_conn s) !! w); done.
    + mrun. unfold send. cbn [prepend]. eexists. split.
      { apply (f_equal2 (Ret tt)); [reflexivity|].
        repeat first [rewrite <- app_assoc | progress cbn [app]]. reflexivity. }
      unfold geometry_cached. cbn [m_geometryCache set_m_windowList
        set_m_currentWindowIndex m_conn m_windowList].
      rewrite length_app. cbn [length].
      replace (length (m_windowList s) + 1 - 1)%nat
        with (length (m_windowList s)) by lia.
      destruct (m_geometryCache s !! w), (x_geometry (m_conn s) !! w);
        cbn; (repeat split; try done); intros Hnd;
        (apply NoDup_app; split; [done|split; [|apply NoDup_singleton]]);
        intros x Hx; rewrite elem_of_cons, elem_of_nil; intros [->|[]]; done.
Qed.

Lemma map_request_registers_once_witness :
  from_option override_redirect false
    (window_attributes_reply (example_env 0 50) 6) = false
  ∧ ∃ s',
      handleMapRequest (example_env 0 50) 6 example_two_windows
      = Ret tt s'
          ([GetWindowAttributes 6; MapWindow 6;
            ConfigureWindow 6 XCB_CONFIG_WINDOW_STACK_MODE
              [XCB_STACK_MODE_ABOVE]]
           ++ focus_requests 6
           ++ [ChangeWindowAttributes 6 XCB_CW_EVENT_MASK
                 XCB_EVENT_MASK_ENTER_WINDOW;
               SendEvent 6 XCB_EVENT_MASK_STRUCTURE_NOTIFY
                 (ConfigureNotifyEvent 6 (mkGeometry 40 60 640 480));
               Flush])
      ∧ m_windowList s' = [5; 6]
      ∧ m_currentWindowIndex s' = 1%nat.
Proof.
  split; [reflexivity|].
  destruct (map_request_registers_once (example_env 0 50) 6 example_two_windows)
    as [_ H].
  destruct (H eq_refl) as (s' & E & Hl & Hi & _). exists s'.
  split; [|split].
  - rewrite E. vm_compute. reflexivity.
  - rewrite Hl. vm_compute. reflexivity.
  - rewrite Hi. vm_compute. reflexivity.
Defined.

(** ** Leaving the event loop *)

Lemma never_exits_ret {A} (a : A) : never_exits (ret a).
Proof. by intros s. Qed.

Lemma never_exits_get : never_exits get.
Proof. by intros s. Qed.

Lemma never_exits_send r : never_exits (send r).
Proof. by intros s. Qed.

Lemma never_exits_modify f : never_exits (modify f).
Proof. by intros s. Qed.

Lemma never_exits_bind {A B} (m : M A) (k : A → M B) :
  never_exits m → (∀ a, never_exits (k a)) → never_exits (bind m k).
Proof.
  intros Hm Hk s. unfold bind. specialize (Hm s).
  destruct (m s) as [a s1 o1|]; [|done].
  specialize (Hk a s1). by destruct (k a s1).
Qed.

(** One step through the syntax of a member function that does not call
    [exit]; [loops] closes the loops. *)
Ltac live_step loops :=
  first
  [ loops
  | lazymatch goal with
    | |- never_exits (ret _) => apply never_exits_ret
    | |- never_exits get => apply never_exits_get
    | |- never_exits (send _) => apply never_exits_send
    | |- never_exits (modify _) => apply never_exits_modify
    | |- never_exits (exit _) => fail
    | |- never_exits (bind _ _) => apply never_exits_bind; [|intros ?]
    | |- never_exits (if ?c then _ else _) => destruct c
    | |- never_exits (match ?x with _ => _ end) => destruct x
    | |- never_exits ?m => let h := head_of m in unfold h
    end ].

Lemma focusNextWindow_loop_live env sz n :
  never_exits (focusNextWindow_loop env sz n).
Proof. induction n; simpl; repeat live_step assumption. Qed.

Lemma restore_loop_live ws : never_exits (restore_loop ws).
Proof. induction ws; simpl; repeat live_step assumption. Qed.

Lemma draw_lines_live w ls : ∀ y, never_exits (draw_lines w ls y).
Proof. induction ls; intros y; simpl; repeat live_step ltac:(apply IHls). Qed.

Ltac live_loops :=
  idtac;
  lazymatch goal with
  | |- never_exits (focusNextWindow_loop _ _ _) =>
      apply focusNextWindow_loop_live
  | |- never_exits (restore_loop _) => apply restore_loop_live
  | |- never_exits (draw_lines _ _ _) => apply draw_lines_live
  end.

Ltac live := repeat live_step live_loops.

(** The only way out of the event loop is the answer yes to the Exit
    Confirmation dialog: a key press whose keysym is [y] or [Y] while the
    dialog is active ends the process with status 0 and sends nothing; every
    other event, in every state, returns to the loop. *)
Theorem exit_only_on_confirmed_yes (env : Env) (e : Event) (s : WM) :
  let confirmed :=
    match e with
    | KeyPress ev =>
        m_isExitConfirmationActive s
        && bool_decide
             (getKeysym env (kp_detail ev) (kp_state ev) ∈ [XK_y; XK_Y])
    | _ => false
    end in
  if confirmed then dispatch env e s = Exit 0 []
  else is_ret (dispatch env e s) = true.
Proof.
  destruct e as [ev| | | | | | | | | | |]; cbv zeta iota;
    try (unfold dispatch;
         lazymatch goal with |- is_ret (?m s) = true =>
           revert s; change (never_exits m); live end).
  cbn [dispatch]. unfold handleKeyPress.
  set (ks := getKeysym env (kp_detail ev) (kp_state ev)).
  rewrite bind_eq with (a := s) (s1 := s) (o1 := []) by reflexivity.
  rewrite prepend_nil.
  destruct (m_isExitConfirmationActive s); cbn [andb]; cbv iota.
  - rewrite handleExitConfirmationKeypress_cases.
    case_bool_decide as Hy; cbv iota.
    + rewrite decide_True; [by destruct (Exit 0 [])|].
      rewrite !elem_of_cons, elem_of_nil in Hy. tauto.
    + rewrite decide_False.
      2:{ intros H. apply Hy. rewrite !elem_of_cons. tauto. }
      case_decide; [|done].
      revert s. change (never_exits destroyExitConfirmationDialog). live.
  - destruct (m_isRunnerActive s).
    { revert s. change (never_exits (handleRunnerInput env ks)). live. }
    destruct (m_isHelpActive s).
    { case_decide; [|done].
      revert s. change (never_exits destroyHelpDialog). live. }
    lazymatch goal with |- is_ret (?m s) = true =>
      revert s; change (never_exits m); live end.
Qed.

(** ** Opening and closing a dialog *)

Lemma erase_first_snoc w l : w ∉ l → erase_first w (l ++ [w]) = l.
Proof.
  induction l as [|v l IH]; intros H; simpl.
  - by rewrite decide_True.
  - rewrite not_elem_of_cons in H. destruct H as [Hw Hl].
    rewrite decide_False by congruence. by rewrite IH.
Qed.

Lemma createPopUpWindow_eq env title d width height s :
  activeFlag d s = false →
  let win := generate_id env in
  let x := (m_screenWidth s - width) ÷ 2 in
  let y := (m_screenHeight s - height) ÷ 2 in
  let g := mkGeometry (int16 x) (int16 y) (uint16 width) (uint16 height) in
  createPopUpWindow env title d width height s
  = Ret tt
      (set_m_currentWindowIndex (length (m_windowList s))
         (set_m_windowList (m_windowList s ++ [win])
            (set_m_conn (server_create win g (m_conn s))
               (set_winVar d win (set_activeFlag d true s)))))
      ([CreateWindow win x y width height; ChangeWMName win title;
        MapWindow win] ++ focus_requests win ++ [Flush]).
Proof.
  intros Hd win x y g. unfold createPopUpWindow. mstep. rewrite Hd.
  unfold xcb_create_window, xcb_map_window, xcb_flush, on_server.
  mrun. erewrite bind_eq by apply focusWindow_eq.
  unfold send. cbn [prepend].
  apply (f_equal2 (Ret tt)).
  - destruct d; cbn; rewrite length_app; cbn [length];
      (replace (length (m_windowList s) + 1 - 1)%nat
         with (length (m_windowList s)) by lia); reflexivity.
  - repeat first [rewrite <- app_assoc | progress cbn [app]]. reflexivity.
Qed.

(** Opening a dialog and closing it again, with a fresh window identifier:
    the registry is what it was, every dialog flag is what it was and the
    dialog's window variable is [XCB_NONE]; the minimized windows, the
    geometry cache and the saved geometries are untouched and the server no
    longer knows the dialog window.  The index is not restored: it is 0
    afterwards, while the focus goes to the last registered window (to the
    root when there is none). *)
Theorem dialog_open_close_round_trip (env : Env) (title : string)
    (d : Dialog) (width height : Z) (s : WM) :
  activeFlag d s = false →
  generate_id env ≠ XCB_NONE →
  generate_id env ∉ m_windowList s →
  ∃ s' out,
    (createPopUpWindow env title d width height ;; destroyPopUpWindow d) s
    = Ret tt s' (out ++ reset_requests s)
    ∧ m_windowList s' = m_windowList s
    ∧ m_currentWindowIndex s' = 0%nat
    ∧ (∀ d', activeFlag d' s' = activeFlag d' s)
    ∧ winVar d s' = XCB_NONE
    ∧ m_minimizedWindows s' = m_minimizedWindows s
    ∧ m_geometryCache s' = m_geometryCache s
    ∧ m_originalGeometry s' = m_originalGeometry s
    ∧ x_geometry (m_conn s') = delete (generate_id env) (x_geometry (m_conn s)).
Proof.
  intros Hd Hw Hfresh.
  erewrite bind_eq by (by apply createPopUpWindow_eq).
  set (win := generate_id env) in *.
  rewrite destroyPopUpWindow_eq.
  2:{ destruct d; reflexivity. }
  2:{ destruct d; exact Hw. }
  replace (winVar d _) with win by (destruct d; reflexivity).
  cbn [prepend]. eexists _, _. split.
  { apply (f_equal2 (Ret tt)); [reflexivity|].
    rewrite app_assoc. f_equal.
    unfold reset_requests, unregistered.
    cbn [m_windowList set_m_conn set_m_currentWindowIndex set_m_windowList].
    rewrite decide_True by (rewrite elem_of_app, elem_of_cons; right; by left).
    rewrite erase_first_snoc by done.
    cbn [m_currentWindowIndex set_m_conn set_m_currentWindowIndex
      set_m_windowList].
    rewrite decide_True by lia. destruct d; reflexivity. }
  unfold unregistered.
  cbn [m_windowList set_m_conn set_m_currentWindowIndex set_m_windowList].
  rewrite decide_True by (rewrite elem_of_app, elem_of_cons; right; by left).
  rewrite erase_first_snoc by done.
  cbn [m_currentWindowIndex set_m_conn set_m_currentWindowIndex
    set_m_windowList].
  rewrite decide_True by lia.
  repeat split; try (destruct d; reflexivity).
  - intros d'. destruct d, d'; cbn; cbn in Hd; congruence.
  - destruct d; cbn; by rewrite delete_insert_eq.
Qed.

Lemma dialog_open_close_round_trip_witness :
  activeFlag Help example_two_windows = false
  ∧ generate_id (example_env 6 50) ≠ XCB_NONE
  ∧ (generate_id (example_env 6 50) ∉ m_windowList example_two_windows)
  ∧ ∃ s' out,
      (createPopUpWindow (example_env 6 50) "Key Bindings" Help 400 240 ;;
       destroyPopUpWindow Help) example_two_windows
      = Ret tt s' (out ++ focus_requests 6)
      ∧ m_windowList s' = [5; 6]
      ∧ m_currentWindowIndex example_two_windows = 1%nat
      ∧ m_currentWindowIndex s' = 0%nat.
Proof.
  assert (H1 : activeFlag Help example_two_windows = false)
    by (vm_compute; reflexivity).
  assert (H2 : generate_id (example_env 6 50) ≠ XCB_NONE)
    by (vm_compute; discriminate).
  assert (H3 : generate_id (example_env 6 50)
               ∉ m_windowList example_two_windows)
    by (apply (bool_decide_unpack _); vm_compute; exact I).
  split; [exact H1|]. split; [exact H2|]. split; [exact H3|].
  destruct (dialog_open_close_round_trip (example_env 6 50) "Key Bindings"
              Help 400 240 example_two_windows H1 H2 H3)
    as (s' & out & E & Hl & Hi & _).
  exists s', out. split; [exact E|]. split; [rewrite Hl; vm_compute; reflexivity|].
  split; [vm_compute; reflexivity | exact Hi].
Defined.

(** ** The registry holds no window twice *)

#[local] Instance registry_shrinks_preorder : PreOrder registry_shrinks.
Proof.
  split; [intros s; by unfold registry_shrinks|].
  intros s1 s2 s3 H1 H2. unfold registry_shrinks in *. by etrans.
Qed.

Lemma sublist_erase_first w l : erase_first w l `sublist_of` l.
Proof.
  induction l as [|v l IH]; simpl; [done|].
  case_decide; [by apply sublist_cons | by apply sublist_skip].
Qed.

Ltac shrink_base :=
  unfold registry_shrinks;
  repeat match goal with d : Dialog |- _ => destruct d end;
  repeat case_decide; cbn;
  first [reflexivity | apply sublist_erase_first].

Lemma focusNextWindow_loop_shrinks env sz n :
  respects registry_shrinks (focusNextWindow_loop env sz n).
Proof. induction n; simpl; repeat frame_step shrink_base assumption. Qed.

Lemma draw_lines_shrinks w ls :
  ∀ y, respects registry_shrinks (draw_lines w ls y).
Proof.
  induction ls; intros y; simpl;
    repeat frame_step shrink_base ltac:(apply IHls).
Qed.

Ltac shrink_loops :=
  idtac;
  lazymatch goal with
  | |- respects _ (focusNextWindow_loop _ _ _) =>
      apply focusNextWindow_loop_shrinks
  | |- respects _ (restore_loop _) => fail
  | |- respects _ (draw_lines _ _ _) => apply draw_lines_shrinks
  end.

Ltac shrink_frame := repeat frame_step shrink_base shrink_loops.

Lemma NoDup_registry_shrinks s s' :
  NoDup (m_windowList s) → registry_shrinks s s' → NoDup (m_windowList s').
Proof. intros Hs Hl. by eapply sublist_NoDup. Qed.

Lemma NoDup_snoc (l : list xcb_window_t) w : NoDup l → w ∉ l → NoDup (l ++ [w]).
Proof.
  intros Hl Hw. apply NoDup_app. split; [done|].
  split; [|apply NoDup_singleton].
  intros v Hv. rewrite list_elem_of_singleton. by intros ->.
Qed.

Lemma createPopUpWindow_NoDup env title d width height s :
  NoDup (m_windowList s) → generate_id env ∉ m_windowList s →
  ensures (λ s', NoDup (m_windowList s'))
    (createPopUpWindow env title d width height s).
Proof.
  intros Hs Hf. destruct (activeFlag d s) eqn:Hd.
  - unfold createPopUpWindow, bind, get. by rewrite Hd.
  - rewrite createPopUpWindow_eq by done. cbn. by apply NoDup_snoc.
Qed.

Lemma handleMapRequest_NoDup env w s :
  NoDup (m_windowList s) →
  ensures (λ s', NoDup (m_windowList s')) (handleMapRequest env w s).
Proof.
  intros Hs. unfold handleMapRequest, xcb_get_window_attributes.
  do 3 mstep. destruct (from_option _ _ _); [done|].
  unfold xcb_map_window, xcb_configure_window, on_server, xcb_send_event,
    xcb_flush.
  mrun. rewrite server_configure_stack, set_m_conn_same.
  erewrite bind_eq by apply focusWindow_eq. mstep.
  destruct (decide (w ∈ m_windowList s)) as [Hin|Hin]; mrun; unfold send;
    cbn [prepend ensures]; unfold geometry_cached;
    cbn [m_geometryCache set_m_windowList set_m_currentWindowIndex m_conn
      m_windowList];
    destruct (m_geometryCache s !! w), (x_geometry (m_conn s) !! w); cbn;
    try done; by apply NoDup_snoc.
Qed.

(** No event makes the registry hold a window twice, provided the
    identifier the server hands out for a new dialog window is not a
    registered window: a registry without duplicates stays so through every
    handler. *)
Theorem dispatch_keeps_registry_duplicate_free (env : Env) (e : Event)
    (s : WM) :
  NoDup (m_windowList s) →
  generate_id env ∉ m_windowList s →
  ensures (λ s', NoDup (m_windowList s')) (dispatch env e s).
Proof.
  intros Hs Hf.
  destruct e as [ev| | | |w| | | | | | |]; unfold dispatch;
    [ | | | |by apply handleMapRequest_NoDup| | | | | | |];
    [ |by_frame registry_shrinks shrink_frame;
       intros s' H'; by eapply NoDup_registry_shrinks ..].
  unfold handleKeyPress.
  apply ensures_bind. intros ? ? ? [= <- <- <-].
  destruct (m_isExitConfirmationActive s) eqn:E1;
    [by_frame registry_shrinks shrink_frame;
     intros s' H'; by eapply NoDup_registry_shrinks|].
  destruct (m_isRunnerActive s) eqn:E2;
    [by_frame registry_shrinks shrink_frame;
     intros s' H'; by eapply NoDup_registry_shrinks|].
  destruct (m_isHelpActive s) eqn:E3;
    [by_frame registry_shrinks shrink_frame;
     intros s' H'; by eapply NoDup_registry_shrinks|].
  apply ensures_bind. intros foc ? ? [= <- <- <-].
  destruct (negb (altPressed (kp_state ev))); [simpl; done|].
  repeat case_decide;
    lazymatch goal with
    | |- ensures _ (createExitConfirmationDialog _ _) =>
        exact (createPopUpWindow_NoDup env "Confirm Exit" ExitConfirmation
                 300 100 s Hs Hf)
    | |- ensures _ (createRunnerDialog _ _) =>
        unfold createRunnerDialog; apply ensures_bind;
        intros [] s1 o1 E;
        pose proof (createPopUpWindow_NoDup env "Run Program" Runner
                      RUNNER_WIDTH RUNNER_HEIGHT s Hs Hf) as H';
        rewrite E in H'; exact H'
    | |- ensures _ (createHelpDialog _ _) =>
        exact (createPopUpWindow_NoDup env "Key Bindings" Help 400 240
                 s Hs Hf)
    | |- ensures _ (restoreMinimized _) =>
        rewrite restoreMinimized_eq; cbn; by apply NoDup_restored
    | |- _ =>
        by_frame registry_shrinks shrink_frame;
        intros s' H'; by eapply NoDup_registry_shrinks
    end.
Qed.

Lemma dispatch_keeps_registry_duplicate_free_witness :
  NoDup (m_windowList example_two_windows)
  ∧ (generate_id (example_env 6 50) ∉ m_windowList example_two_windows)
  ∧ ensures (λ s', NoDup (m_windowList s'))
      (dispatch (example_env 6 50) (alt_key XK_r) example_two_windows).
Proof.
  assert (H1 : NoDup (m_windowList example_two_windows))
    by (apply (bool_decide_unpack _); vm_compute; exact I).
  assert (H2 : generate_id (example_env 6 50)
               ∉ m_windowList example_two_windows)
    by (apply (bool_decide_unpack _); vm_compute; exact I).
  split; [exact H1|]. split; [exact H2|].
  exact (dispatch_keeps_registry_duplicate_free _ _ _ H1 H2).
Defined.

(** ** A whole drag *)

Lemma run_app es1 : ∀ es2 s s1 o1,
  run es1 s = Ret tt s1 o1 → run (es1 ++ es2) s = prepend o1 (run es2 s1).
Proof.
  induction es1 as [|[env e] es1 IH]; intros es2 s s1 o1 E.
  - cbn in E. injection E as <- <-. by rewrite prepend_nil.
  - cbn [run app] in *. unfold bind in E |- *.
    destruct (dispatch env e s) as [[] s2 o2|]; [|done].
    destruct (run es1 s2) as [[] s3 o3|] eqn:E3; [|done].
    injection E as <- <-. rewrite (IH es2 s2 s3 o3 E3).
    destruct (run es2 s3); cbn; by rewrite app_assoc.
Qed.

Lemma configure_geometry_xy a b g :
  configure_geometry (Z.lor XCB_CONFIG_WINDOW_X XCB_CONFIG_WINDOW_Y) [a; b] g
  = mkGeometry (int16 a) (int16 b) (g_width g) (g_height g).
Proof. reflexivity. Qed.

Lemma motions_move env w sx sy ox oy wd ht : ∀ ms s,
  moveStart s = mkMoveStart w sx sy ox oy → w ≠ XCB_NONE →
  (∃ gx gy, x_geometry (m_conn s) !! w = Some (mkGeometry gx gy wd ht)) →
  (∀ c, m_geometryCache s !! w = Some c → g_width c = wd ∧ g_height c = ht) →
  ∃ s' out,
    run ((λ m, (env, MotionNotify m)) <$> ms) s = Ret tt s' out
    ∧ moveStart s' = moveStart s
    ∧ m_windowList s' = m_windowList s
    ∧ m_currentWindowIndex s' = m_currentWindowIndex s
    ∧ match last ms with
      | None => s' = s
      | Some m =>
          x_geometry (m_conn s') !! w
          = Some (mkGeometry
                    (int16 (edge_snap (ox + (mn_root_x m - sx)) wd
                              (m_screenWidth s)))
                    (int16 (edge_snap (oy + (mn_root_y m - sy)) ht
                              (m_screenHeight s)))
                    wd ht)
          ∧ m_geometryCache s' !! w = None
      end.
Proof.
  induction ms as [|m ms IH]; intros s Hm Hw (gx & gy & Hg) Hc.
  - by exists s, [].
  - cbn [fmap list_fmap run].
    assert (Hmw : mv_window (moveStart s) ≠ XCB_NONE) by (by rewrite Hm).
    erewrite bind_eq by (apply (handleMotionNotify_move m s Hmw)).
    rewrite Hm. cbn [mv_window mv_start_x mv_start_y mv_orig_x mv_orig_y].
    assert (Hk : g_width (known_geometry w s) = wd
                 ∧ g_height (known_geometry w s) = ht).
    { unfold known_geometry. destruct (m_geometryCache s !! w) as [c|] eqn:Ec.
      - by apply Hc.
      - by rewrite Hg. }
    destruct Hk as [-> ->].
    set (s1 := set_m_geometryCache _ _).
    assert (Hg1 : x_geometry (m_conn s1) !! w
      = Some (mkGeometry
                (int16 (edge_snap (ox + (mn_root_x m - sx)) wd
                          (m_screenWidth s)))
                (int16 (edge_snap (oy + (mn_root_y m - sy)) ht
                          (m_screenHeight s)))
                wd ht)).
    { subst s1. cbn [m_conn set_m_geometryCache set_m_conn].
      rewrite (server_configure_lookup _ _ _ _ _ Hg), configure_geometry_xy.
      by rewrite !int16_uint32_any. }
    assert (Hc1 : m_geometryCache s1 !! w = None).
    { subst s1. cbn [m_geometryCache set_m_geometryCache].
      apply lookup_delete_eq. }
    destruct (IH s1) as (s' & out & E & H1 & H2 & H3 & H4).
    { subst s1. exact Hm. }
    { done. }
    { eauto. }
    { intros c Hc'. by rewrite Hc1 in Hc'. }
    rewrite E. cbn [prepend]. exists s'. eexists. split; [reflexivity|].
    split; [by rewrite H1|]. split; [by rewrite H2|]. split; [by rewrite H3|].
    destruct ms as [|m' ms'] eqn:Ems.
    + cbn [last] in H4 |- *. subst s'. done.
    + change (last (m :: m' :: ms')) with (last (m' :: ms')).
      destruct (last (m' :: ms')) as [ml|] eqn:El; [exact H4|].
      by apply last_None in El.
Qed.

Lemma geometry_cached_fields w s :
  m_conn (geometry_cached w s) = m_conn s
  ∧ m_screenWidth (geometry_cached w s) = m_screenWidth s
  ∧ m_screenHeight (geometry_cached w s) = m_screenHeight s
  ∧ m_windowList (geometry_cached w s) = m_windowList s
  ∧ m_currentWindowIndex (geometry_cached w s) = m_currentWindowIndex s
  ∧ moveStart (geometry_cached w s) = moveStart s
  ∧ resizeStart (geometry_cached w s) = resizeStart s.
Proof.
  unfold geometry_cached.
  destruct (m_geometryCache s !! w), (x_geometry (m_conn s) !! w); done.
Qed.

Lemma geometry_cached_lookup w s g :
  x_geometry (m_conn s) !! w = Some g → known_geometry w s = g →
  m_geometryCache (geometry_cached w s) !! w = Some g.
Proof.
  unfold geometry_cached, known_geometry. intros Hg.
  destruct (m_geometryCache s !! w) as [c|] eqn:Ec.
  - by intros ->.
  - rewrite Hg. intros _. cbn. apply lookup_insert_eq.
Qed.

Lemma last_snoc_Some {A} (l : list A) (x : A) : last (l ++ [x]) = Some x.
Proof.
  induction l as [|a l IH]; [done|].
  destruct l; [done|]. exact IH.
Qed.

Lemma int16_small z : - 2 ^ 15 ≤ z < 2 ^ 15 → int16 z = z.
Proof. intros Hz. rewrite <- int16_uint32_any. by apply int16_uint32. Qed.

(** A whole drag with Alt and button 1 over a client window, while no
    dialog is active: after the press, any number of pointer motions and
    the release, the server has the window at the snapped position of the
    last pointer position, measured from where the window and the pointer
    were at the press; the positions in between leave no trace.  The size
    is unchanged, both gesture slots are empty, the cache has no entry for
    the window, and the registry and the index are as before. *)
Theorem drag_moves_window (env : Env) (press : xcb_button_press_event_t)
    (motions : list xcb_motion_notify_event_t)
    (final : xcb_motion_notify_event_t) (s : WM) (g : WindowGeometry) :
  let w := bp_child press in
  let nx :=
    edge_snap (g_x g + (mn_root_x final - bp_root_x press)) (g_width g)
      (m_screenWidth s) in
  let ny :=
    edge_snap (g_y g + (mn_root_y final - bp_root_y press)) (g_height g)
      (m_screenHeight s) in
  (∀ d, activeFlag d s = false) →
  altPressed (bp_state press) = true →
  bp_detail press = 1 →
  w ≠ XCB_NONE →
  x_geometry (m_conn s) !! w = Some g →
  known_geometry w s = g →
  - 2 ^ 15 ≤ nx < 2 ^ 15 →
  - 2 ^ 15 ≤ ny < 2 ^ 15 →
  ∃ s' out,
    run (drag env press (motions ++ [final])) s = Ret tt s' out
    ∧ x_geometry (m_conn s') !! w
      = Some (mkGeometry nx ny (g_width g) (g_height g))
    ∧ moveStart s' = no_move
    ∧ resizeStart s' = no_resize
    ∧ m_geometryCache s' !! w = None
    ∧ m_windowList s' = m_windowList s
    ∧ m_currentWindowIndex s' = m_currentWindowIndex s.
Proof.
  intros w nx ny Hno Halt Hb Hw Hg Hk Hx Hy.
  unfold drag. cbn [run dispatch].
  assert (Hp : handleButtonPress press s
    = Ret tt
        (set_moveStart
           (mkMoveStart w (bp_root_x press) (bp_root_y press) (g_x g) (g_y g))
           (geometry_cached w s))
        (geometry_query w s)).
  { unfold handleButtonPress. mstep.
    pose proof (Hno Runner) as E2. pose proof (Hno ExitConfirmation) as E1.
    pose proof (Hno Help) as E3. cbn in E1, E2, E3.
    rewrite E1, E2, E3, Halt. cbn [andb orb negb].
    rewrite decide_False by (intros H; by apply Hw).
    fold w. mstep. rewrite Hk, decide_True by done.
    unfold modify. cbn [prepend]. by rewrite app_nil_r. }
  erewrite bind_eq by exact Hp.
  destruct (geometry_cached_fields w s) as (F1 & F2 & F3 & F4 & F5 & _).
  pose proof (geometry_cached_lookup w s g Hg Hk) as Hc.
  set (s0 := geometry_cached w s) in *.
  set (s1 := set_moveStart _ s0).
  destruct (motions_move env w (bp_root_x press) (bp_root_y press)
              (g_x g) (g_y g) (g_width g) (g_height g)
              (motions ++ [final]) s1)
    as (s2 & o2 & E & H1 & H2 & H3 & H4).
  { reflexivity. }
  { done. }
  { exists (g_x g), (g_y g). subst s1. cbn [m_conn set_moveStart].
    rewrite F1, Hg. by destruct g. }
  { intros c. subst s1. cbn [m_geometryCache set_moveStart].
    rewrite Hc. by intros [= <-]. }
  rewrite (run_app _ _ _ _ _ E). rewrite last_snoc_Some in H4.
  destruct H4 as [Hg2 Hc2].
  cbn [run dispatch]. unfold handleButtonRelease, bind, modify, ret.
  cbn [prepend]. eexists _, _. split; [reflexivity|].
  cbn [m_conn set_resizeStart set_moveStart moveStart resizeStart
    m_geometryCache m_windowList m_currentWindowIndex].
  split; [|split; [done|split; [done|split; [done|split]]]].
  - rewrite Hg2. subst s1. cbn [m_screenWidth m_screenHeight set_moveStart].
    rewrite F2, F3. fold nx ny. by rewrite !int16_small.
  - rewrite H2. subst s1. cbn [m_windowList set_moveStart]. exact F4.
  - rewrite H3. subst s1. cbn [m_currentWindowIndex set_moveStart]. exact F5.
Qed.

Lemma drag_moves_window_witness :
  let press := mkButtonPress 1 1 6 100 100 XCB_MOD_MASK_1 in
  let motions := [mkMotionNotify 500 500; mkMotionNotify 90 95] in
  let final := mkMotionNotify 1335 100 in
  x_geometry (m_conn example_two_windows) !! 6
  = Some (mkGeometry 40 60 640 480)
  ∧ ∃ s' out,
      run (drag (example_env 6 50) press (motions ++ [final]))
        example_two_windows
      = Ret tt s' out
      ∧ x_geometry (m_conn s') !! 6 = Some (mkGeometry 1280 60 640 480)
      ∧ moveStart s' = no_move
      ∧ resizeStart s' = no_resize
      ∧ m_geometryCache s' !! 6 = None
      ∧ m_windowList s' = m_windowList example_two_windows
      ∧ m_currentWindowIndex s' = m_currentWindowIndex example_two_windows.
Proof.
  intros press motions final.
  assert (Hg : x_geometry (m_conn example_two_windows) !! bp_child press
               = Some (mkGeometry 40 60 640 480)) by (vm_compute; reflexivity).
  split; [exact Hg|].
  apply (drag_moves_window (example_env 6 50) press motions final
           example_two_windows (mkGeometry 40 60 640 480)).
  - intros []; vm_compute; reflexivity.
  - vm_compute. reflexivity.
  - reflexivity.
  - vm_compute. discriminate.
  - exact Hg.
  - vm_compute. reflexivity.
  - vm_compute. split; [discriminate | reflexivity].
  - vm_compute. split; [discriminate | reflexivity].
Defined.

(** ** A closed dialog has no window *)

#[local] Instance dialog_fields_kept_preorder : PreOrder dialog_fields_kept.
Proof.
  split; [by intros s d|].
  intros s1 s2 s3 H1 H2 d. destruct (H1 d) as [<- <-]. apply H2.
Qed.

Ltac kept_base :=
  intros d'; repeat match goal with d : Dialog |- _ => destruct d end;
  repeat case_decide; cbn; done.

Lemma focusNextWindow_loop_kept env sz n :
  respects dialog_fields_kept (focusNextWindow_loop env sz n).
Proof. induction n; simpl; repeat frame_step kept_base assumption. Qed.

Lemma restore_loop_kept ws : respects dialog_fields_kept (restore_loop ws).
Proof. induction ws; simpl; repeat frame_step kept_base assumption. Qed.

Lemma draw_lines_kept w ls :
  ∀ y, respects dialog_fields_kept (draw_lines w ls y).
Proof.
  induction ls; intros y; simpl;
    repeat frame_step kept_base ltac:(apply IHls).
Qed.

Ltac kept_loops :=
  idtac;
  lazymatch goal with
  | |- respects _ (focusNextWindow_loop _ _ _) =>
      apply focusNextWindow_loop_kept
  | |- respects _ (restore_loop _) => apply restore_loop_kept
  | |- respects _ (draw_lines _ _ _) => apply draw_lines_kept
  end.

Ltac kept_frame := repeat frame_step kept_base kept_loops.

Lemma closed_kept s s' :
  closed_dialogs_have_no_window s → dialog_fields_kept s s' →
  closed_dialogs_have_no_window s'.
Proof.
  intros Hs Hk d. destruct (Hk d) as [-> ->]. apply Hs.
Qed.

Ltac by_kept :=
  by_frame dialog_fields_kept kept_frame;
  intros ? ?; by eapply closed_kept.

Lemma createPopUpWindow_closed env title d width height s :
  closed_dialogs_have_no_window s →
  ensures closed_dialogs_have_no_window
    (createPopUpWindow env title d width height s).
Proof.
  intros Hs. destruct (activeFlag d s) eqn:Hd.
  - unfold createPopUpWindow, bind, get. by rewrite Hd.
  - rewrite createPopUpWindow_eq by done. cbn [ensures].
    intros d'. specialize (Hs d'). destruct d, d'; cbn in *; done.
Qed.

Lemma destroyPopUpWindow_closed d s :
  closed_dialogs_have_no_window s →
  ensures closed_dialogs_have_no_window (destroyPopUpWindow d s).
Proof.
  intros Hs. destruct (activeFlag d s) eqn:Hd.
  2:{ unfold destroyPopUpWindow, bind, get. by rewrite Hd. }
  destruct (decide (winVar d s = XCB_NONE)) as [Hw|Hw].
  { unfold destroyPopUpWindow, bind, get.
    by rewrite Hd, bool_decide_eq_true_2. }
  rewrite destroyPopUpWindow_eq by done. cbn [ensures].
  intros d'. specialize (Hs d'). unfold unregistered.
  repeat case_decide; destruct d, d'; cbn in *; done.
Qed.

Lemma destroyRunnerDialog_closed s :
  closed_dialogs_have_no_window s →
  ensures closed_dialogs_have_no_window (destroyRunnerDialog s).
Proof.
  intros Hs. unfold destroyRunnerDialog. apply ensures_bind.
  intros [] s1 o1 E. pose proof (destroyPopUpWindow_closed Runner s Hs) as H.
  rewrite E in H. cbn in H. cbn. intros d. specialize (H d).
  by destruct d.
Qed.

Lemma handleKeyPress_closed env ev s :
  closed_dialogs_have_no_window s →
  ensures closed_dialogs_have_no_window (handleKeyPress env ev s).
Proof.
  intros Hs. unfold handleKeyPress.
  apply ensures_bind. intros ? ? ? [= <- <- <-].
  destruct (m_isExitConfirmationActive s).
  { unfold handleExitConfirmationKeypress.
    repeat case_decide; [done| |done].
    by apply destroyPopUpWindow_closed. }
  destruct (m_isRunnerActive s).
  { unfold handleRunnerInput.
    case_decide; [by apply destroyRunnerDialog_closed|].
    case_decide.
    { apply ensures_bind. intros ? ? ? [= <- <- <-].
      apply ensures_bind. intros [] s1 o1 E.
      apply destroyRunnerDialog_closed.
      assert (s1 = s) as ->; [|done].
      unfold executeCommand in E. repeat case_decide; by injection E. }
    by_kept. }
  destruct (m_isHelpActive s).
  { case_decide; [|done]. by apply destroyPopUpWindow_closed. }
  apply ensures_bind. intros foc ? ? [= <- <- <-].
  destruct (negb (altPressed (kp_state ev))); [done|].
  repeat case_decide;
    lazymatch goal with
    | |- ensures _ (createExitConfirmationDialog _ _) =>
        exact (createPopUpWindow_closed env "Confirm Exit" ExitConfirmation
                 300 100 s Hs)
    | |- ensures _ (createRunnerDialog _ _) =>
        unfold createRunnerDialog; apply ensures_bind;
        intros [] s1 o1 E;
        pose proof (createPopUpWindow_closed env "Run Program" Runner
                      RUNNER_WIDTH RUNNER_HEIGHT s Hs) as H';
        rewrite E in H'; cbn in H'; cbn; intros d; specialize (H' d);
        by destruct d
    | |- ensures _ (createHelpDialog _ _) =>
        exact (createPopUpWindow_closed env "Key Bindings" Help 400 240 s Hs)
    | |- _ => by_kept
    end.
Qed.

Lemma dispatch_closed env e s :
  closed_dialogs_have_no_window s →
  ensures closed_dialogs_have_no_window (dispatch env e s).
Proof.
  intros Hs.
  destruct e; unfold dispatch; [by apply handleKeyPress_closed|by_kept ..].
Qed.

(** In every state the event loop reaches, a dialog that is not active has
    [XCB_NONE] as its window, so the tests of a window against the dialog
    windows can only succeed for an active dialog or for [XCB_NONE]: a
    button press on a real window is never taken for a click on a closed
    dialog, and with no dialog active the guard of Alt+m reduces to the
    focus being on some window. *)
Theorem closed_dialog_has_no_window (s : WM) :
  reachable s →
  closed_dialogs_have_no_window s
  ∧ (∀ w d, w ≠ XCB_NONE → w = winVar d s → activeFlag d s = true)
  ∧ ((∀ d, activeFlag d s = false) →
     ∀ foc,
       (foc ≠ XCB_NONE ∧ foc ≠ m_runnerWindow s
        ∧ foc ≠ m_exitConfirmationWindow s ∧ foc ≠ m_helpWindow s)
       ↔ foc ≠ XCB_NONE).
Proof.
  intros Hr.
  assert (H : closed_dialogs_have_no_window s).
  { induction Hr as [|s s' _ IH (env & e & x & out & E)].
    - by intros [].
    - assert (Hx : closed_dialogs_have_no_window (set_m_conn x s))
        by (intros d; specialize (IH d); by destruct d).
      pose proof (dispatch_closed env e _ Hx) as H.
      by rewrite E in H. }
  split; [exact H|]. split.
  - intros w d Hw ->. destruct (activeFlag d s) eqn:Hd; [done|].
    by apply H in Hd.
  - intros Hno foc.
    pose proof (H Runner (Hno Runner)) as H1.
    pose proof (H ExitConfirmation (Hno ExitConfirmation)) as H2.
    pose proof (H Help (Hno Help)) as H3. cbn in H1, H2, H3.
    rewrite H1, H2, H3. tauto.
Qed.

Lemma closed_dialog_has_no_window_witness :
  reachable example_two_windows
  ∧ closed_dialogs_have_no_window example_two_windows.
Proof.
  assert (Hr : reachable example_two_windows).
  { apply reachable_run_state; [apply reachable_initial|].
    vm_compute. reflexivity. }
  split; [exact Hr|].
  exact (proj1 (closed_dialog_has_no_window example_two_windows Hr)).
Defined.

(** ** Keys while a dialog is active *)

#[local] Instance modal_kept_preorder : PreOrder modal_kept.
Proof.
  split.
  - intros s. unfold modal_kept. repeat split; reflexivity.
  - intros s1 s2 s3 (A1 & A2 & A3 & A4 & A5 & A6 & A7)
      (B1 & B2 & B3 & B4 & B5 & B6 & B7).
    unfold modal_kept. rewrite B1, B2, B3, B4, B5.
    repeat split; try done; by etrans.
Qed.

Ltac modal_base :=
  unfold modal_kept, registry_shrinks, flags_le;
  repeat match goal with d : Dialog |- _ => destruct d end;
  repeat case_decide; cbn;
  repeat split;
  first [ reflexivity | apply sublist_erase_first
        | intros []; cbn; done ].

Ltac modal_frame := repeat frame_step modal_base fail.

(** While a dialog is active a key press cannot reach the window
    operations: whatever the key and the modifiers, the minimized windows,
    the saved geometries, the geometry cache and both gesture slots stay as
    they are, no window is added to the registry and no dialog is opened. *)
Theorem keys_are_modal (env : Env) (ev : xcb_key_press_event_t) (s : WM) :
  (∃ d, activeFlag d s = true) →
  ensures (modal_kept s) (handleKeyPress env ev s).
Proof.
  intros [d Hd]. unfold handleKeyPress.
  apply ensures_bind. intros ? ? ? [= <- <- <-].
  assert (Hno : m_isExitConfirmationActive s = false →
    m_isRunnerActive s = false → m_isHelpActive s = false → False)
    by (destruct d; simpl in Hd; congruence).
  destruct (m_isExitConfirmationActive s);
    [|destruct (m_isRunnerActive s);
      [|destruct (m_isHelpActive s); [|by exfalso; apply Hno]]];
    by_frame modal_kept modal_frame; done.
Qed.

Lemma keys_are_modal_witness :
  (∃ d, activeFlag d example_ls_typed = true)
  ∧ ensures (modal_kept example_ls_typed)
      (handleKeyPress (example_env 50 51) (mkKeyPress XK_m XCB_MOD_MASK_1)
         example_ls_typed).
Proof.
  assert (H : ∃ d, activeFlag d example_ls_typed = true)
    by (exists Runner; vm_compute; reflexivity).
  split; [exact H|].
  exact (keys_are_modal _ _ _ H).
Defined.

(** ** The index stays in range, minimizing apart *)

Lemma focusNextWindow_loop_index env sz n : ∀ s,
  length (m_windowList s) = sz → sz ≠ 0%nat →
  ensures
    (λ s', m_windowList s' = m_windowList s
           ∧ match n with
             | O => m_currentWindowIndex s' = m_currentWindowIndex s
             | S _ => (m_currentWindowIndex s' < sz)%nat
             end)
    (focusNextWindow_loop env sz n s).
Proof.
  induction n as [|n IH]; intros s Hsz Hnz; [done|].
  rewrite focusNextWindow_loop_S. destruct (viewable env _).
  - rewrite focusWindow_eq. cbn. split; [done|].
    by apply Nat.mod_upper_bound.
  - specialize (IH (set_m_currentWindowIndex
                      ((m_currentWindowIndex s + 1) mod sz)%nat s) Hsz Hnz).
    destruct (focusNextWindow_loop _ _ _ _) as [[] s' o|]; [|done].
    cbn in *. destruct IH as [Hl Hi]. split; [done|].
    destruct n; [|done]. rewrite Hi. by apply Nat.mod_upper_bound.
Qed.

Lemma focusNextWindow_index env s :
  ensures
    (λ s', m_windowList s' = m_windowList s
           ∧ (m_windowList s ≠ [] →
              (m_currentWindowIndex s' < length (m_windowList s'))%nat)
           ∧ (m_windowList s = [] → s' = s))
    (focusNextWindow env s).
Proof.
  unfold focusNextWindow. rewrite bind_eq with (a := s) (s1 := s) (o1 := [])
    by reflexivity.
  rewrite prepend_nil. destruct (m_windowList s) as [|v l] eqn:El; [done|].
  pose proof (focusNextWindow_loop_index env (length (v :: l))
                (length (v :: l)) s) as H.
  rewrite El in H. specialize (H eq_refl ltac:(done)).
  destruct (focusNextWindow_loop _ _ _ _) as [[] s' o|]; [|done].
  cbn [ensures] in *. destruct H as [Hl Hi]. rewrite Hl.
  split; [done|]. split; [|done]. intros _. exact Hi.
Qed.

Lemma draw_lines_index_ok w ls :
  ∀ y, respects keeps_index_ok (draw_lines w ls y).
Proof.
  induction ls; intros y; simpl;
    repeat frame_step index_base ltac:(apply IHls).
Qed.

Ltac index_frame_all :=
  repeat frame_step index_base
    ltac:(idtac;
          first [ lazymatch goal with
                  | |- respects _ (restore_loop _) =>
                      apply restore_loop_index_ok
                  | |- respects _ (draw_lines _ _ _) =>
                      apply draw_lines_index_ok
                  | |- respects _ (focusNextWindow_loop _ _ _) => fail 2
                  end
                | index_pairs ]).

Ltac by_index :=
  by_frame keeps_index_ok index_frame_all;
  intros ? Hkeep; by apply Hkeep.

(** The current index is kept in range (a position of the registry, or 0
    with an empty registry) by every event except the minimize chord: if it
    is in range before an event that is not Alt+m pressed with no dialog
    active, it is in range afterwards.  Alt+Tab even repairs it: with a
    non-empty registry the index is a position afterwards, wherever it was
    before. *)
Theorem only_minimize_breaks_index (env : Env) (e : Event) (s : WM) :
  (index_ok s →
   (∀ ev, e = KeyPress ev →
      (∀ d, activeFlag d s = false) →
      altPressed (kp_state ev) = true →
      getKeysym env (kp_detail ev) (kp_state ev) ≠ XK_m) →
   ensures index_ok (dispatch env e s))
  ∧ (m_windowList s ≠ [] →
     ensures
       (λ s', (m_currentWindowIndex s' < length (m_windowList s'))%nat)
       (focusNextWindow env s)).
Proof.
  split.
  2:{ intros Hne. pose proof (focusNextWindow_index env s) as H.
      destruct (focusNextWindow env s); [|done]. cbn in *.
      destruct H as (_ & H & _). by apply H. }
  intros Hs Hm.
  destruct e as [ev| | | | | | | | | | |]; unfold dispatch; [|by_index ..].
  specialize (Hm ev eq_refl). unfold handleKeyPress.
  apply ensures_bind. intros ? ? ? [= <- <- <-].
  destruct (m_isExitConfirmationActive s) eqn:E1; [by_index|].
  destruct (m_isRunnerActive s) eqn:E2; [by_index|].
  destruct (m_isHelpActive s) eqn:E3; [by_index|].
  apply ensures_bind. intros foc ? ? [= <- <- <-].
  destruct (altPressed (kp_state ev)) eqn:Ea; [|done]. cbn [negb].
  assert (Hk : getKeysym env (kp_detail ev) (kp_state ev) ≠ XK_m).
  { apply Hm; [|done]. by intros []. }
  repeat case_decide;
    lazymatch goal with
    | |- ensures _ (focusNextWindow _ _) =>
        pose proof (focusNextWindow_index env s) as H';
        destruct (focusNextWindow env s) as [[] s' o|]; [|done];
        cbn [ensures] in *; destruct H' as (Hl & Hi & He);
        destruct (m_windowList s) eqn:El;
        [ rewrite (He eq_refl); exact Hs
        | left; by apply Hi ]
    | |- ensures _ (minimizeWindow _ _) => done
    | |- _ => by_index
    end.
Qed.

Lemma only_minimize_breaks_index_witness :
  index_ok example_two_windows
  ∧ ensures index_ok
      (dispatch (example_env 6 50) (alt_key XK_Tab) example_two_windows)
  ∧ ensures index_ok
      (dispatch (example_env 6 50) (DestroyNotify 6) example_two_windows).
Proof.
  assert (H1 : index_ok example_two_windows) by (left; vm_compute; lia).
  split; [exact H1|]. split.
  - apply (only_minimize_breaks_index (example_env 6 50) (alt_key XK_Tab)
             example_two_windows); [exact H1|].
    intros ev [= <-] _ _. vm_compute. discriminate.
  - apply (only_minimize_breaks_index (example_env 6 50) (DestroyNotify 6)
             example_two_windows); [exact H1|].
    intros ev [=].
Defined.

(** ** Typing a command *)

Lemma append_assoc_string (a b c : string) :
  ((a +:+ b) +:+ c = a +:+ (b +:+ c))%string.
Proof.
  induction a as [|x a IH]; [done|].
  change (String x ((a +:+ b) +:+ c) = String x (a +:+ (b +:+ c))).
  by rewrite IH.
Qed.

Lemma append_empty_r (a : string) : (a +:+ "" = a)%string.
Proof.
  induction a as [|x a IH]; [done|].
  change (String x (a +:+ "") = String x a). by rewrite IH.
Qed.

Lemma keys_typed ps : ∀ s,
  m_isExitConfirmationActive s = false → runner_open s →
  Forall (λ p, 32 ≤ keysym_of p ≤ 126) ps →
  ∃ out,
    run (key_events ps) s
    = Ret tt (set_m_runnerInput (m_runnerInput s +:+ typed_word ps) s) out
    ∧ List.filter is_shell out = [].
Proof.
  induction ps as [|p ps IH]; intros s He [Ha Hw] Hps.
  - exists []. cbn. unfold typed_word. cbn.
    by rewrite append_empty_r, set_m_runnerInput_same.
  - apply Forall_cons in Hps as [Hp Hps].
    cbn [key_events fmap list_fmap run dispatch].
    assert (E : handleKeyPress p.1 p.2 s
      = Ret tt
          (set_m_runnerInput
             (push_back (m_runnerInput s) (ascii_of_N (Z.to_N (keysym_of p))))
             s)
          (redraw_request s)).
    { unfold handleKeyPress. mstep. rewrite He, Ha. rewrite prepend_nil.
      fold (keysym_of p).
      rewrite handleRunnerInput_printable by done.
      by rewrite Ha, bool_decide_eq_false_2. }
    erewrite bind_eq by exact E.
    destruct (IH (set_m_runnerInput
                    (push_back (m_runnerInput s)
                       (ascii_of_N (Z.to_N (keysym_of p)))) s))
      as (out & Er & Hout); [done|done|done|].
    fold (key_events ps). rewrite Er. cbn [prepend]. eexists. split.
    + apply (f_equal2 (Ret tt)); [|reflexivity].
      cbn [m_runnerInput set_m_runnerInput]. unfold push_back, typed_word.
      cbn [fmap list_fmap string_of_list_ascii].
      rewrite append_assoc_string. by destruct s.
    + cbn. exact Hout.
Qed.

(** Typing a command into the open Runner and pressing Enter: the key
    presses, each routed through the event loop, append their characters to
    the buffer in order, and Enter hands exactly the buffer followed by the
    typed characters to the shell, once, when the text is not empty and
    [fork] succeeds; when [fork] fails nothing is run.  In both cases the
    Runner is closed afterwards and its buffer is empty. *)
Theorem runner_types_and_runs
    (typed : list (Env * xcb_key_press_event_t))
    (enter : Env * xcb_key_press_event_t) (s : WM) :
  m_isExitConfirmationActive s = false →
  runner_open s →
  Forall (λ p, 32 ≤ keysym_of p ≤ 126) typed →
  keysym_of enter = XK_Return →
  (m_runnerInput s +:+ typed_word typed)%string ≠ ""%string →
  ∃ s' out,
    run (key_events (typed ++ [enter])) s = Ret tt s' out
    ∧ runner_closed s'
    ∧ List.filter is_shell out
      = (if decide (fork enter.1 < 0) then []
         else [Shell (m_runnerInput s +:+ typed_word typed)]).
Proof.
  intros He Hopen Hps Hret Hne.
  destruct (keys_typed typed s He Hopen Hps) as (out1 & E1 & Ho1).
  unfold key_events. rewrite fmap_app. fold (key_events typed).
  rewrite (run_app _ _ _ _ _ E1).
  set (s1 := set_m_runnerInput _ s).
  assert (Hopen1 : runner_open s1) by done.
  cbn [fmap list_fmap run dispatch]. unfold handleKeyPress.
  fold (keysym_of enter). rewrite Hret.
  rewrite bind_assoc. mstep. rewrite prepend_nil.
  change (m_isExitConfirmationActive s1) with (m_isExitConfirmationActive s).
  change (m_isRunnerActive s1) with (m_isRunnerActive s).
  rewrite He, (proj1 Hopen).
  unfold handleRunnerInput.
  rewrite decide_False by done. rewrite decide_True by done.
  rewrite bind_assoc. mstep. rewrite prepend_nil.
  unfold executeCommand.
  change (m_runnerInput s1) with (m_runnerInput s +:+ typed_word typed)%string.
  rewrite decide_False by done.
  destruct (destroyRunnerDialog_closes s1 Hopen1)
    as (s' & out & E & Hc & Hs & _).
  rewrite bind_assoc.
  destruct (decide (fork enter.1 < 0)).
  - erewrite bind_eq by reflexivity. rewrite prepend_nil.
    erewrite bind_eq by exact E. unfold ret. cbn [prepend].
    eexists _, _. split; [reflexivity|]. split; [done|].
    rewrite !List.filter_app, Ho1, Hs. reflexivity.
  - erewrite bind_eq by reflexivity.
    erewrite bind_eq by exact E. unfold ret. cbn [prepend].
    eexists _, _. split; [reflexivity|]. split; [done|].
    rewrite !List.filter_app, Ho1, Hs. reflexivity.
Qed.

(** The Runner opened with Alt+r; [l], [s] and Enter pressed. *)
Lemma runner_types_and_runs_witness :
  let s :=
    state_of (dispatch (example_env 0 50) (alt_key XK_r) example_initial)
      example_initial in
  let env := example_env 50 51 in
  let typed := [(env, mkKeyPress 108 0); (env, mkKeyPress 115 0)] in
  let enter := (env, mkKeyPress XK_Return 0) in
  runner_open s
  ∧ ∃ s' out,
      run (key_events (typed ++ [enter])) s = Ret tt s' out
      ∧ runner_closed s'
      ∧ List.filter is_shell out = [Shell "ls"].
Proof.
  intros s env typed enter.
  assert (Ho : runner_open s) by (split; vm_compute; [reflexivity|discriminate]).
  split; [exact Ho|].
  apply (runner_types_and_runs typed enter s).
  - vm_compute. reflexivity.
  - exact Ho.
  - repeat constructor; vm_compute; discriminate.
  - vm_compute. reflexivity.
  - vm_compute. discriminate.
Defined.

(** ** Client messages *)

(** A client message of type [WM_PROTOCOLS] whose first datum is
    [WM_DELETE_WINDOW] makes the window manager destroy the window it names:
    the server forgets the window, while the registry, the index, the
    minimized windows and the geometry cache keep what they hold until the
    destroy notification arrives.  Any other message of type
    [_NET_ACTIVE_WINDOW] focuses the window in its second datum, unless that
    is 0, and changes no field: the index does not follow the focus. *)
Theorem client_message_close_and_activate
    (cm : xcb_client_message_event_t) (s : WM) :
  let close :=
    cm_type cm = WM_PROTOCOLS s ∧ cm_data0 cm = WM_DELETE_WINDOW s in
  (close →
   ∃ s',
     handleClientMessage cm s
     = Ret tt s' [DestroyWindow (cm_window cm); Flush]
     ∧ x_geometry (m_conn s') !! cm_window cm = None
     ∧ m_windowList s' = m_windowList s
     ∧ m_currentWindowIndex s' = m_currentWindowIndex s
     ∧ m_minimizedWindows s' = m_minimizedWindows s
     ∧ m_geometryCache s' = m_geometryCache s)
  ∧ (¬ close → cm_type cm = NET_ACTIVE_WINDOW s →
     handleClientMessage cm s = Ret tt s (focus_requests (cm_data1 cm))).
Proof.
  intros close. unfold handleClientMessage. split.
  - intros Hc. mstep. rewrite decide_True by exact Hc.
    unfold xcb_destroy_window, xcb_flush, on_server. mrun. unfold send.
    cbn [prepend app]. eexists. split; [reflexivity|].
    cbn. by rewrite lookup_delete_eq.
  - intros Hc Ha. mstep. rewrite decide_False by exact Hc.
    rewrite decide_True by exact Ha. rewrite prepend_nil.
    case_decide as Hw.
    + apply focusWindow_eq.
    + unfold focus_requests, XCB_NONE. by rewrite decide_True.
Qed.

Lemma client_message_close_and_activate_witness :
  let s := example_two_windows in
  (∃ s',
     handleClientMessage (mkClientMessage 6 300 301 0) s
     = Ret tt s' [DestroyWindow 6; Flush]
     ∧ x_geometry (m_conn s') !! 6 = None
     ∧ m_windowList s' = [5; 6])
  ∧ handleClientMessage (mkClientMessage 1 303 0 5) s
    = Ret tt s (focus_requests 5).
Proof.
  intros s. split.
  - destruct (client_message_close_and_activate
                (mkClientMessage 6 300 301 0) s) as [H _].
    destruct H as (s' & E & Hg & Hl & _).
    { split; vm_compute; reflexivity. }
    exists s'. split; [exact E|]. split; [exact Hg|].
    rewrite Hl. vm_compute. reflexivity.
  - destruct (client_message_close_and_activate
                (mkClientMessage 1 303 0 5) s) as [_ H].
    apply H.
    + intros [H1 _]. vm_compute in H1. discriminate.
    + vm_compute. reflexivity.
Defined.

(** ** Minimizing a window that is not registered *)

(** Alt+m does not ask whether the focused window is registered.  For a
    window outside the registry (an override-redirect window, say) it still
    unmaps the window and records it as minimized, leaving the registry as
    it is; Alt+n then registers the window: it is in the registry
    afterwards, at the end when it was not minimized before, and the
    minimized list is empty. *)
Theorem minimize_restore_adopts_unmanaged (foc : xcb_window_t) (s : WM) :
  foc ≠ XCB_NONE →
  foc ≠ m_runnerWindow s →
  foc ≠ m_exitConfirmationWindow s →
  foc ≠ m_helpWindow s →
  foc ∉ m_windowList s →
  ∃ s1 s2 out2,
    minimizeWindow foc s = Ret tt s1 (UnmapWindow foc :: reset_requests s)
    ∧ m_windowList s1 = m_windowList s
    ∧ m_minimizedWindows s1 = m_minimizedWindows s ++ [foc]
    ∧ restoreMinimized s1 = Ret tt s2 out2
    ∧ foc ∈ m_windowList s2
    ∧ (foc ∉ m_minimizedWindows s →
       m_windowList s2
       = foldl push_absent (m_windowList s) (m_minimizedWindows s) ++ [foc])
    ∧ m_minimizedWindows s2 = [].
Proof.
  intros H0 H1 H2 H3 Hout.
  rewrite (minimizeWindow_eq foc s H0 H1 H2 H3).
  rewrite (erase_first_notin _ _ Hout), set_m_windowList_same.
  set (s1 := set_m_minimizedWindows _ s).
  pose proof (restoreMinimized_eq s1) as E2. cbv zeta in E2.
  exists s1. eexists _, _. split; [reflexivity|].
  split; [done|]. split; [done|]. split; [exact E2|].
  cbn [m_windowList m_minimizedWindows set_m_minimizedWindows
    set_m_windowList s1].
  split; [|split; [|done]].
  - apply elem_of_restored. right. rewrite elem_of_app, elem_of_cons. tauto.
  - intros Hmin. by apply restored_last.
Qed.

(** Window 9 is not registered among 5 and 6. *)
Lemma minimize_restore_adopts_unmanaged_witness :
  (9 ∉ m_windowList example_two_windows)
  ∧ ∃ s1 s2 out2,
      minimizeWindow 9 example_two_windows
      = Ret tt s1 (UnmapWindow 9 :: focus_requests 6)
      ∧ m_windowList s1 = [5; 6]
      ∧ restoreMinimized s1 = Ret tt s2 out2
      ∧ m_windowList s2 = [5; 6; 9]
      ∧ m_minimizedWindows s2 = [].
Proof.
  assert (H : 9 ∉ m_windowList example_two_windows)
    by (apply (bool_decide_unpack _); vm_compute; exact I).
  split; [exact H|].
  destruct (minimize_restore_adopts_unmanaged 9 example_two_windows)
    as (s1 & s2 & out2 & E1 & Hl1 & _ & E2 & _ & Hl2 & Hm2);
    [vm_compute; discriminate .. | exact H |].
  exists s1, s2, out2. split; [exact E1|]. split.
  { rewrite Hl1. vm_compute. reflexivity. }
  split; [exact E2|]. split; [|exact Hm2].
  rewrite Hl2.
  - vm_compute. reflexivity.
  - apply (bool_decide_unpack _). vm_compute. exact I.
Defined.

(** ** Start-up: the grabs *)

(** The grabs match the handlers.  Every chord [handleKeyPress] binds is
    grabbed on each of its keycodes with Alt alone and with Alt plus any
    combination of Caps Lock and Num Lock, and so are buttons 1 and 3; for
    each of these states the handlers see Alt as pressed and [getKeysym]
    reads the unshifted column.  Conversely every grab has Alt in its
    modifiers and never Shift, and every grabbed key is a keycode of one of
    the eight bound keysyms. *)
Theorem grabs_match_bindings
    (keycodes : xcb_keysym_t → option (list Z)) (env : Env) :
  (∀ ks kc code (lock num : bool),
     ks ∈ keysToGrab → keycodes ks = Some kc → code ∈ kc →
     GrabKey (alt_with lock num) code ∈ grabKeysAndButtons keycodes)
  ∧ (∀ lock num : bool,
       GrabButton 1 (alt_with lock num) ∈ grabKeysAndButtons keycodes
       ∧ GrabButton 3 (alt_with lock num) ∈ grabKeysAndButtons keycodes
       ∧ altPressed (alt_with lock num) = true
       ∧ ∀ code,
           getKeysym env code (alt_with lock num) = key_symbols env code 0)
  ∧ (∀ g, g ∈ grabKeysAndButtons keycodes →
       (∃ lock num, grab_modifiers g = alt_with lock num)
       ∧ Z.land (grab_modifiers g) XCB_MOD_MASK_SHIFT = 0
       ∧ match g with
         | GrabKey _ code =>
             ∃ ks kc, ks ∈ keysToGrab ∧ keycodes ks = Some kc ∧ code ∈ kc
         | GrabButton b _ => b = 1 ∨ b = 3
         end).
Proof.
  assert (Hmods : ∀ m, m ∈ modifiers ↔ ∃ lock num, m = alt_with lock num).
  { intros m. unfold modifiers. rewrite !elem_of_cons, elem_of_nil. split.
    - intros [->|[->|[->|[->|[]]]]];
        [exists false, false | exists true, false | exists false, true
        | exists true, true]; reflexivity.
    - intros (lock & num & ->). destruct lock, num; vm_compute; tauto. }
  split; [|split].
  - intros ks kc code lock num Hks Hkc Hcode. unfold grabKeysAndButtons.
    apply list_elem_of_In, in_flat_map. exists (alt_with lock num). split.
    { apply list_elem_of_In, Hmods. eauto. }
    apply in_or_app. left. apply in_flat_map. exists ks.
    split; [by apply list_elem_of_In|]. rewrite Hkc.
    apply list_elem_of_In, list_elem_of_fmap. eauto.
  - intros lock num. split; [|split; [|split]].
    + unfold grabKeysAndButtons.
      apply list_elem_of_In, in_flat_map. exists (alt_with lock num). split.
      { apply list_elem_of_In, Hmods. eauto. }
      apply in_or_app. right. left. reflexivity.
    + unfold grabKeysAndButtons.
      apply list_elem_of_In, in_flat_map. exists (alt_with lock num). split.
      { apply list_elem_of_In, Hmods. eauto. }
      apply in_or_app. right. right. left. reflexivity.
    + by destruct lock, num.
    + intros code. by destruct lock, num.
  - intros g Hg. unfold grabKeysAndButtons in Hg.
    apply list_elem_of_In, in_flat_map in Hg as (m & Hm & Hg).
    apply list_elem_of_In, Hmods in Hm as (lock & num & ->).
    apply in_app_or in Hg as [Hg|Hg].
    + apply in_flat_map in Hg as (ks & Hks & Hg).
      destruct (keycodes ks) as [kc|] eqn:Ekc; [|done].
      apply list_elem_of_In, list_elem_of_fmap in Hg as (code & -> & Hcode).
      cbn [grab_modifiers]. split; [eauto|]. split.
      * by destruct lock, num.
      * exists ks, kc. split; [by apply list_elem_of_In|done].
    + destruct Hg as [<-|[<-|[]]]; cbn [grab_modifiers];
        (split; [eauto|]); (split; [by destruct lock, num|]); tauto.
Qed.

(** A keyboard on which [f] is keycode 41 and no other bound key exists:
    41 is grabbed with Alt, Caps Lock and Num Lock all set. *)
Lemma grabs_match_bindings_witness :
  let keycodes ks := if decide (ks = XK_f) then Some [41] else None in
  XK_f ∈ keysToGrab
  ∧ GrabKey 26 41 ∈ grabKeysAndButtons keycodes
  ∧ GrabButton 3 8 ∈ grabKeysAndButtons keycodes.
Proof.
  intros keycodes.
  assert (H : XK_f ∈ keysToGrab) by left.
  split; [exact H|].
  destruct (grabs_match_bindings keycodes (example_env 0 50)) as (H1 & H2 & _).
  split.
  - apply (H1 XK_f [41] 41 true true H); [reflexivity | left].
  - exact (proj1 (proj2 (H2 false false))).
Defined.

(** ** Shutdown *)

Lemma cleanup_loop_eq ws : ∀ s,
  cleanup_loop ws s
  = Ret tt (set_m_conn (foldl (λ x w, server_destroy w x) (m_conn s) ws) s)
      (DestroyWindow <$> ws).
Proof.
  induction ws as [|w ws IH]; intros s.
  - cbn. by rewrite set_m_conn_same.
  - cbn [cleanup_loop]. unfold xcb_destroy_window, on_server.
    mrun. rewrite IH. cbn [prepend]. by destruct s.
Qed.

Lemma destroyed_all_lookup ws : ∀ x w,
  x_geometry (foldl (λ x w, server_destroy w x) x ws) !! w
  = if decide (w ∈ ws) then None else x_geometry x !! w.
Proof.
  induction ws as [|v ws IH]; intros x w; cbn [foldl].
  - rewrite decide_False; [done|]. apply not_elem_of_nil.
  - rewrite IH. destruct (decide (w ∈ ws)) as [Hin|Hin].
    + rewrite decide_True; [done|]. by right.
    + cbn [server_destroy x_geometry]. destruct (decide (w = v)) as [->|Hne].
      * rewrite decide_True by left. apply lookup_delete_eq.
      * rewrite decide_False by (rewrite elem_of_cons; tauto).
        by apply lookup_delete_ne.
Qed.

(** [cleanup] destroys the registered windows in registry order and no
    other window: afterwards the server knows none of them, and every
    window outside the registry, a minimized one in particular, is as it
    was.  The registry itself and the minimized list are not cleared. *)
Theorem cleanup_destroys_registered (s : WM) :
  ∃ s',
    cleanup s = Ret tt s' ((DestroyWindow <$> m_windowList s) ++ [Flush])
    ∧ (∀ w, w ∈ m_windowList s → x_geometry (m_conn s') !! w = None)
    ∧ (∀ w, w ∉ m_windowList s →
         x_geometry (m_conn s') !! w = x_geometry (m_conn s) !! w)
    ∧ m_windowList s' = m_windowList s
    ∧ m_minimizedWindows s' = m_minimizedWindows s.
Proof.
  unfold cleanup, xcb_flush. mstep. rewrite prepend_nil.
  erewrite bind_eq by apply cleanup_loop_eq. unfold send. cbn [prepend].
  eexists. split; [reflexivity|]. cbn [m_conn set_m_conn].
  split; [|split; [|done]].
  - intros w Hw. by rewrite destroyed_all_lookup, decide_True.
  - intros w Hw. by rewrite destroyed_all_lookup, decide_False.
Qed.

(** After windows 5 and 6 are registered, [cleanup] destroys both. *)
Lemma cleanup_destroys_registered_witness :
  ∃ s',
    cleanup example_two_windows
    = Ret tt s' [DestroyWindow 5; DestroyWindow 6; Flush]
    ∧ x_geometry (m_conn s') !! 6 = None.
Proof.
  destruct (cleanup_destroys_registered example_two_windows)
    as (s' & E & H & _).
  exists s'. split; [exact E|].
  apply H. apply (bool_decide_unpack _). vm_compute. exact I.
Defined.

(** ** Which events write which fields *)

#[local] Instance dialog_state_kept_preorder : PreOrder dialog_state_kept.
Proof.
  split.
  - intros s. by split; [intros d|].
  - intros s1 s2 s3 (A1 & A2 & A3 & A4) (B1 & B2 & B3 & B4).
    split; [by etrans|]. by rewrite B2, B3, B4.
Qed.

#[local] Instance registry_kept_preorder : PreOrder registry_kept.
Proof.
  split; [by intros s|].
  intros s1 s2 s3 [A1 A2] [B1 B2]. split; congruence.
Qed.

#[local] Instance gestures_kept_preorder : PreOrder gestures_kept.
Proof.
  split; [by intros s|].
  intros s1 s2 s3 [A1 A2] [B1 B2]. split; congruence.
Qed.

#[local] Instance setup_kept_preorder : PreOrder setup_kept.
Proof.
  split; [intros s; unfold setup_kept; tauto|].
  intros s1 s2 s3 (A1 & A2 & A3 & A4 & A5 & A6 & A7)
    (B1 & B2 & B3 & B4 & B5 & B6 & B7).
  unfold setup_kept. rewrite B1, B2, B3, B4, B5, B6, B7. tauto.
Qed.

Ltac fields_base :=
  unfold dialog_state_kept, dialog_fields_kept, registry_kept, gestures_kept,
    setup_kept;
  repeat match goal with d : Dialog |- _ => destruct d end;
  repeat case_decide; cbn;
  repeat split; first [reflexivity | intros []; split; reflexivity].

Lemma focusNextWindow_loop_gestures env sz n :
  respects gestures_kept (focusNextWindow_loop env sz n).
Proof. induction n; simpl; repeat frame_step fields_base assumption. Qed.

Lemma restore_loop_gestures ws : respects gestures_kept (restore_loop ws).
Proof. induction ws; simpl; repeat frame_step fields_base assumption. Qed.

Lemma draw_lines_gestures w ls :
  ∀ y, respects gestures_kept (draw_lines w ls y).
Proof.
  induction ls; intros y; simpl;
    repeat frame_step fields_base ltac:(apply IHls).
Qed.

Lemma focusNextWindow_loop_setup env sz n :
  respects setup_kept (focusNextWindow_loop env sz n).
Proof. induction n; simpl; repeat frame_step fields_base assumption. Qed.

Lemma restore_loop_setup ws : respects setup_kept (restore_loop ws).
Proof. induction ws; simpl; repeat frame_step fields_base assumption. Qed.

Lemma draw_lines_setup w ls : ∀ y, respects setup_kept (draw_lines w ls y).
Proof.
  induction ls; intros y; simpl;
    repeat frame_step fields_base ltac:(apply IHls).
Qed.

Lemma draw_lines_dialog_state w ls :
  ∀ y, respects dialog_state_kept (draw_lines w ls y).
Proof.
  induction ls; intros y; simpl;
    repeat frame_step fields_base ltac:(apply IHls).
Qed.

Lemma draw_lines_registry w ls :
  ∀ y, respects registry_kept (draw_lines w ls y).
Proof.
  induction ls; intros y; simpl;
    repeat frame_step fields_base ltac:(apply IHls).
Qed.

Ltac fields_loops :=
  idtac;
  lazymatch goal with
  | |- respects gestures_kept (focusNextWindow_loop _ _ _) =>
      apply focusNextWindow_loop_gestures
  | |- respects gestures_kept (restore_loop _) => apply restore_loop_gestures
  | |- respects gestures_kept (draw_lines _ _ _) => apply draw_lines_gestures
  | |- respects setup_kept (focusNextWindow_loop _ _ _) =>
      apply focusNextWindow_loop_setup
  | |- respects setup_kept (restore_loop _) => apply restore_loop_setup
  | |- respects setup_kept (draw_lines _ _ _) => apply draw_lines_setup
  | |- respects dialog_state_kept (draw_lines _ _ _) =>
      apply draw_lines_dialog_state
  | |- respects registry_kept (draw_lines _ _ _) => apply draw_lines_registry
  end.

Ltac fields_frame := repeat frame_step fields_base fields_loops.

(** The footprint of each kind of event.  The screen, the root window and
    the atoms are written by no event.  The gesture slots are written by
    button presses and releases only.  The registry and the index are
    written by key presses, map requests and destroy notifications only.
    The dialog flags and windows, the Runner buffer, the minimized windows
    and the saved geometries are written by key presses only. *)
Theorem event_footprints (env : Env) (e : Event) (s : WM) :
  ensures
    (λ s',
       setup_kept s s'
       ∧ (match e with
          | ButtonPress _ | ButtonRelease => True
          | _ => gestures_kept s s'
          end)
       ∧ (match e with
          | KeyPress _ | MapRequest _ | DestroyNotify _ => True
          | _ => registry_kept s s'
          end)
       ∧ (match e with
          | KeyPress _ => True
          | _ => dialog_state_kept s s'
          end))
    (dispatch env e s).
Proof.
  assert (H1 : ensures (setup_kept s) (dispatch env e s)).
  { destruct e; unfold dispatch; by_frame setup_kept fields_frame; done. }
  assert (H2 : match e with
               | ButtonPress _ | ButtonRelease => True
               | _ => ensures (gestures_kept s) (dispatch env e s)
               end).
  { destruct e; try exact I; unfold dispatch;
      by_frame gestures_kept fields_frame; done. }
  assert (H3 : match e with
               | KeyPress _ | MapRequest _ | DestroyNotify _ => True
               | _ => ensures (registry_kept s) (dispatch env e s)
               end).
  { destruct e; try exact I; unfold dispatch;
      by_frame registry_kept fields_frame; done. }
  assert (H4 : match e with
               | KeyPress _ => True
               | _ => ensures (dialog_state_kept s) (dispatch env e s)
               end).
  { destruct e; try exact I; unfold dispatch;
      by_frame dialog_state_kept fields_frame; done. }
  destruct (dispatch env e s) as [[] s' o|]; [|done]. cbn [ensures] in *.
  split; [exact H1|]. destruct e; tauto.
Qed.

(** ** Cycling through the windows *)

Lemma focusNextWindow_viewable env s :
  m_windowList s ≠ [] →
  (∀ w, w ∈ m_windowList s → viewable env w = true) →
  let N := length (m_windowList s) in
  let i := ((m_currentWindowIndex s + 1) mod N)%nat in
  let w := nth i (m_windowList s) XCB_NONE in
  focusNextWindow env s
  = Ret tt (set_m_currentWindowIndex i s)
      (GetWindowAttributes w :: focus_requests w).
Proof.
  intros Hne Hv N i w. unfold focusNextWindow. mstep. rewrite prepend_nil.
  assert (Hmatch : ∀ (a b : M unit) (l : list xcb_window_t),
            l ≠ [] → match l with [] => a | _ => b end = b)
    by (by intros ? ? [|? ?] ?).
  rewrite Hmatch by done. fold N.
  assert (HN : N ≠ 0%nat)
    by (subst N; destruct (m_windowList s); [done | cbn; lia]).
  assert (Hc : candidate s 0 = w).
  { unfold candidate. by rewrite Nat.add_0_r. }
  assert (Hw : viewable env (candidate s 0) = true).
  { rewrite Hc. apply Hv. apply list_elem_of_In, nth_In.
    by apply Nat.mod_upper_bound. }
  rewrite (focusNextWindow_loop_found env N 0 N s eq_refl); [| lia | | done].
  - rewrite Nat.add_0_r. cbn [seq fmap list_fmap app]. rewrite Hc.
    reflexivity.
  - intros j Hj. lia.
Qed.

Lemma set_m_currentWindowIndex_twice a b s :
  set_m_currentWindowIndex a (set_m_currentWindowIndex b s)
  = set_m_currentWindowIndex a s.
Proof. by destruct s. Qed.

(** With every registered window viewable, k presses of Alt+Tab in a row
    (k > 0) advance the index by k positions cyclically, and the last
    requests focus the window at the new index; as many presses as there
    are windows bring the index back to where it was. *)
Theorem tab_cycles_through_registry (env : Env) (k : nat) (s : WM) :
  m_windowList s ≠ [] →
  (∀ w, w ∈ m_windowList s → viewable env w = true) →
  let N := length (m_windowList s) in
  let i := ((m_currentWindowIndex s + S k) mod N)%nat in
  (∃ out,
     repeat_m (S k) (focusNextWindow env) s
     = Ret tt (set_m_currentWindowIndex i s)
         (out ++ focus_requests (nth i (m_windowList s) XCB_NONE)))
  ∧ ((m_currentWindowIndex s < N)%nat →
     ∃ out, repeat_m N (focusNextWindow env) s = Ret tt s out).
Proof.
  intros Hne Hv N i.
  assert (Hk : ∀ k s,
    m_windowList s ≠ [] →
    (∀ w, w ∈ m_windowList s → viewable env w = true) →
    ∃ out,
      repeat_m (S k) (focusNextWindow env) s
      = Ret tt
          (set_m_currentWindowIndex
             ((m_currentWindowIndex s + S k) mod length (m_windowList s))%nat
             s)
          (out ++ focus_requests
                    (nth ((m_currentWindowIndex s + S k)
                            mod length (m_windowList s))%nat
                       (m_windowList s) XCB_NONE))).
  { clear. induction k as [|k IH]; intros s Hne Hv.
    - cbn [repeat_m]. erewrite bind_eq by (by apply focusNextWindow_viewable).
      unfold ret. cbn [prepend]. eexists [_].
      by rewrite app_nil_r.
    - change (repeat_m (S (S k)) (focusNextWindow env))
        with (focusNextWindow env ;; repeat_m (S k) (focusNextWindow env)).
      erewrite bind_eq by (by apply focusNextWindow_viewable).
      set (s1 := set_m_currentWindowIndex _ s).
      destruct (IH s1 Hne Hv) as (out & E). rewrite E. cbn [prepend].
      subst s1. cbn [m_currentWindowIndex m_windowList
        set_m_currentWindowIndex].
      rewrite set_m_currentWindowIndex_twice, Nat.Div0.add_mod_idemp_l.
      replace (m_currentWindowIndex s + 1 + S k)%nat
        with (m_currentWindowIndex s + S (S k))%nat by lia.
      eexists. by rewrite app_assoc. }
  split; [by apply Hk|].
  intros Hi.
  assert (HN : N = S (N - 1))
    by (subst N; destruct (m_windowList s); [done | cbn; lia]).
  rewrite HN. destruct (Hk (N - 1)%nat s Hne Hv) as (out & E).
  rewrite E. eexists. apply (f_equal2 (Ret tt)); [|reflexivity].
  change (length (m_windowList s)) with N.
  replace (m_currentWindowIndex s + S (N - 1))%nat
    with (m_currentWindowIndex s + 1 * N)%nat by lia.
  rewrite Nat.Div0.mod_add, Nat.mod_small by done. by destruct s.
Qed.

(** Windows 5 and 6, both viewable: two presses come back to window 6. *)
Lemma tab_cycles_through_registry_witness :
  m_windowList example_two_windows ≠ []
  ∧ (∃ out,
       repeat_m 1 (focusNextWindow (example_env 6 50)) example_two_windows
       = Ret tt (set_m_currentWindowIndex 0%nat example_two_windows)
           (out ++ focus_requests 5))
  ∧ ∃ out,
      repeat_m 2 (focusNextWindow (example_env 6 50)) example_two_windows
      = Ret tt example_two_windows out.
Proof.
  assert (H1 : m_windowList example_two_windows ≠ [])
    by (vm_compute; discriminate).
  assert (H2 : ∀ w, w ∈ m_windowList example_two_windows →
                    viewable (example_env 6 50) w = true) by done.
  split; [exact H1|].
  destruct (tab_cycles_through_registry (example_env 6 50) 0
              example_two_windows H1 H2) as [Ha _].
  destruct (tab_cycles_through_registry (example_env 6 50) 1
              example_two_windows H1 H2) as [_ Hb].
  split; [exact Ha|].
  apply Hb. vm_compute. lia.
Defined.
